(** * TruthLens: implication chains, extraction batches and result stores

    A shallow embedding of the deterministic core of the TruthLens pipeline:

    - [agents/critic/tools/implication_chains.py]: text normalisation, the
      coverage similarity, modality classification, the claim matcher, the
      per-candidate evidence scan, the verdict policy and chain assembly;
    - [agents/critic/tools/critic_tool.py]: [run_critic], which persists the
      chains;
    - [agents/pattern_analyzer/tools/firecrawl_pattern_analyzer.py]: the batch
      loop of [run_pattern_analyzer];
    - [memory/pattern_analysis_store.py], [memory/critic_store.py],
      [memory/local_store.py], [memory/session_store.py]: the JSON stores.

    Conventions of the embedding.

    - A Python [str] is a Rocq [string] whose characters are read as the code
      points 0..255; [lower], [split] and [strip] follow CPython on that range.
    - [Optional[str]] is [option string]; Python truthiness of a string or an
      optional string is [truthy] / [truthy_opt].
    - A store file holds dumped models, which validate back to themselves,
      so a store maps keys to the records.
    - The float similarity [inter / float(len(sa))] is the rational
      [inter / |sa|].  For word sets of fewer than 2^49 words the binary64
      quotient is correctly rounded and [0.3] is the rounding of 3/10, so
      the tests [sim >= 0.3] and [sim > best_sim] (quotients over one common
      denominator) order exactly as the rationals do.
    - A [dict] whose order is observed ([next(reversed(store))]) is an
      insertion-ordered association list with unique keys ([PyDict]).
    - The file system, the process environment, the in-process session cache
      and the two remote services make up a [World]; functions that read or
      write it live in a state-and-exception monad [M]. *)

From Stdlib Require Import QArith Lqa Ascii String List Bool Arith Lia Sorted.
From stdpp Require Import gmap strings list pretty.
Import ListNotations.

Open Scope string_scope.

(* ===================================================================== *)
(** ** Python string operations (code points below 256) *)
(* ===================================================================== *)

Module PyStr.

(** [str.isspace] on one character: the ASCII table of CPython
    (TAB..CR, FS..US, space) plus NEL (0x85) and NBSP (0xA0). *)
Definition is_space (c : ascii) : bool :=
  let n := nat_of_ascii c in
  (((9 <=? n) && (n <=? 13)) || ((28 <=? n) && (n <=? 32))
   || (n =? 133) || (n =? 160))%nat.

(** [str.lower] on one character: A-Z, and the Latin-1 capitals
    0xC0..0xDE except the multiplication sign 0xD7. *)
Definition lower_char (c : ascii) : ascii :=
  let n := nat_of_ascii c in
  if (((65 <=? n) && (n <=? 90))
      || ((192 <=? n) && (n <=? 222) && negb (n =? 215)))%nat
  then ascii_of_nat (n + 32) else c.

Fixpoint lower (s : string) : string :=
  match s with
  | EmptyString => EmptyString
  | String c s' => String (lower_char c) (lower s')
  end.

(** [s.replace(old, new)] for one-character [old] and [new]. *)
Fixpoint replace_char (old new : ascii) (s : string) : string :=
  match s with
  | EmptyString => EmptyString
  | String c s' =>
      String (if Ascii.eqb c old then new else c) (replace_char old new s')
  end.

Fixpoint drop_while (p : ascii -> bool) (s : string) : string :=
  match s with
  | EmptyString => EmptyString
  | String c s' => if p c then drop_while p s' else s
  end.

Fixpoint rev_onto (s acc : string) : string :=
  match s with
  | EmptyString => acc
  | String c s' => rev_onto s' (String c acc)
  end.

Definition rev (s : string) : string := rev_onto s EmptyString.

(** A string does not start with a character of the class [p]. *)
Definition left_trimmed (p : ascii -> bool) (s : string) : Prop :=
  match s with
  | EmptyString => True
  | String c _ => p c = false
  end.

(** [s.strip(chars)] with the character set given as a predicate. *)
Definition strip_by (p : ascii -> bool) (s : string) : string :=
  rev (drop_while p (rev (drop_while p s))).

(** [s.strip()] *)
Definition strip (s : string) : string := strip_by is_space s.

(** [s.strip(c)] for a one-character argument. *)
Definition strip_char (c : ascii) (s : string) : string :=
  strip_by (Ascii.eqb c) s.

(** [s.split()]: maximal runs of non-whitespace characters.  [cur] is the
    run being read, reversed. *)
Fixpoint split_go (cur : string) (s : string) : list string :=
  match s with
  | EmptyString =>
      match cur with EmptyString => [] | _ => [rev cur] end
  | String c s' =>
      if is_space c then
        match cur with
        | EmptyString => split_go EmptyString s'
        | _ => rev cur :: split_go EmptyString s'
        end
      else split_go (String c cur) s'
  end.

Definition split (s : string) : list string := split_go EmptyString s.

(** [s.startswith(p)] *)
Definition startswith (s p : string) : bool := String.prefix p s.

(** [k in m] for strings: [k] occurs as a contiguous substring of [m]. *)
Fixpoint contains (k m : string) : bool :=
  String.prefix k m
  || match m with
     | EmptyString => false
     | String _ m' => contains k m'
     end.

(** Truthiness of a [str] and of an [Optional[str]]. *)
Definition truthy (s : string) : bool :=
  match s with EmptyString => false | _ => true end.

Definition truthy_opt (o : option string) : bool :=
  match o with Some s => truthy s | None => false end.

(** [a or b] on strings, and on an optional first operand. *)
Definition or_str (a b : string) : string := if truthy a then a else b.

Definition or_opt (a : option string) (b : string) : string :=
  match a with Some s => or_str s b | None => b end.

(** [a or None] for an optional string: the empty string becomes [None]. *)
Definition or_none (a : option string) : option string :=
  if truthy_opt a then a else None.

End PyStr.

(* ===================================================================== *)
(** ** Insertion-ordered dictionaries *)
(* ===================================================================== *)

Module PyDict.

(** A [dict] with string keys, as its items in insertion order. *)
Definition t (V : Type) : Type := list (string * V).

(** [d.get(k)] *)
Fixpoint get {V} (k : string) (d : t V) : option V :=
  match d with
  | [] => None
  | (k', v) :: d' => if String.eqb k k' then Some v else get k d'
  end.

(** [d[k] = v]: an existing key keeps its position, a new key goes last. *)
Fixpoint set {V} (k : string) (v : V) (d : t V) : t V :=
  match d with
  | [] => [(k, v)]
  | (k', v') :: d' =>
      if String.eqb k k' then (k', v) :: d' else (k', v') :: set k v d'
  end.

(** [d[next(reversed(d))]], for a [d] that is not empty. *)
Definition last_value {V} (d : t V) : option V :=
  match List.rev d with
  | [] => None
  | (_, v) :: _ => Some v
  end.

(** [not d] *)
Definition is_empty {V} (d : t V) : bool :=
  match d with [] => true | _ => false end.

Definition keys {V} (d : t V) : list string := List.map fst d.

End PyDict.

(* ===================================================================== *)
(** ** Exceptions and decoded JSON *)
(* ===================================================================== *)

Inductive exn : Type :=
| ValueError (msg : string)
| RuntimeError (msg : string)
| TimeoutError (msg : string)
| JSONDecodeError
| OtherException (msg : string).

Inductive result (A : Type) : Type :=
| Ok (a : A)
| Raise (e : exn).
Arguments Ok {A} a.
Arguments Raise {A} e.

#[local] Set Warnings "-register-all".

(** What [json.loads] returns.  A number keeps its literal; an object is the
    item list of the resulting [dict]. *)
Inductive json : Type :=
| JNull
| JBool (b : bool)
| JNum (literal : string)
| JStr (s : string)
| JArr (items : list json)
| JObj (fields : list (string * json)).

(** What [urllib.parse.urlparse(url).netloc] gives: the network location,
    or the [ValueError] that [urlparse] raises on a malformed URL (a host
    with an unbalanced bracket, for one), with its message. *)
Inductive netloc_result : Type :=
| Netloc (host : string)
| InvalidUrl (msg : string).

(** Library functions the code calls and whose tables are not part of the
    repository: [json.loads] ([None] when it raises [JSONDecodeError]),
    [str] on a decoded value that is not already a string, the hex digest of
    [hashlib.sha256] over the UTF-8 encoding, and the [netloc] component of
    [urllib.parse.urlparse]. *)
Class PyLib : Type := {
  json_loads : string -> option json;
  str_of_value : json -> string;
  sha256_hexdigest : string -> string;
  urlparse_netloc : string -> netloc_result
}.

(* ===================================================================== *)
(** ** Schemas *)
(* ===================================================================== *)

(** [agents/fact_finder/schemas/fact_finder_schema.py] *)
Module SourceInfo.
Record t : Type := mk {
  title : option string;
  url : string;
  description : option string;
  source_name : option string;
  publish_date : option string;
  source_type : string;
  source_class : option string;
  source_country : option string;
  historical_verdicts : option string
}.
End SourceInfo.

Module FactFinderResult.
Record t : Type := mk {
  statement : string;
  sources : list SourceInfo.t
}.
End FactFinderResult.

(** [agents/pattern_analyzer/schemas/pattern_analyzer_schema.py] *)
Module ExtractClaim.
Record t : Type := mk {
  text : string;
  blame_target : option string;
  modality : option string;
  evidence : option string
}.
End ExtractClaim.

Module ExtractArticle.
Record t : Type := mk {
  title : string;
  source_url : string;
  statistics : string;
  narrative_summary : string;
  key_claims : ExtractClaim.t;
  stance : option string;
  bias_indication : option string
}.
End ExtractArticle.

Module Claim.
Record t : Type := mk {
  text : string;
  modality : option string;
  blame_target : option string;
  evidence : option string
}.
End Claim.

Module ArticleAnalysis.
Record t : Type := mk {
  url : string;
  source_name : option string;
  publish_date : option string;
  source_type : option string;
  title : option string;
  source_country : option string;
  source_class : option string;
  key_claims : list Claim.t;
  narrative_summary : option string;
  statistics : option string;
  stance : option string;
  bias_indicators : option string
}.
End ArticleAnalysis.

Module PatternAnalysisResult.
Record t : Type := mk {
  statement : string;
  analyzed_articles : list ArticleAnalysis.t
}.
End PatternAnalysisResult.

(** [agents/critic/schemas/critic_schema.py] *)
Module ImplicationStep.
Record t : Type := mk {
  premise : string;
  conclusion : string;
  supporting_sources : list string;
  refuting_sources : list string;
  assessment : string
}.
End ImplicationStep.

Module ImplicationChain.
Record t : Type := mk {
  description : string;
  steps : list ImplicationStep.t;
  overall_assessment : string;
  notes : option string
}.
End ImplicationChain.

Module ClaimConsensus.
Record t : Type := mk {
  canonical_claim : string;
  supporting_sources : list string;
  refuting_sources : list string;
  ignoring_sources : list string;
  consensus_assessment : string;
  notes : option string
}.
End ClaimConsensus.

Module NarrativePhase.
Record t : Type := mk {
  phase_name : string;
  time_range : string;
  description : string;
  key_sources : list string
}.
End NarrativePhase.

Module Gap.
Record t : Type := mk {
  description : string;
  affected_chains : list string;
  why_it_matters : string
}.
End Gap.

Module CriticResult.
Record t : Type := mk {
  statement : string;
  high_level_summary : string;
  implication_chains : list ImplicationChain.t;
  claim_consensus : list ClaimConsensus.t;
  narrative_phases : list NarrativePhase.t;
  gaps_and_caveats : list Gap.t
}.
End CriticResult.

(* ===================================================================== *)
(** ** The world and the monad *)
(* ===================================================================== *)

(** A JSON store file: missing, present but not decodable, or holding a
    dictionary of dumped models. *)
Inductive file_state (V : Type) : Type :=
| Absent
| Corrupt
| Stored (d : PyDict.t V).
Arguments Absent {V}.
Arguments Corrupt {V}.
Arguments Stored {V} d.

(** The reply of [model.generate_content(prompt)] followed by
    [response.text]: either of them raises, or the text (possibly [None]). *)
Inductive llm_response : Type :=
| GenRaises (msg : string)
| GenText (text : option string).

(** How one extraction batch ends: [_start_extract_job] raises;
    [_poll_extract_job] raises [TimeoutError] or another exception; the job
    completes with a [data] field that is not a dict, that fails
    [FirecrawlExtractResult.model_validate], or that validates. *)
Inductive batch_outcome : Type :=
| StartFails (msg : string)
| PollTimesOut (msg : string)
| PollFails (msg : string)
| DataNotDict
| DataInvalid
| DataValid (extracted : list ExtractArticle.t).

Record World : Type := mkWorld {
  (* memory/session_store.py: _SESSION_STATE *)
  fact_finder_results : PyDict.t FactFinderResult.t;
  pattern_analysis_results : PyDict.t PatternAnalysisResult.t;
  (* the three store files *)
  fact_finder_file : file_state FactFinderResult.t;
  pattern_analysis_file : file_state PatternAnalysisResult.t;
  critic_file : file_state CriticResult.t;
  (* os.environ *)
  GOOGLE_API_KEY : option string;
  FIRECRAWL_API_KEY : option string;
  (* remote services *)
  gemini : llm_response;
  firecrawl : nat -> list string -> batch_outcome
}.

Definition M (A : Type) : Type := World -> result A * World.

Definition raise {A} (e : exn) : M A := fun w => (Raise e, w).

#[export] Instance M_ret : MRet M := fun A a w => (Ok a, w).

#[export] Instance M_bind : MBind M := fun A B k m w =>
  match m w with
  | (Ok a, w') => k a w'
  | (Raise e, w') => (Raise e, w')
  end.

Definition gets {A} (f : World -> A) : M A := fun w => (Ok (f w), w).

Definition modify (f : World -> World) : M unit := fun w => (Ok tt, f w).

Definition set_pattern_analysis_file (f : file_state PatternAnalysisResult.t)
    (w : World) : World :=
  mkWorld (fact_finder_results w) (pattern_analysis_results w)
          (fact_finder_file w) f (critic_file w)
          (GOOGLE_API_KEY w) (FIRECRAWL_API_KEY w) (gemini w) (firecrawl w).

Definition set_fact_finder_file (f : file_state FactFinderResult.t)
    (w : World) : World :=
  mkWorld (fact_finder_results w) (pattern_analysis_results w)
          f (pattern_analysis_file w) (critic_file w)
          (GOOGLE_API_KEY w) (FIRECRAWL_API_KEY w) (gemini w) (firecrawl w).

Definition set_critic_file (f : file_state CriticResult.t)
    (w : World) : World :=
  mkWorld (fact_finder_results w) (pattern_analysis_results w)
          (fact_finder_file w) (pattern_analysis_file w) f
          (GOOGLE_API_KEY w) (FIRECRAWL_API_KEY w) (gemini w) (firecrawl w).

Definition set_pattern_analysis_results
    (d : PyDict.t PatternAnalysisResult.t) (w : World) : World :=
  mkWorld (fact_finder_results w) d
          (fact_finder_file w) (pattern_analysis_file w) (critic_file w)
          (GOOGLE_API_KEY w) (FIRECRAWL_API_KEY w) (gemini w) (firecrawl w).

Definition set_fact_finder_results
    (d : PyDict.t FactFinderResult.t) (w : World) : World :=
  mkWorld d (pattern_analysis_results w)
          (fact_finder_file w) (pattern_analysis_file w) (critic_file w)
          (GOOGLE_API_KEY w) (FIRECRAWL_API_KEY w) (gemini w) (firecrawl w).

(** [_read_store] of the three stores: a missing or undecodable file reads
    as the empty dictionary. *)
Definition read_file {V} (f : file_state V) : PyDict.t V :=
  match f with
  | Absent | Corrupt => []
  | Stored d => d
  end.

(** The constructors of [PatternAnalysisMemory] and [LocalFactFinderMemory]
    write an empty store when the file does not exist. *)
Definition init_file {V} (f : file_state V) : file_state V :=
  match f with
  | Absent => Stored []
  | _ => f
  end.

(* ===================================================================== *)
(** ** memory/pattern_analysis_store.py *)
(* ===================================================================== *)

Module PatternAnalysisMemory.
Section WithLib.
Context `{PyLib}.

Definition __init__ : M unit :=
  modify (fun w => set_pattern_analysis_file
                     (init_file (pattern_analysis_file w)) w).

Definition _read_store : M (PyDict.t PatternAnalysisResult.t) :=
  gets (fun w => read_file (pattern_analysis_file w)).

Definition _write_store (data : PyDict.t PatternAnalysisResult.t)
  : M unit :=
  modify (set_pattern_analysis_file (Stored data)).

Definition _statement_key (statement : string) : string :=
  sha256_hexdigest (PyStr.strip statement).

Definition save_result (r : PatternAnalysisResult.t) : M unit :=
  store ← _read_store;
  let key := _statement_key (PatternAnalysisResult.statement r) in
  _write_store (PyDict.set key r store).

(** A dumped [PatternAnalysisResult] always has its two keys, so
    [if not data] only catches the missing key, and [model_validate] of a
    dumped model gives the model back. *)
Definition get_result_by_statement (statement : string)
  : M (option PatternAnalysisResult.t) :=
  store ← _read_store;
  let key := _statement_key statement in
  match PyDict.get key store with
  | None => mret None
  | Some data => mret (Some data)
  end.

End WithLib.
End PatternAnalysisMemory.

(* ===================================================================== *)
(** ** memory/critic_store.py *)
(* ===================================================================== *)

Module CriticMemory.

Definition _read_store : M (PyDict.t CriticResult.t) :=
  gets (fun w => read_file (critic_file w)).

Definition _write_store (store : PyDict.t CriticResult.t) : M unit :=
  modify (set_critic_file (Stored store)).

(** [store.clear()] and then one entry under the statement itself. *)
Definition save_result (r : CriticResult.t) : M unit :=
  _ ← _read_store;
  _write_store (PyDict.set (CriticResult.statement r) r []).

End CriticMemory.

(* ===================================================================== *)
(** ** agents/critic/tools/implication_chains.py *)
(* ===================================================================== *)

(** The three values [_classify_modality] can return besides [None]. *)
Inductive modality_class : Type := affirmation | denial | speculation.

#[export] Instance modality_class_eq_dec : EqDecision modality_class.
Proof. solve_decision. Defined.

Definition modality_class_str (m : modality_class) : string :=
  match m with
  | affirmation => "affirmation"
  | denial => "denial"
  | speculation => "speculation"
  end.

(** One element of the list the candidate generator returns. *)
Module Candidate.
Record t : Type := mk {
  premise : string;
  consequence : string;
  reasoning : string
}.
End Candidate.

(** The dictionary returned by [build_implication_chains_tool]. *)
Module ChainsPayload.
Record t : Type := mk {
  statement : string;
  implication_chains : list ImplicationChain.t
}.
End ChainsPayload.

(** The counters [{"affirmation": 0, "denial": 0, "speculation": 0}]. *)
Module Votes.
Record t : Type := mk {
  n_affirmation : nat;
  n_denial : nat;
  n_speculation : nat
}.

Definition zero : t := mk 0 0 0.

(** [votes[m]] *)
Definition get (v : t) (m : modality_class) : nat :=
  match m with
  | affirmation => n_affirmation v
  | denial => n_denial v
  | speculation => n_speculation v
  end.

(** [votes[m] += 1] *)
Definition incr (m : modality_class) (v : t) : t :=
  match m with
  | affirmation => mk (S (n_affirmation v)) (n_denial v) (n_speculation v)
  | denial => mk (n_affirmation v) (S (n_denial v)) (n_speculation v)
  | speculation => mk (n_affirmation v) (n_denial v) (S (n_speculation v))
  end.

(** [if mod: votes[mod] += 1] *)
Definition incr_opt (m : option modality_class) (v : t) : t :=
  match m with Some c => incr c v | None => v end.

(** [f"{votes}"] *)
Definition repr (v : t) : string :=
  "{'affirmation': " ++ pretty (n_affirmation v)
  ++ ", 'denial': " ++ pretty (n_denial v)
  ++ ", 'speculation': " ++ pretty (n_speculation v) ++ "}".
End Votes.

Module ImplicationChains.
Section WithLib.
Context `{PyLib}.

Definition _load_latest_pattern_analysis : M PatternAnalysisResult.t :=
  PatternAnalysisMemory.__init__;;
  store ← PatternAnalysisMemory._read_store;
  match PyDict.last_value store with
  | None =>
      raise (ValueError
        ("No Pattern Analysis data found in local memory. "
         ++ "Run the Pattern Analyzer agent first."))
  | Some data => mret data
  end.

(** *** Candidate generation *)

Definition summaries_of (pa : PatternAnalysisResult.t) : list string :=
  omap (fun art =>
          match ArticleAnalysis.narrative_summary art with
          | Some s => if PyStr.truthy s then Some s else None
          | None => None
          end)
       (PatternAnalysisResult.analyzed_articles pa).

(** [str(c.get(key, "")).strip()] *)
Definition field_text (key : string) (c : list (string * json)) : string :=
  PyStr.strip
    match PyDict.get key c with
    | None => ""
    | Some (JStr s) => s
    | Some v => str_of_value v
    end.

(** The loop that keeps the objects with a premise and a consequence. *)
Fixpoint clean_candidates (candidates : list json) : list Candidate.t :=
  match candidates with
  | [] => []
  | JObj c :: rest =>
      let prem := field_text "premise" c in
      let cons := field_text "consequence" c in
      let reas := field_text "reasoning" c in
      if PyStr.truthy prem && PyStr.truthy cons
      then Candidate.mk prem cons reas :: clean_candidates rest
      else clean_candidates rest
  | _ :: rest => clean_candidates rest
  end.

(** The reply text handed to [json.loads]: stripped, and with the
    backquotes of a markdown fence stripped from both ends. *)
Definition clean_reply (t : option string) : string :=
  let text := PyStr.strip (PyStr.or_opt t "") in
  if PyStr.startswith text "```"
  then PyStr.strip_char "`" text else text.

(** The body of the [try] block. *)
Definition generate_try (response : llm_response)
  : result (list Candidate.t) :=
  match response with
  | GenRaises msg => Raise (OtherException msg)
  | GenText t =>
      match json_loads (clean_reply t) with
      | None => Raise JSONDecodeError
      | Some (JArr candidates) => Ok (clean_candidates candidates)
      | Some _ => Ok []
      end
  end.

(** The three ways generation fails: the call raises, the reply does not
    decode, or it decodes to something that is not a list. *)
Definition generation_fails (response : llm_response) : Prop :=
  match response with
  | GenRaises _ => True
  | GenText t =>
      json_loads (clean_reply t) = None
      \/ exists v, json_loads (clean_reply t) = Some v
                   /\ forall items, v <> JArr items
  end.

(** The prompt is built from the statement and the summaries and only
    travels to the remote model, whose reply the world supplies. *)
Definition _generate_implication_candidates (pa : PatternAnalysisResult.t)
  : M (list Candidate.t) :=
  match summaries_of pa with
  | [] => mret []
  | _ =>
      api_key ← gets GOOGLE_API_KEY;
      if negb (PyStr.truthy_opt api_key) then mret []
      else
        response ← gets gemini;
        match generate_try response with
        | Ok clean => mret clean
        | Raise _ => mret []
        end
  end.

(** *** Verification over key claims *)

Definition _normalize_text (t : string) : list string :=
  List.filter PyStr.truthy
    (PyStr.split
       (PyStr.replace_char "." " "
          (PyStr.replace_char "," " " (PyStr.lower t)))).

Definition word_set (ws : list string) : gset string := list_to_set ws.

Definition _jaccard_similarity (a_words b_words : list string) : Q :=
  match a_words, b_words with
  | [], _ | _, [] => 0%Q
  | _, _ =>
      let sa := word_set a_words in
      let sb := word_set b_words in
      let inter := size (sa ∩ sb) in
      if (inter =? 0)%nat then 0%Q
      else inject_Z (Z.of_nat inter) / inject_Z (Z.of_nat (size sa))
  end.

Definition any_in (keywords : list string) (m : string) : bool :=
  existsb (fun k => PyStr.contains k m) keywords.

Definition denial_keywords : list string :=
  ["denies"; "denied"; "refutes"; "refuted"; "false"].
Definition affirmation_keywords : list string :=
  ["reports"; "reported"; "claims"; "claimed"; "alleges"; "stated"].
Definition speculation_keywords : list string :=
  ["alleged"; "allegedly"; "suggests"; "may"; "might"; "possibly"].

Definition _classify_modality (modality : option string)
  : option modality_class :=
  match modality with
  | None => None
  | Some s =>
      if negb (PyStr.truthy s) then None
      else
        let m := PyStr.lower s in
        if any_in denial_keywords m then Some denial
        else if any_in affirmation_keywords m then Some affirmation
        else if any_in speculation_keywords m then Some speculation
        else Some speculation
  end.

(** [k] occurs in [m]; a modality mentions a keyword of a list when one
    of them occurs in its lower-cased text. *)
Definition occurs_in (k m : string) : Prop :=
  exists pre post : string, m = pre ++ k ++ post.

Definition mentions (keywords : list string) (modality : string) : Prop :=
  exists k, k ∈ keywords /\ occurs_in k (PyStr.lower modality).

Definition similarity_threshold : Q := 3 # 10.

(** The similarity of a claim to the normalised target, and the claims
    that can win the match: those that clear the threshold and whose
    modality classifies. *)
Definition claim_similarity (target_words : list string) (claim : Claim.t)
  : Q :=
  _jaccard_similarity target_words (_normalize_text (Claim.text claim)).

Definition clears_threshold (target_words : list string) (claim : Claim.t)
  : Prop :=
  (similarity_threshold <= claim_similarity target_words claim)%Q.

Definition eligible (target_words : list string) (claim : Claim.t) : Prop :=
  clears_threshold target_words claim
  /\ is_Some (_classify_modality (Claim.modality claim)).

(** What the loop state of the matcher says about the claims read so
    far: nothing eligible yet, or the first eligible claim of highest
    similarity. *)
Definition match_inv (target_words : list string) (seen : list Claim.t)
    (best : Q * option modality_class) : Prop :=
  match snd best with
  | None =>
      fst best = 0%Q
      /\ forall c, c ∈ seen -> ~ eligible target_words c
  | Some m =>
      exists (i : nat) (c : Claim.t),
        seen !! i = Some c
        /\ eligible target_words c
        /\ _classify_modality (Claim.modality c) = Some m
        /\ fst best = claim_similarity target_words c
        /\ (forall j c', seen !! j = Some c' ->
              eligible target_words c' ->
              (claim_similarity target_words c'
               <= claim_similarity target_words c)%Q)
        /\ (forall j c', j < i -> seen !! j = Some c' ->
              eligible target_words c' ->
              (claim_similarity target_words c'
               < claim_similarity target_words c)%Q)
  end.

(** The loop state [(best_sim, best_modality)] and one iteration. *)
Definition match_step (target_words : list string)
    (best : Q * option modality_class) (claim : Claim.t)
  : Q * option modality_class :=
  let claim_words := _normalize_text (Claim.text claim) in
  let sim := _jaccard_similarity target_words claim_words in
  if Qle_bool similarity_threshold sim && negb (Qle_bool sim (fst best))
  then match _classify_modality (Claim.modality claim) with
       | Some classified => (sim, Some classified)
       | None => best
       end
  else best.

Definition _check_claim_support (key_claims : list Claim.t)
    (target_text : string) : option modality_class :=
  let target_words := _normalize_text target_text in
  match target_words with
  | [] => None
  | _ => snd (fold_left (match_step target_words) key_claims (0%Q, None))
  end.

(** *** The evidence scan of one candidate over the articles *)

(** [art.url or (art.source_name or "unknown_source")] *)
Definition src_label (art : ArticleAnalysis.t) : string :=
  PyStr.or_str (ArticleAnalysis.url art)
    (PyStr.or_opt (ArticleAnalysis.source_name art) "unknown_source").

(** The four accumulators of the inner loop. *)
Record scan_state : Type := mkScan {
  premise_votes : Votes.t;
  conseq_votes : Votes.t;
  supporting_sources : list string;
  refuting_sources : list string
}.

Definition scan_init : scan_state := mkScan Votes.zero Votes.zero [] [].

(** [p_mod == "affirmation" and c_mod in ("affirmation", "speculation")] *)
Definition supports (p_mod c_mod : option modality_class) : bool :=
  bool_decide (p_mod = Some affirmation)
  && (bool_decide (c_mod = Some affirmation)
      || bool_decide (c_mod = Some speculation)).

(** [p_mod == "affirmation" and c_mod == "denial"] *)
Definition refutes (p_mod c_mod : option modality_class) : bool :=
  bool_decide (p_mod = Some affirmation)
  && bool_decide (c_mod = Some denial).



(** One iteration of [for art in articles]. *)
Definition scan_article (premise_text conseq_text : string)
    (st : scan_state) (art : ArticleAnalysis.t) : scan_state :=
  let p_mod :=
    _check_claim_support (ArticleAnalysis.key_claims art) premise_text in
  let c_mod :=
    _check_claim_support (ArticleAnalysis.key_claims art) conseq_text in
  let pv := Votes.incr_opt p_mod (premise_votes st) in
  let cv := Votes.incr_opt c_mod (conseq_votes st) in
  let label := src_label art in
  let sup := if supports p_mod c_mod
             then (supporting_sources st ++ [label])%list
             else supporting_sources st in
  let ref := if refutes p_mod c_mod
             then (refuting_sources st ++ [label])%list
             else refuting_sources st in
  mkScan pv cv sup ref.

Definition scan_articles (premise_text conseq_text : string)
    (articles : list ArticleAnalysis.t) : scan_state :=
  fold_left (scan_article premise_text conseq_text) articles scan_init.

(** *** The verdict *)

(** [not xs] for a list. *)
Definition is_empty_list {A} (xs : list A) : bool :=
  match xs with [] => true | _ => false end.

(** The [if / elif / elif / else] that sets [(overall, step_assessment)]. *)
Definition decide_verdict (supporting refuting : list string)
    (pvotes : Votes.t) : string * string :=
  if (1 <? length supporting)%nat && is_empty_list refuting
  then ("consistent",
        "well supported by multiple sources with no clear refutations")
  else if (length supporting =? 1)%nat && is_empty_list refuting
  then ("partially supported",
        "weakly supported (single-source implication)")
  else if negb (is_empty_list refuting)
  then ("contradicted",
        "contested: at least one source affirms the premise but denies the consequence")
  else if (Votes.get pvotes affirmation <? Votes.get pvotes denial)%nat
  then ("contradicted",
        "premise itself appears more often denied than affirmed")
  else ("speculative",
        "inferred only by LLM, with no strong article-level corroboration").

(** *** Chain assembly *)

(** The body of [for idx, cand in enumerate(candidates, start=1)]. *)
Definition build_chain (articles : list ArticleAnalysis.t)
    (idx : nat) (cand : Candidate.t) : ImplicationChain.t :=
  let premise_text := Candidate.premise cand in
  let conseq_text := Candidate.consequence cand in
  let reasoning := Candidate.reasoning cand in
  let st := scan_articles premise_text conseq_text articles in
  let '(overall, step_assessment) :=
    decide_verdict (supporting_sources st) (refuting_sources st)
                   (premise_votes st) in
  let step :=
    ImplicationStep.mk premise_text conseq_text
      (supporting_sources st) (refuting_sources st) step_assessment in
  let chain_description :=
    "Implication chain " ++ pretty idx ++ ": "
    ++ premise_text ++ " -> " ++ conseq_text in
  let notes :=
    "LLM reasoning: " ++ reasoning ++ ". "
    ++ "Premise votes: " ++ Votes.repr (premise_votes st)
    ++ ". Consequence votes: " ++ Votes.repr (conseq_votes st) ++ "." in
  ImplicationChain.mk chain_description [step] overall (Some notes).

Definition build_chains (articles : list ArticleAnalysis.t)
    (candidates : list Candidate.t) : list ImplicationChain.t :=
  imap (fun i cand => build_chain articles (S i) cand) candidates.

(** The number of votes in a tally, and what the four accumulators of the
    scan satisfy after [n] articles. *)
Definition votes_total (v : Votes.t) : nat :=
  Votes.n_affirmation v + Votes.n_denial v + Votes.n_speculation v.

Definition tally_inv (n : nat) (st : scan_state) : Prop :=
  votes_total (premise_votes st) <= n
  /\ votes_total (conseq_votes st) <= n
  /\ length (supporting_sources st) + length (refuting_sources st)
       <= Votes.n_affirmation (premise_votes st)
  /\ length (supporting_sources st)
       <= Votes.n_affirmation (conseq_votes st)
          + Votes.n_speculation (conseq_votes st)
  /\ length (refuting_sources st) <= Votes.n_denial (conseq_votes st).

Definition build_implication_chains_tool : M ChainsPayload.t :=
  pa ← _load_latest_pattern_analysis;
  let articles := PatternAnalysisResult.analyzed_articles pa in
  candidates ← _generate_implication_candidates pa;
  match candidates with
  | [] => mret (ChainsPayload.mk (PatternAnalysisResult.statement pa) [])
  | _ =>
      mret (ChainsPayload.mk (PatternAnalysisResult.statement pa)
              (build_chains articles candidates))
  end.

End WithLib.
End ImplicationChains.

(* ===================================================================== *)
(** ** agents/critic/tools/critic_tool.py *)
(* ===================================================================== *)

Module CriticTool.
Section WithLib.
Context `{PyLib}.

Definition _load_latest_pattern_analysis : M PatternAnalysisResult.t :=
  PatternAnalysisMemory.__init__;;
  store ← PatternAnalysisMemory._read_store;
  match PyDict.last_value store with
  | None =>
      raise (ValueError
        ("No Pattern Analysis data found in local memory. "
         ++ "Run the Pattern Analyzer agent first."))
  | Some data => mret data
  end.

(** [allowed_urls] of [critic_input_tool]. *)
Definition allowed_urls (pa : PatternAnalysisResult.t) : list string :=
  List.map ArticleAnalysis.url (PatternAnalysisResult.analyzed_articles pa).

(** [sorted(xs, key=key)] for string keys: the stable sort, here by
    insertion from the right, an element going before the first one whose
    key is not smaller. *)
Fixpoint insert_by_key {A} (key : A -> string) (x : A) (sorted : list A)
  : list A :=
  match sorted with
  | [] => [x]
  | y :: rest =>
      if String.leb (key x) (key y) then x :: y :: rest
      else y :: insert_by_key key x rest
  end.

(** The order of two elements by their keys, as [<=] on strings. *)
Definition key_le {A} (key : A -> string) (a b : A) : Prop :=
  String.leb (key a) (key b) = true.

Definition sorted_by_key {A} (key : A -> string) (xs : list A) : list A :=
  List.fold_right (insert_by_key key) [] xs.

(** [a.publish_date or ""] *)
Definition _sort_key (a : ArticleAnalysis.t) : string :=
  PyStr.or_opt (ArticleAnalysis.publish_date a) "".

(** The dictionary returned by [critic_input_tool]. *)
Record critic_input : Type := mkCriticInput {
  pattern_analysis : PatternAnalysisResult.t;
  articles_sorted_by_date : list ArticleAnalysis.t;
  input_allowed_urls : list string
}.

Definition critic_input_tool : M critic_input :=
  pa ← _load_latest_pattern_analysis;
  let sorted_articles :=
    sorted_by_key _sort_key (PatternAnalysisResult.analyzed_articles pa) in
  mret (mkCriticInput pa sorted_articles (allowed_urls pa)).

Definition summary_with_chains : string :=
  "This analysis identifies one or more chains of implications between claims "
  ++ "found in the analyzed articles and evaluates how well each step is supported "
  ++ "by the available sources. Other USP sections (claim consensus, temporal "
  ++ "phases, gaps) are not yet computed in this version.".

Definition summary_without_chains : string :=
  "No clear implication chains were detected from the narrative summaries of "
  ++ "the analyzed articles. Other USP sections are not yet computed.".

(** The result [run_critic] assembles from the loaded analysis and the
    candidates of the run. *)
Definition critic_result_of (pa : PatternAnalysisResult.t)
    (candidates : list Candidate.t) : CriticResult.t :=
  let implication_chains :=
    ImplicationChains.build_chains
      (PatternAnalysisResult.analyzed_articles pa) candidates in
  CriticResult.mk (PatternAnalysisResult.statement pa)
    match implication_chains with
    | [] => summary_without_chains
    | _ => summary_with_chains
    end
    implication_chains [] [] [].

Definition run_critic : M CriticResult.t :=
  pa ← _load_latest_pattern_analysis;
  chains_payload ← ImplicationChains.build_implication_chains_tool;
  let implication_chains :=
    ChainsPayload.implication_chains chains_payload in
  let high_level_summary :=
    match implication_chains with
    | [] => summary_without_chains
    | _ => summary_with_chains
    end in
  let result :=
    CriticResult.mk (PatternAnalysisResult.statement pa)
      high_level_summary implication_chains [] [] [] in
  CriticMemory.save_result result;;
  mret result.

End WithLib.
End CriticTool.

(* ===================================================================== *)
(** ** memory/local_store.py and memory/session_store.py *)
(* ===================================================================== *)

Module LocalFactFinderMemory.

Definition __init__ : M unit :=
  modify (fun w => set_fact_finder_file (init_file (fact_finder_file w)) w).

Definition _read_store : M (PyDict.t FactFinderResult.t) :=
  gets (fun w => read_file (fact_finder_file w)).

Section WithLib.
Context `{PyLib}.

Definition _write_store (data : PyDict.t FactFinderResult.t) : M unit :=
  modify (set_fact_finder_file (Stored data)).

Definition _key_for_statement (statement : string) : string :=
  sha256_hexdigest (PyStr.strip statement).

(** Saves the result and returns the generated key. *)
Definition save_result (r : FactFinderResult.t) : M string :=
  store ← _read_store;
  let key := _key_for_statement (FactFinderResult.statement r) in
  _write_store (PyDict.set key r store);;
  mret key.

(** A dumped [FactFinderResult] always has its two keys, so [if not data]
    only catches the missing key. *)
Definition get_result_by_statement (statement : string)
  : M (option FactFinderResult.t) :=
  store ← _read_store;
  let key := _key_for_statement statement in
  match PyDict.get key store with
  | None => mret None
  | Some data => mret (Some data)
  end.

End WithLib.

End LocalFactFinderMemory.

Module SessionStore.

Definition _normalize_statement (statement : string) : string :=
  PyStr.strip statement.

Definition get_latest_fact_finder_result_session
  : M (option FactFinderResult.t) :=
  gets (fun w => PyDict.last_value (fact_finder_results w)).

Definition save_pattern_analysis_result_session
    (r : PatternAnalysisResult.t) : M unit :=
  let key := _normalize_statement (PatternAnalysisResult.statement r) in
  modify (fun w => set_pattern_analysis_results
                     (PyDict.set key r (pattern_analysis_results w)) w).

(** The callers pass [model_dump()] of a result, so the [statement] key is
    always present. *)
Definition save_fact_finder_result_session (r : FactFinderResult.t)
  : M unit :=
  let key := _normalize_statement (FactFinderResult.statement r) in
  modify (fun w => set_fact_finder_results
                     (PyDict.set key r (fact_finder_results w)) w).

Definition get_fact_finder_result_session (statement : string)
  : M (option FactFinderResult.t) :=
  let key := _normalize_statement statement in
  gets (fun w => PyDict.get key (fact_finder_results w)).

Definition get_pattern_analysis_result_session (statement : string)
  : M (option PatternAnalysisResult.t) :=
  let key := _normalize_statement statement in
  gets (fun w => PyDict.get key (pattern_analysis_results w)).

End SessionStore.

(* ===================================================================== *)
(** ** agents/pattern_analyzer/tools/firecrawl_pattern_analyzer.py *)
(* ===================================================================== *)

Module PatternAnalyzer.
Section WithLib.
Context `{PyLib}.

Definition NON_TEXTUAL_HOST_SUBSTRINGS : list string :=
  ["vimeo.com"; "tiktok.com"; "instagram.com"].

(** [urlparse] is called outside any [try]: its [ValueError] leaves the
    function. *)
Definition is_textual_url (url : string) : result bool :=
  match urlparse_netloc url with
  | InvalidUrl msg => Raise (ValueError msg)
  | Netloc netloc =>
      let host := PyStr.lower netloc in
      Ok (negb (existsb (fun bad => PyStr.contains bad host)
                        NON_TEXTUAL_HOST_SUBSTRINGS))
  end.

Definition BATCH_SIZE : nat := 5.

(** [range(0, stop, step)] for a positive [step]. *)
Definition range_step (stop step : nat) : list nat :=
  List.map (fun k => k * step) (seq 0 ((stop + step - 1) / step)).

(** [[xs[i : i + BATCH_SIZE] for i in range(0, len(xs), BATCH_SIZE)]] *)
Definition make_batches {A} (xs : list A) : list (list A) :=
  List.map (fun i => take BATCH_SIZE (drop i xs))
           (range_step (length xs) BATCH_SIZE).

(** [{src.url: src for src in batch_sources if src.url}]: a later source
    with the same URL replaces an earlier one. *)
Definition source_lookup_by_url (batch_sources : list SourceInfo.t)
  : gmap string SourceInfo.t :=
  fold_left
    (fun m src =>
       if PyStr.truthy (SourceInfo.url src)
       then <[SourceInfo.url src := src]> m else m)
    batch_sources ∅.

(** The single structured claim of an extracted article, when its text is
    not empty. *)
Definition claims_of (extracted : ExtractArticle.t) : list Claim.t :=
  let kc := ExtractArticle.key_claims extracted in
  if PyStr.truthy (ExtractClaim.text kc)
  then [Claim.mk (ExtractClaim.text kc) (ExtractClaim.modality kc)
                 (ExtractClaim.blame_target kc) (ExtractClaim.evidence kc)]
  else [].

Definition to_article (lookup : gmap string SourceInfo.t)
    (extracted : ExtractArticle.t) : ArticleAnalysis.t :=
  let src := lookup !! ExtractArticle.source_url extracted in
  ArticleAnalysis.mk
    (ExtractArticle.source_url extracted)
    (src ≫= SourceInfo.source_name)
    (src ≫= SourceInfo.publish_date)
    (SourceInfo.source_type <$> src)
    (if PyStr.truthy (ExtractArticle.title extracted)
     then Some (ExtractArticle.title extracted)
     else src ≫= SourceInfo.title)
    (src ≫= SourceInfo.source_country)
    (src ≫= SourceInfo.source_class)
    (claims_of extracted)
    (Some (ExtractArticle.narrative_summary extracted))
    (PyStr.or_none (Some (ExtractArticle.statistics extracted)))
    (ExtractArticle.stance extracted)
    (PyStr.or_none (ExtractArticle.bias_indication extracted)).

(** [[src.url for src in batch_sources if src.url]] *)
Definition batch_urls (batch_sources : list SourceInfo.t) : list string :=
  List.filter PyStr.truthy (List.map SourceInfo.url batch_sources).


(** The articles one batch adds to [all_articles] in world [w]. *)
Definition batch_contribution (w : World) (batch_index : nat)
    (batch_sources : list SourceInfo.t) : list ArticleAnalysis.t :=
  match batch_urls batch_sources with
  | [] => []
  | urls =>
      match firecrawl w batch_index urls with
      | DataValid result =>
          List.map (to_article (source_lookup_by_url batch_sources)) result
      | _ => []
      end
  end.

(** One iteration of the batch loop: the new value of [all_articles].
    Every failure branch is a [continue]. *)
Definition process_batch (all_articles : list ArticleAnalysis.t)
    (batch_index : nat) (batch_sources : list SourceInfo.t)
  : M (list ArticleAnalysis.t) :=
  let urls := batch_urls batch_sources in
  match urls with
  | [] => mret all_articles
  | _ =>
      outcome ← gets (fun w => firecrawl w batch_index urls);
      match outcome with
      | StartFails _ => mret all_articles
      | PollTimesOut _ => mret all_articles
      | PollFails _ => mret all_articles
      | DataNotDict => mret all_articles
      | DataInvalid => mret all_articles
      | DataValid result =>
          let lookup := source_lookup_by_url batch_sources in
          mret (all_articles ++ List.map (to_article lookup) result)%list
      end
  end.

(** [for batch_index, batch_sources in enumerate(batches, start=1)],
    with [batch_index] the index of the first batch of [batches]. *)
Fixpoint batch_loop (batch_index : nat) (batches : list (list SourceInfo.t))
    (all_articles : list ArticleAnalysis.t) : M (list ArticleAnalysis.t) :=
  match batches with
  | [] => mret all_articles
  | batch_sources :: rest =>
      all_articles ← process_batch all_articles batch_index batch_sources;
      batch_loop (S batch_index) rest all_articles
  end.

Definition load_fact_result : M FactFinderResult.t :=
  fact_result_dict ← SessionStore.get_latest_fact_finder_result_session;
  match fact_result_dict with
  | Some r => mret r
  | None =>
      LocalFactFinderMemory.__init__;;
      store ← LocalFactFinderMemory._read_store;
      match PyDict.last_value store with
      | None =>
          raise (ValueError
            ("No Fact-Finder data found in session or local memory. "
             ++ "Run the Fact-Finder agent first."))
      | Some r => mret r
      end
  end.

(** [[src for src in sources if src.url and is_textual_url(src.url)]]:
    the sources are tested in order, a source without URL is dropped without
    being parsed, and the first URL that does not parse ends the
    comprehension with its error. *)
Fixpoint textual_filter (sources : list SourceInfo.t)
  : result (list SourceInfo.t) :=
  match sources with
  | [] => Ok []
  | src :: rest =>
      if PyStr.truthy (SourceInfo.url src)
      then
        match is_textual_url (SourceInfo.url src) with
        | Raise e => Raise e
        | Ok textual =>
            match textual_filter rest with
            | Raise e => Raise e
            | Ok kept => Ok (if textual then src :: kept else kept)
            end
        end
      else textual_filter rest
  end.

Definition textual_sources_of (fact_result : FactFinderResult.t)
  : result (list SourceInfo.t) :=
  textual_filter (FactFinderResult.sources fact_result).

Definition no_structured_data : exn :=
  RuntimeError
    "Pattern Analyzer could not extract structured data from any article across all batches.".

Definition run_pattern_analyzer : M PatternAnalysisResult.t :=
  fact_result ← load_fact_result;
  match FactFinderResult.sources fact_result with
  | [] => raise (ValueError "Fact-Finder returned no sources to analyze.")
  | _ =>
    match textual_sources_of fact_result with
    | Raise e => raise e
    | Ok [] =>
        raise (ValueError
          "No textual sources available (non-video) to analyze for this statement.")
    | Ok textual_sources =>
      let batches := make_batches textual_sources in
      api_key ← gets FIRECRAWL_API_KEY;
      if negb (PyStr.truthy_opt api_key)
      then raise (RuntimeError
                    "FIRECRAWL_API_KEY is not set in the environment.")
      else
        all_articles ← batch_loop 1 batches [];
        match all_articles with
        | [] => raise no_structured_data
        | _ =>
            let result :=
              PatternAnalysisResult.mk
                (FactFinderResult.statement fact_result) all_articles in
            PatternAnalysisMemory.__init__;;
            PatternAnalysisMemory.save_result result;;
            SessionStore.save_pattern_analysis_result_session result;;
            mret result
        end
    end
  end.

End WithLib.
End PatternAnalyzer.

(* ===================================================================== *)
(** ** Example runs *)
(* ===================================================================== *)

Module Examples.

(** The double quote character. *)
Definition dq : string := String (ascii_of_nat 34) "".

Definition key (name : string) : string := dq ++ name ++ dq ++ ": ".
Definition str (s : string) : string := dq ++ s ++ dq.

(** A reply of the model: one JSON object in a list, with premise and
    consequence [Prices rose] and reasoning [same event]. *)
Definition reply_text : string :=
  "[{" ++ key "premise" ++ str "Prices rose" ++ ", "
  ++ key "consequence" ++ str "Prices rose" ++ ", "
  ++ key "reasoning" ++ str "same event" ++ "}]".

Definition reply_value : json :=
  JArr [JObj [("premise", JStr "Prices rose");
              ("consequence", JStr "Prices rose");
              ("reasoning", JStr "same event")]].

(** The library functions on the inputs the examples use: [json.loads]
    on [reply_text] and on an empty object, the SHA-256 digest of
    [Prices rose], and the host of the example URLs, one of which does not
    parse.  Other texts do not decode here, other digests and hosts are
    empty. *)
Definition example_lib : PyLib := {|
  json_loads t :=
    if String.eqb t reply_text then Some reply_value
    else if String.eqb t "{}" then Some (JObj [])
    else None;
  str_of_value _ := "";
  sha256_hexdigest s :=
    if String.eqb s "Prices rose"
    then "ec5d1af891c2d597de820f8989627235bb918d31643420d3c6f641d9ac947942"
    else "";
  urlparse_netloc url :=
    if String.prefix "https://news.example/" url then Netloc "news.example"
    else if String.prefix "https://vimeo.com/" url then Netloc "vimeo.com"
    else if String.eqb url "http://[::1" then InvalidUrl "Invalid IPv6 URL"
    else Netloc ""
|}.

Definition reported (text : string) : Claim.t :=
  Claim.mk text (Some "reported") None None.

Definition article (url : string) (source_name : option string)
  : ArticleAnalysis.t :=
  ArticleAnalysis.mk url source_name None None None None None
    [reported "Prices rose"] (Some "Prices rose this week.")
    None None None.

(** A stored analysis whose two articles came back without a URL. *)
Definition unlabelled_analysis : PatternAnalysisResult.t :=
  PatternAnalysisResult.mk "Prices rose"
    [article "" (Some "Daily Planet"); article "" None].

Definition labelled_analysis : PatternAnalysisResult.t :=
  PatternAnalysisResult.mk "Prices rose"
    [article "https://news.example/1" (Some "Daily Planet");
     article "https://news.example/2" None].

Definition nth_source (n : nat) : SourceInfo.t :=
  SourceInfo.mk None ("https://news.example/" ++ pretty n) None
    (Some "Daily Planet") None "news" None None None.

Definition extracted_from (n : nat) : ExtractArticle.t :=
  ExtractArticle.mk "Prices" ("https://news.example/" ++ pretty n)
    "none" "Prices rose this week."
    (ExtractClaim.mk "Prices rose" None (Some "reported") None)
    None None.

(** Eleven sources make three batches; the second one times out. *)
Definition eleven_sources : FactFinderResult.t :=
  FactFinderResult.mk "Prices rose" (List.map nth_source (seq 1 11)).

Definition second_batch_times_out (batch_index : nat)
    (urls : list string) : batch_outcome :=
  match batch_index with
  | 1 => DataValid [extracted_from 1; extracted_from 2]
  | 2 => PollTimesOut "did not complete within 300 seconds"
  | 3 => DataValid [extracted_from 11]
  | _ => StartFails "no such batch"
  end.

Definition every_batch_fails (batch_index : nat)
    (urls : list string) : batch_outcome :=
  match batch_index with
  | 1 => StartFails "503"
  | 2 => PollTimesOut "did not complete within 300 seconds"
  | _ => DataNotDict
  end.

Definition world_with (pa : PatternAnalysisResult.t)
    (reply : llm_response) : World :=
  {| fact_finder_results := [];
     pattern_analysis_results := [];
     fact_finder_file := Absent;
     pattern_analysis_file :=
       Stored [("ec5d1af891c2d597de820f8989627235bb918d31643420d3c6f641d9ac947942", pa)];
     critic_file := Absent;
     GOOGLE_API_KEY := Some "key";
     FIRECRAWL_API_KEY := Some "key";
     gemini := reply;
     firecrawl := every_batch_fails |}.

Definition extraction_world (service : nat -> list string -> batch_outcome)
  : World :=
  {| fact_finder_results := [("Prices rose", eleven_sources)];
     pattern_analysis_results := [];
     fact_finder_file := Absent;
     pattern_analysis_file := Absent;
     critic_file := Absent;
     GOOGLE_API_KEY := None;
     FIRECRAWL_API_KEY := Some "key";
     gemini := GenRaises "unused";
     firecrawl := service |}.




(** An article that came back without any key claim. *)
Definition bare_article (url : string) : ArticleAnalysis.t :=
  ArticleAnalysis.mk url None None None None None None []
    (Some "Prices rose this week.") None None None.

End Examples.

(* ===================================================================== *)
(** ** counterpoint/schemas/counterpoint_schema.py *)
(* ===================================================================== *)

Module Counterpoint.
Record t : Type := mk {
  id : string;
  target_chain_index : Z;
  target_step_index : Z;
  type : string;
  text : string;
  based_on_sources : list string;
  uses_general_knowledge : bool;
  strength : string;
  notes : option string
}.
End Counterpoint.

Module CounterpointResult.
Record t : Type := mk {
  statement : string;
  high_level_summary : string;
  counterpoints : list Counterpoint.t
}.
End CounterpointResult.

(* ===================================================================== *)
(** ** local_counterpoint_store.py *)
(* ===================================================================== *)

(** The counterpoint store file: missing, not decodable, or holding either
    the empty object or one dumped result. *)
Inductive counterpoint_file : Type :=
| CpAbsent
| CpCorrupt
| CpStored (content : option CounterpointResult.t).

Module CounterpointMemory.

(** The constructor writes an empty object when the file does not exist. *)
Definition __init__ (f : counterpoint_file) : counterpoint_file :=
  match f with
  | CpAbsent => CpStored None
  | _ => f
  end.

Definition _read_store (f : counterpoint_file)
  : option CounterpointResult.t :=
  match f with
  | CpAbsent | CpCorrupt => None
  | CpStored content => content
  end.

Definition _write_store (store : option CounterpointResult.t)
  : counterpoint_file :=
  CpStored store.

(** The dumped result replaces the whole content of the file. *)
Definition save_result (r : CounterpointResult.t) (f : counterpoint_file)
  : counterpoint_file :=
  _write_store (Some r).

(** An empty store gives [None]; a dumped result is never empty. *)
Definition get_latest_result (f : counterpoint_file)
  : option CounterpointResult.t :=
  _read_store f.

End CounterpointMemory.

(* ===================================================================== *)
(** ** counterpoint/tools/counterpoint_tool.py *)
(* ===================================================================== *)

(** Conversions of decoded JSON values whose tables are not part of the
    repository: [int] on a number and on a string ([None] when it raises),
    and whether a number is zero. *)
Class PyConv : Type := {
  int_of_number : string -> option Z;
  int_of_text : string -> option Z;
  number_is_zero : string -> bool
}.

Module CounterpointTool.
Section WithLib.
Context `{PyLib} `{PyConv}.

Definition _load_latest_critic : M CriticResult.t :=
  store ← CriticMemory._read_store;
  match PyDict.last_value store with
  | None =>
      raise (ValueError
        ("No CriticResult found in local memory. "
         ++ "Run the Critic agent first."))
  | Some data => mret data
  end.

Definition _load_latest_pattern_analysis : M PatternAnalysisResult.t :=
  PatternAnalysisMemory.__init__;;
  store ← PatternAnalysisMemory._read_store;
  match PyDict.last_value store with
  | None =>
      raise (ValueError
        ("No Pattern Analysis data found in local memory. "
         ++ "Run the Pattern Analyzer agent first."))
  | Some data => mret data
  end.

(** The second loop of [_collect_allowed_urls]: the set of URLs seen and
    the list built so far. *)
Definition dedup_step (acc : gset string * list string) (u : string)
  : gset string * list string :=
  let '(seen, result) := acc in
  if bool_decide (u ∈ seen) then (seen, result)
  else ({[u]} ∪ seen, (result ++ [u])%list).

Definition _collect_allowed_urls (pa : PatternAnalysisResult.t)
  : list string :=
  let urls :=
    List.filter PyStr.truthy
      (List.map ArticleAnalysis.url
                (PatternAnalysisResult.analyzed_articles pa)) in
  snd (fold_left dedup_step urls (∅, [])).

(** The body of the [try] block: the decoded list as it is. *)
Definition generate_try (response : llm_response) : result (list json) :=
  match response with
  | GenRaises msg => Raise (OtherException msg)
  | GenText t =>
      match json_loads (ImplicationChains.clean_reply t) with
      | None => Raise JSONDecodeError
      | Some (JArr data) => Ok data
      | Some _ => Ok []
      end
  end.

(** The prompt only travels to the remote model, whose reply the world
    supplies. *)
Definition _generate_counterpoints_with_llm : M (list json) :=
  api_key ← gets GOOGLE_API_KEY;
  if negb (PyStr.truthy_opt api_key) then mret []
  else
    response ← gets gemini;
    match generate_try response with
    | Ok data => mret data
    | Raise _ => mret []
    end.

(** [str(v)] *)
Definition str_of (v : json) : string :=
  match v with
  | JStr s => s
  | _ => str_of_value v
  end.

(** [int(v)]; [None] when it raises. *)
Definition int_of (v : json) : option Z :=
  match v with
  | JNum literal => int_of_number literal
  | JStr s => int_of_text s
  | JBool b => Some (if b then 1 else 0)%Z
  | JNull | JArr _ | JObj _ => None
  end.

(** [bool(v)] *)
Definition truth_of (v : json) : bool :=
  match v with
  | JNull => false
  | JBool b => b
  | JNum literal => negb (number_is_zero literal)
  | JStr s => PyStr.truthy s
  | JArr items => negb (ImplicationChains.is_empty_list items)
  | JObj fields => negb (ImplicationChains.is_empty_list fields)
  end.

(** [int(item.get(key, -1))] *)
Definition index_field (key : string) (item : list (string * json))
  : option Z :=
  match PyDict.get key item with
  | None => Some (-1)%Z
  | Some v => int_of v
  end.

(** [item.get("type", "").strip()]; only a string has [strip]. *)
Definition type_field (item : list (string * json)) : option string :=
  match PyDict.get "type" item with
  | None => Some ""
  | Some (JStr s) => Some (PyStr.strip s)
  | Some _ => None
  end.

(** The values [for u in v] goes through; [None] when [v] is not iterable. *)
Definition iterate (v : json) : option (list json) :=
  match v with
  | JArr items => Some items
  | JStr s =>
      Some (List.map (fun c => JStr (String c "")) (list_ascii_of_string s))
  | JObj fields => Some (List.map (fun kv => JStr (fst kv)) fields)
  | JNull | JBool _ | JNum _ => None
  end.

(** [item.get("based_on_sources", []) or []] and the loop that keeps the
    stripped entries found in the allowed set. *)
Definition sources_field (allowed_set : gset string)
    (item : list (string * json)) : option (list string) :=
  let v := match PyDict.get "based_on_sources" item with
           | None => JArr []
           | Some v => v
           end in
  let srcs := if truth_of v then v else JArr [] in
  match iterate srcs with
  | None => None
  | Some us =>
      Some (List.filter (fun su => bool_decide (su ∈ allowed_set))
              (List.map (fun u => PyStr.strip (str_of u)) us))
  end.

Definition counterpoint_types : list string :=
  ["subject_denial"; "alternative_explanation"; "scope_limitation";
   "methodological_caveat"; "value_judgment"].

Definition strengths : list string := ["minor"; "moderate"; "strong"].

(** [item.get("strength", "moderate")] replaced by the default when it is
    not one of the three; testing a list or an object for membership in a
    set raises. *)
Definition strength_field (item : list (string * json)) : option string :=
  match PyDict.get "strength" item with
  | None => Some "moderate"
  | Some (JStr s) =>
      Some (if bool_decide (s ∈ strengths) then s else "moderate")
  | Some (JArr _) | Some (JObj _) => None
  | Some _ => Some "moderate"
  end.

Definition notes_field (item : list (string * json)) : option string :=
  let notes :=
    match PyDict.get "notes" item with
    | None => Some (PyStr.strip "")
    | Some JNull => None
    | Some v => Some (PyStr.strip (str_of v))
    end in
  match notes with
  | Some "" => None
  | _ => notes
  end.

(** [len(critic.implication_chains[t_chain].steps)] for an index in range. *)
Definition steps_of_chain (critic : CriticResult.t) (t_chain : Z) : nat :=
  match CriticResult.implication_chains critic !! Z.to_nat t_chain with
  | Some chain => length (ImplicationChain.steps chain)
  | None => 0
  end.

(** The body of the loop for one item: the counterpoint appended, or
    [None] when the item is skipped by a [continue] or by the handler. *)
Definition clean_item (critic : CriticResult.t) (allowed_set : gset string)
    (item : json) : option Counterpoint.t :=
  match item with
  | JObj fields =>
      let cid := ImplicationChains.field_text "id" fields in
      t_chain ← index_field "target_chain_index" fields;
      t_step ← index_field "target_step_index" fields;
      ctype ← type_field fields;
      let text := ImplicationChains.field_text "text" fields in
      let num_chains :=
        Z.of_nat (length (CriticResult.implication_chains critic)) in
      if negb (PyStr.truthy cid) || String.eqb text "" then None
      else if (t_chain <? 0)%Z || (num_chains <=? t_chain)%Z then None
      else if (t_step <? 0)%Z
              || (Z.of_nat (steps_of_chain critic t_chain) <=? t_step)%Z
      then None
      else if negb (bool_decide (ctype ∈ counterpoint_types)) then None
      else
        clean_srcs ← sources_field allowed_set fields;
        let uses_gk :=
          match PyDict.get "uses_general_knowledge" fields with
          | None => false
          | Some v => truth_of v
          end in
        strength ← strength_field fields;
        Some (Counterpoint.mk cid t_chain t_step ctype text clean_srcs
                uses_gk strength (notes_field fields))
  | _ => None
  end.

Definition _clean_and_validate_counterpoints (raw : list json)
    (critic : CriticResult.t) (allowed_urls : list string)
  : list Counterpoint.t :=
  let allowed_set : gset string := list_to_set allowed_urls in
  omap (clean_item critic allowed_set) raw.

Definition summary_with_counterpoints : string :=
  "This analysis surfaces counterpoints and alternative perspectives on the "
  ++ "implication chains identified by the Critic agent. It distinguishes "
  ++ "between counterpoints grounded directly in the collected sources and "
  ++ "those that rely on general world knowledge or broader contextual "
  ++ "reasoning.".

Definition summary_without_counterpoints : string :=
  "No substantial counterpoints were identified beyond the existing "
  ++ "implication analysis and gaps. This may indicate that the available "
  ++ "sources present relatively aligned narratives on the core claims.".

(** [run_counterpoint] up to the result it builds. *)
Definition build_counterpoint_result : M CounterpointResult.t :=
  critic ← _load_latest_critic;
  pa ← _load_latest_pattern_analysis;
  let allowed_urls := _collect_allowed_urls pa in
  raw_cps ← _generate_counterpoints_with_llm;
  let counterpoints :=
    _clean_and_validate_counterpoints raw_cps critic allowed_urls in
  let high_level_summary :=
    match counterpoints with
    | [] => summary_without_counterpoints
    | _ => summary_with_counterpoints
    end in
  mret (CounterpointResult.mk (CriticResult.statement critic)
          high_level_summary counterpoints).

(** [run_counterpoint]: the store file is only touched by the final save,
    after its constructor. *)
Definition run_counterpoint (f : counterpoint_file) (w : World)
  : result CounterpointResult.t * World * counterpoint_file :=
  match build_counterpoint_result w with
  | (Ok r, w') =>
      (Ok r, w',
       CounterpointMemory.save_result r (CounterpointMemory.__init__ f))
  | (Raise e, w') => (Raise e, w', f)
  end.

End WithLib.
End CounterpointTool.

(* ===================================================================== *)
(** ** agents/fact_finder/tools/firecrawl_fact_finder.py *)
(* ===================================================================== *)

Module FactFinder.
Section WithLib.
Context `{PyLib} `{PyConv}.

(** An [Optional[str]] field of the [SourceInfo] built from
    [structured_info]: a missing
    key or a null is [None], a string is itself, anything else fails
    validation (the outer [None]). *)
Definition optional_field (key : string) (info : list (string * json))
  : option (option string) :=
  match PyDict.get key info with
  | None | Some JNull => Some None
  | Some (JStr s) => Some (Some s)
  | Some _ => None
  end.

(** The [SourceInfo] built from [structured_info] once [source_type] has
    been set;
    [None] for a [ValidationError]. *)
Definition source_of (source_type url : string)
    (info : list (string * json)) : option SourceInfo.t :=
  title ← optional_field "title" info;
  description ← optional_field "description" info;
  source_name ← optional_field "source_name" info;
  publish_date ← optional_field "publish_date" info;
  source_class ← optional_field "source_class" info;
  source_country ← optional_field "source_country" info;
  historical_verdicts ← optional_field "historical_verdicts" info;
  Some (SourceInfo.mk title url description source_name publish_date
          source_type source_class source_country historical_verdicts).

(** The loop state: [all_sources] and [seen_urls]. *)
Definition finder_state : Type := (list SourceInfo.t * gset string)%type.

(** What the loop keeps true of its state: [seen_urls] is the set of the
    URLs of [all_sources], which are pairwise distinct and not empty. *)
Definition finder_inv (acc : finder_state) : Prop :=
  snd acc = list_to_set (List.map SourceInfo.url (fst acc))
  /\ NoDup (List.map SourceInfo.url (fst acc))
  /\ forall s, s ∈ fst acc -> SourceInfo.url s <> "".

(** The body of [for result in results].  A result that is not an object
    has no [get]; a list or an object cannot be looked up in a set. *)
Definition scan_result (source_type : string) (acc : finder_state)
    (item : json) : result finder_state :=
  match item with
  | JObj fields =>
      match PyDict.get "json" fields with
      | Some (JObj ((_ :: _) as info)) =>
          match PyDict.get "url" info with
          | None => Ok acc
          | Some url =>
              if negb (CounterpointTool.truth_of url) then Ok acc
              else
                match url with
                | JArr _ | JObj _ =>
                    Raise (OtherException "TypeError: unhashable type")
                | JStr u =>
                    if bool_decide (u ∈ snd acc) then Ok acc
                    else
                      match source_of source_type u info with
                      | None => Ok acc
                      | Some source =>
                          Ok ((fst acc ++ [source])%list, {[u]} ∪ snd acc)
                      end
                | _ => Ok acc
                end
          end
      | _ => Ok acc
      end
  | _ => Raise (OtherException "AttributeError: no attribute 'get'")
  end.

Fixpoint scan_results (source_type : string) (acc : finder_state)
    (results : list json) : result finder_state :=
  match results with
  | [] => Ok acc
  | item :: rest =>
      match scan_result source_type acc item with
      | Ok acc' => scan_results source_type acc' rest
      | Raise e => Raise e
      end
  end.

(** One round of [for source_type in ["news", "web"]]. *)
Definition scan_source_type (search_data : list (string * json))
    (acc : finder_state) (source_type : string) : result finder_state :=
  let results := match PyDict.get source_type search_data with
                 | None => JArr []
                 | Some v => v
                 end in
  match CounterpointTool.iterate results with
  | None => Raise (OtherException "TypeError: object is not iterable")
  | Some items => scan_results source_type acc items
  end.

(** The sources gathered from the decoded search response. *)
Definition collect_sources (api_data : json) : result (list SourceInfo.t) :=
  match api_data with
  | JObj top =>
      let search_data := match PyDict.get "data" top with
                         | None => JObj []
                         | Some v => v
                         end in
      match search_data with
      | JObj sd =>
          match scan_source_type sd ([], ∅) "news" with
          | Raise e => Raise e
          | Ok acc =>
              match scan_source_type sd acc "web" with
              | Raise e => Raise e
              | Ok acc' => Ok (fst acc')
              end
          end
      | _ => Raise (OtherException "AttributeError: no attribute 'get'")
      end
  | _ => Raise (OtherException "AttributeError: no attribute 'get'")
  end.

(** [run_fact_finder], given how [call_firecrawl_search] ends: it raises
    a [FirecrawlError] or returns the decoded response. *)
Definition run_fact_finder (api : result json) (statement : string)
  : M FactFinderResult.t :=
  match api with
  | Raise e => raise e
  | Ok api_data =>
      match collect_sources api_data with
      | Raise e => raise e
      | Ok all_sources =>
          let normalized_statement := PyStr.strip statement in
          let fact_result :=
            FactFinderResult.mk normalized_statement all_sources in
          LocalFactFinderMemory.__init__;;
          LocalFactFinderMemory.save_result fact_result;;
          SessionStore.save_fact_finder_result_session fact_result;;
          mret fact_result
      end
  end.

End WithLib.
End FactFinder.

(* ===================================================================== *)
(** ** Example counterpoints *)
(* ===================================================================== *)

Module CounterpointExamples.

(** The conversions on the inputs the examples use: the integers 0 and 1
    written as numbers or as text. *)
Definition example_conv : PyConv := {|
  int_of_number literal :=
    if String.eqb literal "0" then Some 0%Z
    else if String.eqb literal "1" then Some 1%Z
    else None;
  int_of_text s :=
    if String.eqb s "0" then Some 0%Z
    else if String.eqb s "1" then Some 1%Z
    else None;
  number_is_zero literal := String.eqb literal "0"
|}.

(** The critic result for [Examples.labelled_analysis] and one candidate. *)
Definition critic_result : CriticResult.t :=
  CriticTool.critic_result_of Examples.labelled_analysis
    [Candidate.mk "Prices rose" "Prices rose" "same event"].

(** A well-formed counterpoint that also cites a URL outside the allowed
    list and names an unknown strength. *)
Definition denial_item : json :=
  JObj [("id", JStr "cp_1");
        ("target_chain_index", JNum "0");
        ("target_step_index", JStr "0");
        ("type", JStr " subject_denial ");
        ("text", JStr "The ministry denied the report.");
        ("based_on_sources",
         JArr [JStr "https://news.example/1"; JStr "https://elsewhere.example/"]);
        ("uses_general_knowledge", JBool false);
        ("strength", JStr "overwhelming");
        ("notes", JStr "  ")].

(** A counterpoint aimed at a chain that does not exist. *)
Definition misdirected_item : json :=
  JObj [("id", JStr "cp_2");
        ("target_chain_index", JNum "1");
        ("target_step_index", JNum "0");
        ("type", JStr "scope_limitation");
        ("text", JStr "Only one city was surveyed.")].

Definition cleaned_denial : Counterpoint.t :=
  Counterpoint.mk "cp_1" 0 0 "subject_denial"
    "The ministry denied the report." ["https://news.example/1"]
    false "moderate" None.

(** A world after a critic run, for the counterpoint run. *)
Definition world_after_critic (reply : llm_response) : World :=
  set_critic_file (Stored [("Prices rose", critic_result)])
    (Examples.world_with Examples.labelled_analysis reply).

(** Four articles out of date order, one of them undated and two of them
    of the same day. *)
Definition dated_article (n : nat) (date : option string)
  : ArticleAnalysis.t :=
  ArticleAnalysis.mk ("https://news.example/" ++ pretty n) None date None
    None None None [] None None None None.

Definition dated_analysis : PatternAnalysisResult.t :=
  PatternAnalysisResult.mk "Prices rose"
    [dated_article 1 (Some "2025-05-12");
     dated_article 2 (Some "2025-05-10");
     dated_article 3 None;
     dated_article 4 (Some "2025-05-10")].

(** The library functions with the digests of two statements. *)
Definition two_statement_lib : PyLib := {|
  json_loads := @json_loads Examples.example_lib;
  str_of_value := @str_of_value Examples.example_lib;
  sha256_hexdigest s :=
    if String.eqb s "Prices rose"
    then "ec5d1af891c2d597de820f8989627235bb918d31643420d3c6f641d9ac947942"
    else if String.eqb s "Wages fell"
    then "60038de073ac43bcd97a9df00c4eb2cf7c31c4a2a340e4f70cf2022f514352fa"
    else "";
  urlparse_netloc := @urlparse_netloc Examples.example_lib
|}.

Definition wages_analysis : PatternAnalysisResult.t :=
  PatternAnalysisResult.mk "Wages fell"
    [Examples.article "https://news.example/9" None].

(** A pattern store that already holds an analysis of [Prices rose],
    followed by one of [Wages fell]. *)
Definition two_record_world : World :=
  set_pattern_analysis_file
    (Stored
       [("ec5d1af891c2d597de820f8989627235bb918d31643420d3c6f641d9ac947942",
         Examples.unlabelled_analysis);
        ("60038de073ac43bcd97a9df00c4eb2cf7c31c4a2a340e4f70cf2022f514352fa", wages_analysis)])
    (Examples.world_with Examples.unlabelled_analysis (GenRaises "unused")).

(** A search response: two news results with the same URL and two web
    results, the second one without structured data. *)
Definition search_hit (url title : string) : json :=
  JObj [("url", JStr url);
        ("json", JObj [("url", JStr url); ("title", JStr title);
                       ("publish_date", JNull)])].

Definition search_response : json :=
  JObj [("success", JBool true);
        ("data",
         JObj [("web",
                JArr [search_hit "https://news.example/2" "Prices, explained";
                      JObj [("url", JStr "https://news.example/3")]]);
               ("news",
                JArr [search_hit "https://news.example/1" "Prices rose";
                      search_hit "https://news.example/1" "Prices rose again"])])].

End CounterpointExamples.

(* ===================================================================== *)
(** ** The similarity measure *)
(* ===================================================================== *)

Import ImplicationChains.

Section Similarity.

Lemma word_set_nonempty (a : list string) :
  a <> [] -> size (word_set a) <> 0%nat.
Proof.
  destruct a as [|w ws]; [congruence | intros _].
  apply size_non_empty_iff. unfold word_set. set_solver.
Qed.

Lemma jaccard_nonempty (a b : list string) :
  a <> [] -> b <> [] ->
  _jaccard_similarity a b =
    let inter := size (word_set a ∩ word_set b) in
    if (inter =? 0)%nat then 0%Q
    else (inject_Z (Z.of_nat inter)
          / inject_Z (Z.of_nat (size (word_set a))))%Q.
Proof. destruct a, b; congruence || reflexivity. Qed.

Lemma jaccard_formula (a b : list string) :
  a <> [] -> b <> [] ->
  _jaccard_similarity a b ==
    (inject_Z (Z.of_nat (size (word_set a ∩ word_set b)))
     / inject_Z (Z.of_nat (size (word_set a))))%Q.
Proof.
  intros Ha Hb. rewrite jaccard_nonempty by assumption. cbv zeta.
  destruct (Nat.eqb_spec (size (word_set a ∩ word_set b)) 0) as [E|E].
  - rewrite E. unfold Qdiv. now rewrite Qmult_0_l.
  - reflexivity.
Qed.

End Similarity.

(** C6.  For non-empty word lists the similarity is the size of the
    intersection of the two word sets divided by the size of the first one
    alone; it is not symmetric; a first list whose words all occur in the
    second scores 1; and an empty intersection scores 0 whatever the sizes. *)
Theorem similarity_is_asymmetric_coverage :
  (forall a b : list string, a <> [] -> b <> [] ->
     _jaccard_similarity a b ==
       (inject_Z (Z.of_nat (size (word_set a ∩ word_set b)))
        / inject_Z (Z.of_nat (size (word_set a))))%Q)
  /\ (exists a b : list string,
        a <> [] /\ b <> [] /\
        ~ _jaccard_similarity a b == _jaccard_similarity b a)
  /\ (forall a b : list string, a <> [] ->
        word_set a ⊆ word_set b -> _jaccard_similarity a b == 1)
  /\ (forall a b : list string,
        word_set a ∩ word_set b = ∅ -> _jaccard_similarity a b = 0%Q).
Proof.
  split; [exact jaccard_formula|]. split; [|split].
  - exists ["x"], ["x"; "y"]. split; [discriminate|]. split; [discriminate|].
    vm_compute. discriminate.
  - intros a b Ha Hsub.
    assert (Hb : b <> []).
    { destruct a as [|w ws]; [congruence|]. intros ->.
      unfold word_set in Hsub. set_solver. }
    rewrite jaccard_formula by assumption.
    rewrite (subseteq_intersection_1_L _ _ Hsub).
    apply Qmult_inv_r. pose proof (word_set_nonempty a Ha) as Hn.
    unfold Qeq; simpl. lia.
  - intros a b Hinter. destruct a as [|x a'], b as [|y b']; try reflexivity.
    unfold _jaccard_similarity. rewrite Hinter. reflexivity.
Qed.

Lemma similarity_is_asymmetric_coverage_witness :
  _jaccard_similarity ["raised"; "prices"] ["company"; "raised"; "prices"; "today"] == 1
  /\ _jaccard_similarity ["company"; "raised"; "prices"; "today"] ["raised"; "prices"] == 1 # 2.
Proof.
  split.
  - apply (proj1 (proj2 (proj2 similarity_is_asymmetric_coverage))).
    + discriminate.
    + apply (bool_decide_unpack _). vm_compute. exact I.
  - rewrite (proj1 similarity_is_asymmetric_coverage) by discriminate.
    vm_compute. reflexivity.
Defined.

(* ===================================================================== *)
(** ** The verdict policy *)
(* ===================================================================== *)

(** C2.  The verdict is decided by the branches in their order: more than
    one supporter and no refuter gives consistent; exactly one supporter and
    no refuter gives partially supported; any refuter gives contradicted,
    whatever the number of supporters; with neither, the premise votes decide
    between contradicted and speculative.  Every branch fixes its assessment
    text, and the verdict is always one of the four values. *)
Theorem verdict_policy_branch_order :
  forall (supporting refuting : list string) (pvotes : Votes.t),
    (1 < length supporting /\ refuting = [] ->
       decide_verdict supporting refuting pvotes =
         ("consistent",
          "well supported by multiple sources with no clear refutations"))
    /\ (length supporting = 1 /\ refuting = [] ->
       decide_verdict supporting refuting pvotes =
         ("partially supported",
          "weakly supported (single-source implication)"))
    /\ (refuting <> [] ->
       decide_verdict supporting refuting pvotes =
         ("contradicted",
          "contested: at least one source affirms the premise but denies the consequence"))
    /\ (supporting = [] /\ refuting = [] ->
       decide_verdict supporting refuting pvotes =
         if bool_decide (Votes.get pvotes affirmation < Votes.get pvotes denial)
         then ("contradicted",
               "premise itself appears more often denied than affirmed")
         else ("speculative",
               "inferred only by LLM, with no strong article-level corroboration"))
    /\ fst (decide_verdict supporting refuting pvotes)
         ∈ ["consistent"; "partially supported"; "contradicted"; "speculative"].
Proof.
  intros supporting refuting pvotes. unfold decide_verdict.
  repeat split.
  - intros [Hlen ->]. apply Nat.ltb_lt in Hlen. now rewrite Hlen.
  - intros [Hlen ->]. rewrite Hlen. reflexivity.
  - intros Href. destruct refuting as [|r rs]; [congruence|].
    cbn [is_empty_list]. rewrite !andb_false_r. reflexivity.
  - intros [-> ->].
    destruct (Nat.ltb_spec (Votes.get pvotes affirmation)
                           (Votes.get pvotes denial)) as [Hlt|Hge]; cbn in *.
    + rewrite bool_decide_eq_true_2; [reflexivity | assumption].
    + rewrite bool_decide_eq_false_2; [reflexivity | lia].
  - destruct (1 <? length supporting)%nat, (length supporting =? 1)%nat,
      (is_empty_list refuting),
      (Votes.get pvotes affirmation <? Votes.get pvotes denial)%nat;
      cbn [andb negb fst]; repeat constructor.
Qed.

(** The scenario of the specification: three supporters and one refuter
    are contradicted, not consistent. *)
Lemma verdict_policy_branch_order_witness :
  decide_verdict ["u1"; "u2"; "u3"] ["u4"] Votes.zero =
    ("contradicted",
     "contested: at least one source affirms the premise but denies the consequence")
  /\ decide_verdict ["u1"; "u2"] [] Votes.zero =
    ("consistent",
     "well supported by multiple sources with no clear refutations").
Proof.
  split.
  - apply (proj1 (proj2 (proj2
             (verdict_policy_branch_order ["u1"; "u2"; "u3"] ["u4"] Votes.zero)))).
    discriminate.
  - apply (proj1 (verdict_policy_branch_order ["u1"; "u2"] [] Votes.zero)).
    split; [simpl; lia | reflexivity].
Defined.

(* ===================================================================== *)
(** ** The evidence scan *)
(* ===================================================================== *)

Section Scan.
Variables premise_text conseq_text : string.








End Scan.








(* ===================================================================== *)
(** ** Modality classification *)
(* ===================================================================== *)

Section Substrings.

Lemma prefix_iff (k m : string) :
  String.prefix k m = true <-> exists post : string, m = k ++ post.
Proof.
  revert m. induction k as [|a k IH]; intros m; cbn.
  - split; [intros _; now exists m | now destruct m].
  - destruct m as [|b m]; cbn.
    + split; [discriminate | intros [post E]; discriminate E].
    + destruct (ascii_dec a b) as [->|Hab].
      * rewrite IH. split; intros [post E]; exists post.
        -- now rewrite E.
        -- now injection E.
      * split; [discriminate | intros [post E]]. injection E as E1 E2.
        congruence.
Qed.

Lemma contains_iff (k m : string) :
  PyStr.contains k m = true <-> occurs_in k m.
Proof.
  unfold occurs_in. induction m as [|c m IH].
  - cbn [PyStr.contains]. rewrite orb_false_r, prefix_iff. split.
    + intros [post E]. now exists "", post.
    + intros [pre [post E]]. destruct pre; [now exists post|discriminate E].
  - cbn [PyStr.contains]. rewrite orb_true_iff, prefix_iff, IH. split.
    + intros [[post E] | [pre [post E]]].
      * now exists "", post.
      * exists (String c pre), post. cbn. now rewrite E.
    + intros [pre [post E]]. destruct pre as [|c' pre].
      * left. now exists post.
      * right. cbn in E. injection E as _ E. now exists pre, post.
Qed.

Lemma any_in_iff (keywords : list string) (m : string) :
  any_in keywords m = true <->
  exists k, k ∈ keywords /\ occurs_in k m.
Proof.
  unfold any_in. rewrite existsb_exists.
  split; intros [k [Hk Hc]]; exists k.
  - split; [now apply list_elem_of_In | now apply contains_iff].
  - split; [now apply list_elem_of_In | now apply contains_iff].
Qed.

End Substrings.

(** C5, as the code has it.  A missing or empty modality is not classified
    (the result is none).  A non-empty modality is always classified: as
    denial when its lower-cased text contains one of denies, denied, refutes,
    refuted, false; failing that, as affirmation when it contains one of
    reports, reported, claims, claimed, alleges, stated; and as speculation in
    every other case. *)
Theorem classify_modality_by_keyword_precedence :
  forall modality : option string,
    (modality = None \/ modality = Some "" ->
       _classify_modality modality = None)
    /\ (forall m : string, modality = Some m -> m <> "" ->
          (mentions denial_keywords m ->
             _classify_modality modality = Some denial)
          /\ (~ mentions denial_keywords m ->
              mentions affirmation_keywords m ->
                _classify_modality modality = Some affirmation)
          /\ (~ mentions denial_keywords m ->
              ~ mentions affirmation_keywords m ->
                _classify_modality modality = Some speculation)).
Proof.
  intros modality. split.
  - intros [-> | ->]; reflexivity.
  - intros m -> Hm. unfold _classify_modality.
    assert (Ht : PyStr.truthy m = true)
      by (destruct m; [congruence | reflexivity]).
    rewrite Ht. cbn [negb]. cbv zeta.
    pose proof (any_in_iff denial_keywords (PyStr.lower m)) as Hd.
    pose proof (any_in_iff affirmation_keywords (PyStr.lower m)) as Ha.
    fold (mentions denial_keywords m) in Hd.
    fold (mentions affirmation_keywords m) in Ha.
    destruct (any_in denial_keywords (PyStr.lower m)).
    { assert (mentions denial_keywords m) by now apply Hd.
      split; [|split]; intros; [reflexivity | contradiction | contradiction]. }
    assert (Nd : ~ mentions denial_keywords m)
      by (intros Md; apply Hd in Md; discriminate Md).
    destruct (any_in affirmation_keywords (PyStr.lower m)).
    { assert (mentions affirmation_keywords m) by now apply Ha.
      split; [|split]; intros; [contradiction | reflexivity | contradiction]. }
    assert (Na : ~ mentions affirmation_keywords m)
      by (intros Ma; apply Ha in Ma; discriminate Ma).
    split; [|split]; intros; [contradiction | contradiction |].
    now destruct (any_in speculation_keywords (PyStr.lower m)).
Qed.

Lemma classify_modality_by_keyword_precedence_witness :
  _classify_modality (Some "Officially DENIED, as reported") = Some denial.
Proof.
  refine (proj1 (proj2 (classify_modality_by_keyword_precedence
                          (Some "Officially DENIED, as reported"))
                       "Officially DENIED, as reported" eq_refl _) _).
  - discriminate.
  - exists "denied". split.
    + unfold denial_keywords. set_solver.
    + now exists "officially ", ", as reported".
Defined.

(** C5 as stated fails: an empty or missing modality is dropped (none, not
    speculation), and a modality that contains an affirmation keyword is
    classified as denial when it also contains a denial keyword. *)
Lemma classify_modality_empty_is_none :
  _classify_modality None = None
  /\ _classify_modality (Some "") = None
  /\ _classify_modality (Some "") <> Some speculation
  /\ PyStr.contains "reported" "reported but denied" = true
  /\ _classify_modality (Some "reported but denied") = Some denial.
Proof. repeat split; try reflexivity. discriminate. Qed.

(* ===================================================================== *)
(** ** The claim matcher *)
(* ===================================================================== *)

Section Matcher.
Variable target_words : list string.

Lemma match_step_cases (best : Q * option modality_class) (x : Claim.t) :
  (match_step target_words best x = (claim_similarity target_words x, _classify_modality (Claim.modality x))
   /\ eligible target_words x /\ (fst best < claim_similarity target_words x)%Q)
  \/ (match_step target_words best x = best
      /\ (~ eligible target_words x \/ (claim_similarity target_words x <= fst best)%Q)).
Proof.
  unfold match_step, eligible, clears_threshold.
  fold (claim_similarity target_words x).
  destruct (Qle_bool similarity_threshold (claim_similarity target_words x)) eqn:Ethr; cbn [andb].
  - apply Qle_bool_iff in Ethr.
    destruct (Qle_bool (claim_similarity target_words x) (fst best)) eqn:Ebest; cbn [negb].
    + right. split; [reflexivity|]. right. now apply Qle_bool_iff.
    + assert (Hlt : (fst best < claim_similarity target_words x)%Q).
      { apply Qnot_le_lt. intros Hle. apply Qle_bool_iff in Hle. congruence. }
      destruct (_classify_modality (Claim.modality x)) as [cl|] eqn:Ecl.
      * left. repeat split; [assumption| now exists cl | assumption].
      * right. split; [reflexivity|]. left. intros [_ [cl Hcl]]. discriminate.
  - right. split; [reflexivity|]. left. intros [Hle _].
    apply Qle_bool_iff in Hle. congruence.
Qed.

Lemma match_inv_step (seen : list Claim.t)
    (best : Q * option modality_class) (x : Claim.t) :
  match_inv target_words seen best ->
  match_inv target_words (seen ++ [x]) (match_step target_words best x).
Proof.
  intros Hinv.
  destruct (match_step_cases best x) as [[E [Hel Hlt]] | [E Hno]]; rewrite E.
  - (* the new claim becomes the best one *)
    destruct Hel as [Hthr [cl Hcl]]. unfold match_inv. cbn [fst snd].
    rewrite Hcl. exists (length seen), x.
    assert (Hold : forall j c', seen !! j = Some c' ->
              eligible target_words c' -> (claim_similarity target_words c' < claim_similarity target_words x)%Q).
    { intros j c' Hj Hc'. unfold match_inv in Hinv.
      destruct (snd best) as [m|].
      - destruct Hinv as (i & c & _ & _ & _ & Hbest & Hmax & _).
        rewrite Hbest in Hlt. specialize (Hmax j c' Hj Hc'). lra.
      - destruct Hinv as [_ Hnone]. exfalso.
        apply (Hnone c'); [|assumption].
        apply list_elem_of_lookup. now exists j. }
    split; [apply list_lookup_middle; reflexivity|].
    split; [split; [assumption | now exists cl]|].
    split; [exact Hcl|]. split; [reflexivity|]. split.
    + intros j c' Hj Hc'. apply lookup_app_Some in Hj.
      destruct Hj as [Hj | [_ Hj]].
      * apply Qlt_le_weak. now apply (Hold j).
      * apply list_lookup_singleton_Some in Hj. destruct Hj as [_ <-].
        apply Qle_refl.
    + intros j c' Hlt' Hj Hc'. apply (Hold j); [|assumption].
      now rewrite lookup_app_l in Hj.
  - (* the state is unchanged *)
    unfold match_inv in *. destruct (snd best) as [m|].
    + destruct Hinv as (i & c & Hi & Hc & Hm & Hbest & Hmax & Hfirst).
      exists i, c.
      split; [apply lookup_app_l_Some; assumption|].
      do 3 (split; [assumption|]). split.
      * intros j c' Hj Hc'. apply lookup_app_Some in Hj.
        destruct Hj as [Hj | [_ Hj]]; [now apply (Hmax j)|].
        apply list_lookup_singleton_Some in Hj. destruct Hj as [_ <-].
        destruct Hno as [Hno|Hno]; [contradiction|]. now rewrite <- Hbest.
      * intros j c' Hlt Hj Hc'. apply (Hfirst j); [assumption| |assumption].
        apply lookup_lt_Some in Hi.
        rewrite lookup_app_l in Hj by lia. assumption.
    + destruct Hinv as [Hzero Hnone]. split; [assumption|].
      intros c Hc. apply elem_of_app in Hc. destruct Hc as [Hc|Hc].
      * now apply Hnone.
      * apply list_elem_of_singleton in Hc. subst c.
        destruct Hno as [Hno|Hno]; [assumption|].
        intros [Hthr _]. unfold clears_threshold, similarity_threshold in Hthr.
        rewrite Hzero in Hno. lra.
Qed.

Lemma match_inv_fold (claims seen : list Claim.t)
    (best : Q * option modality_class) :
  match_inv target_words seen best ->
  match_inv target_words (seen ++ claims)
            (fold_left (match_step target_words) claims best).
Proof.
  revert seen best. induction claims as [|x rest IH]; intros seen best Hinv.
  - now rewrite app_nil_r.
  - cbn [fold_left].
    replace (seen ++ x :: rest)%list with ((seen ++ [x]) ++ rest)%list
      by now rewrite <- app_assoc.
    apply IH. now apply match_inv_step.
Qed.

End Matcher.

(** C4, as the code has it.  With the target normalised to its word list:
    an empty word list gives none; otherwise the result is none exactly when
    no claim both clears the threshold 0.3 and has a modality that
    classifies (a non-empty one); and a result is the classified modality of
    such a claim whose similarity is the highest among them, the first one in
    list order at that similarity. *)
Theorem claim_matcher_selects_first_best_classified :
  forall (key_claims : list Claim.t) (target_text : string),
    let tw := _normalize_text target_text in
    (tw = [] -> _check_claim_support key_claims target_text = None)
    /\ (tw <> [] ->
          (_check_claim_support key_claims target_text = None
           <-> forall c, c ∈ key_claims -> ~ eligible tw c))
    /\ (forall m, _check_claim_support key_claims target_text = Some m ->
          exists (i : nat) (c : Claim.t),
            key_claims !! i = Some c
            /\ eligible tw c
            /\ _classify_modality (Claim.modality c) = Some m
            /\ (forall j c', key_claims !! j = Some c' -> eligible tw c' ->
                  (claim_similarity tw c' <= claim_similarity tw c)%Q)
            /\ (forall j c', j < i -> key_claims !! j = Some c' ->
                  eligible tw c' ->
                  (claim_similarity tw c' < claim_similarity tw c)%Q)).
Proof.
  intros key_claims target_text tw.
  assert (Hinv : match_inv tw key_claims
                   (fold_left (match_step tw) key_claims (0%Q, None))).
  { apply (match_inv_fold tw key_claims [] (0%Q, None)).
    split; [reflexivity|]. intros c Hc. now apply elem_of_nil in Hc. }
  assert (Hrun : tw <> [] ->
            _check_claim_support key_claims target_text =
              snd (fold_left (match_step tw) key_claims (0%Q, None))).
  { unfold _check_claim_support. fold tw. now destruct tw. }
  split; [|split].
  - unfold _check_claim_support. fold tw. now intros ->.
  - intros Hne. rewrite (Hrun Hne). unfold match_inv in Hinv.
    destruct (snd (fold_left (match_step tw) key_claims (0%Q, None))) as [m|].
    + destruct Hinv as (i & c & Hi & Hc & _).
      split; [discriminate|]. intros Hnone. exfalso.
      apply (Hnone c); [|assumption]. apply list_elem_of_lookup. now exists i.
    + destruct Hinv as [_ Hnone]. split; [intros _; assumption | reflexivity].
  - intros m Hm.
    assert (Hne : tw <> []).
    { intros E. unfold _check_claim_support in Hm. fold tw in Hm.
      rewrite E in Hm. discriminate Hm. }
    rewrite (Hrun Hne) in Hm. unfold match_inv in Hinv. rewrite Hm in Hinv.
    destruct Hinv as (i & c & Hi & Hc & Hcl & _ & Hmax & Hfirst).
    exists i, c. repeat split; try assumption; apply Hc.
Qed.

Lemma claim_matcher_selects_first_best_classified_witness :
  let key_claims :=
    [Claim.mk "Prices fell" (Some "denied") None None;
     Claim.mk "Company X raised prices." (Some "reported") None None;
     Claim.mk "company x raised prices" (Some "possibly") None None] in
  let tw := _normalize_text "Company X raised prices" in
  exists (i : nat) (c : Claim.t),
    key_claims !! i = Some c
    /\ eligible tw c
    /\ _classify_modality (Claim.modality c) = Some affirmation
    /\ (forall j c', key_claims !! j = Some c' -> eligible tw c' ->
          (claim_similarity tw c' <= claim_similarity tw c)%Q)
    /\ (forall j c', j < i -> key_claims !! j = Some c' -> eligible tw c' ->
          (claim_similarity tw c' < claim_similarity tw c)%Q).
Proof.
  apply (proj2 (proj2 (claim_matcher_selects_first_best_classified
    [Claim.mk "Prices fell" (Some "denied") None None;
     Claim.mk "Company X raised prices." (Some "reported") None None;
     Claim.mk "company x raised prices" (Some "possibly") None None]
    "Company X raised prices")) affirmation).
  vm_compute. reflexivity.
Defined.

(** C4 as stated fails: a claim that clears the threshold but has no
    modality is skipped, so the matcher returns none although a claim clears
    the threshold, and it can return the modality of a claim that is not the
    most similar one. *)
Lemma claim_matcher_skips_unclassified :
  let tw := _normalize_text "prices rose" in
  let unlabelled := Claim.mk "Prices rose." None None None in
  let weaker := Claim.mk "prices" (Some "denied") None None in
  tw <> []
  /\ clears_threshold tw unlabelled
  /\ _check_claim_support [unlabelled] "prices rose" = None
  /\ (claim_similarity tw weaker < claim_similarity tw unlabelled)%Q
  /\ _check_claim_support [unlabelled; weaker] "prices rose" = Some denial.
Proof.
  cbv zeta. split; [vm_compute; discriminate|].
  split; [apply Qle_bool_iff; vm_compute; reflexivity|].
  split; [vm_compute; reflexivity|].
  split; [|vm_compute; reflexivity].
  apply Qnot_le_lt. intros Hle. apply Qle_bool_iff in Hle.
  vm_compute in Hle. discriminate Hle.
Qed.

(* ===================================================================== *)
(** ** Candidate generation and chain assembly *)
(* ===================================================================== *)

(** Unfolds one layer of the monad: binds, returns and world accesses. *)
Ltac run_monad :=
  unfold mbind, M_bind, mret, M_ret, gets, modify, raise; cbn.

Section Chains.
Context `{PyLib}.

Lemma load_latest_run (w : World) :
  ImplicationChains._load_latest_pattern_analysis w =
    let w1 := set_pattern_analysis_file
                (init_file (pattern_analysis_file w)) w in
    match PyDict.last_value (read_file (pattern_analysis_file w1)) with
    | None =>
        (Raise (ValueError
           ("No Pattern Analysis data found in local memory. "
            ++ "Run the Pattern Analyzer agent first.")), w1)
    | Some pa => (Ok pa, w1)
    end.
Proof.
  unfold ImplicationChains._load_latest_pattern_analysis,
    PatternAnalysisMemory.__init__, PatternAnalysisMemory._read_store.
  run_monad. now destruct (PyDict.last_value _).
Qed.

(** Generation never raises and leaves the world as it is. *)
Lemma generate_total (pa : PatternAnalysisResult.t) (w : World) :
  exists candidates,
    _generate_implication_candidates pa w = (Ok candidates, w).
Proof.
  unfold _generate_implication_candidates.
  destruct (summaries_of pa); [now exists []|]. run_monad.
  destruct (PyStr.truthy_opt (GOOGLE_API_KEY w)); cbn; [|now exists []].
  destruct (generate_try (gemini w)) as [clean|e]; eauto.
Qed.

Lemma generate_try_fails (response : llm_response) :
  generation_fails response ->
  match generate_try response with
  | Ok clean => clean = []
  | Raise _ => True
  end.
Proof.
  destruct response as [msg|t]; cbn; [trivial|].
  intros [-> | [v [-> Hv]]]; [trivial|].
  destruct v; trivial. now destruct (Hv items).
Qed.

Lemma build_chain_fields (articles : list ArticleAnalysis.t) (idx : nat)
    (cand : Candidate.t) :
  exists step,
    ImplicationChain.steps (build_chain articles idx cand) = [step]
    /\ ImplicationStep.premise step = Candidate.premise cand
    /\ ImplicationStep.conclusion step = Candidate.consequence cand
    /\ ImplicationStep.supporting_sources step =
         supporting_sources
           (scan_articles (Candidate.premise cand)
                          (Candidate.consequence cand) articles)
    /\ ImplicationStep.refuting_sources step =
         refuting_sources
           (scan_articles (Candidate.premise cand)
                          (Candidate.consequence cand) articles)
    /\ ImplicationChain.description (build_chain articles idx cand) =
         "Implication chain " ++ pretty idx ++ ": "
         ++ Candidate.premise cand ++ " -> " ++ Candidate.consequence cand.
Proof.
  unfold build_chain.
  destruct (decide_verdict _ _ _) as [overall step_assessment].
  eexists. repeat split.
Qed.

Lemma build_chains_lookup (articles : list ArticleAnalysis.t)
    (candidates : list Candidate.t) (i : nat) :
  build_chains articles candidates !! i =
    build_chain articles (S i) <$> candidates !! i.
Proof. unfold build_chains. now rewrite list_lookup_imap. Qed.

Lemma tool_run (w : World) (payload : ChainsPayload.t) (w' : World) :
  build_implication_chains_tool w = (Ok payload, w') ->
  exists pa candidates,
    ImplicationChains._load_latest_pattern_analysis w = (Ok pa, w')
    /\ _generate_implication_candidates pa w' = (Ok candidates, w')
    /\ payload =
         ChainsPayload.mk (PatternAnalysisResult.statement pa)
           (build_chains (PatternAnalysisResult.analyzed_articles pa)
                         candidates).
Proof.
  unfold build_implication_chains_tool.
  unfold mbind at 1. unfold M_bind at 1.
  destruct (ImplicationChains._load_latest_pattern_analysis w)
    as [[pa|e] w1]; [|discriminate].
  unfold mbind, M_bind.
  destruct (generate_total pa w1) as [candidates Hgen]. rewrite Hgen.
  intros Hrun. exists pa, candidates.
  destruct candidates as [|c cs]; cbn in Hrun;
    injection Hrun as <- <-; repeat split; assumption.
Qed.

End Chains.

(** C9.  Every chain the tool returns has exactly one step, whose premise
    and conclusion are the candidate's premise and consequence; there are as
    many chains as candidates returned by the generator, in the same order,
    and chain number i (counted from 1) is described as
    Implication chain i: premise -> consequence. *)
Theorem one_step_chain_per_candidate :
  forall (L : PyLib) (w : World) (payload : ChainsPayload.t) (w' : World),
    build_implication_chains_tool w = (Ok payload, w') ->
    exists (pa : PatternAnalysisResult.t) (candidates : list Candidate.t),
      ImplicationChains._load_latest_pattern_analysis w = (Ok pa, w')
      /\ _generate_implication_candidates pa w' = (Ok candidates, w')
      /\ length (ChainsPayload.implication_chains payload) = length candidates
      /\ forall (i : nat) (cand : Candidate.t),
           candidates !! i = Some cand ->
           exists chain step,
             ChainsPayload.implication_chains payload !! i = Some chain
             /\ ImplicationChain.steps chain = [step]
             /\ ImplicationStep.premise step = Candidate.premise cand
             /\ ImplicationStep.conclusion step = Candidate.consequence cand
             /\ ImplicationChain.description chain =
                  "Implication chain " ++ pretty (S i) ++ ": "
                  ++ Candidate.premise cand ++ " -> "
                  ++ Candidate.consequence cand.
Proof.
  intros L w payload w' Hrun.
  destruct (tool_run w payload w' Hrun) as (pa & candidates & Hload & Hgen & ->).
  exists pa, candidates. split; [assumption|]. split; [assumption|].
  cbn [ChainsPayload.implication_chains]. split.
  - unfold build_chains. apply length_imap.
  - intros i cand Hi.
    destruct (build_chain_fields (PatternAnalysisResult.analyzed_articles pa)
                (S i) cand) as (step & Hsteps & Hp & Hc & _ & _ & Hd).
    exists (build_chain (PatternAnalysisResult.analyzed_articles pa) (S i) cand),
           step.
    rewrite build_chains_lookup, Hi. repeat split; assumption.
Qed.

(** C7.  When the generation call raises, or its reply does not decode, or
    decodes to something that is not a list, the generator returns the empty
    list without raising and without touching the world, and the tool
    returns the statement with an empty chain list. *)
Theorem generation_failure_degrades_to_no_chains :
  forall (L : PyLib) (pa : PatternAnalysisResult.t) (w : World),
    generation_fails (gemini w) ->
    _generate_implication_candidates pa w = (Ok [], w)
    /\ forall w0 : World,
         ImplicationChains._load_latest_pattern_analysis w0 = (Ok pa, w) ->
         build_implication_chains_tool w0 =
           (Ok (ChainsPayload.mk (PatternAnalysisResult.statement pa) []), w).
Proof.
  intros L pa w Hfail.
  assert (Hgen : _generate_implication_candidates pa w = (Ok [], w)).
  { unfold _generate_implication_candidates.
    destruct (summaries_of pa); [reflexivity|]. run_monad.
    destruct (PyStr.truthy_opt (GOOGLE_API_KEY w)); cbn; [|reflexivity].
    pose proof (generate_try_fails (gemini w) Hfail) as Htry.
    destruct (generate_try (gemini w)) as [clean|e]; [now subst|reflexivity]. }
  split; [assumption|]. intros w0 Hload.
  unfold build_implication_chains_tool.
  unfold mbind at 1. unfold M_bind at 1. rewrite Hload.
  unfold mbind, M_bind. rewrite Hgen. reflexivity.
Qed.

Lemma one_step_chain_per_candidate_witness :
  exists (pa : PatternAnalysisResult.t) (candidates : list Candidate.t)
         (payload : ChainsPayload.t) (w' : World),
    @build_implication_chains_tool Examples.example_lib
      (Examples.world_with Examples.labelled_analysis
         (GenText (Some Examples.reply_text))) = (Ok payload, w')
    /\ length (ChainsPayload.implication_chains payload) = length candidates
    /\ candidates = [Candidate.mk "Prices rose" "Prices rose" "same event"].
Proof.
  destruct (@build_implication_chains_tool Examples.example_lib
              (Examples.world_with Examples.labelled_analysis
                 (GenText (Some Examples.reply_text))))
    as [[payload|e] w'] eqn:Hrun; [|vm_compute in Hrun; discriminate Hrun].
  destruct (one_step_chain_per_candidate Examples.example_lib _ payload w' Hrun)
    as (pa & candidates & Hload & Hgen & Hlen & _).
  exists pa, candidates, payload, w'.
  split; [reflexivity|]. split; [exact Hlen|].
  vm_compute in Hload. injection Hload as <- <-.
  vm_compute in Hgen. now injection Hgen as <-.
Defined.

Lemma generation_failure_degrades_to_no_chains_witness :
  let w0 := Examples.world_with Examples.labelled_analysis
              (GenText (Some "```{}```")) in
  @build_implication_chains_tool Examples.example_lib w0 =
    (Ok (ChainsPayload.mk "Prices rose" []), w0).
Proof.
  cbv zeta.
  refine (proj2 (generation_failure_degrades_to_no_chains Examples.example_lib
                   Examples.labelled_analysis
                   (Examples.world_with Examples.labelled_analysis
                      (GenText (Some "```{}```"))) _) _ _).
  - right. exists (JObj []). split; [reflexivity | discriminate].
  - reflexivity.
Defined.

(* ===================================================================== *)
(** ** What the critic persists *)
(* ===================================================================== *)

Import CriticTool.

Section Critic.
Context `{PyLib}.

Lemma init_file_idempotent {V} (f : file_state V) :
  init_file (init_file f) = init_file f.
Proof. now destruct f. Qed.

(** Loading a second time finds the same record and changes nothing. *)
Lemma load_latest_twice (w : World) (pa : PatternAnalysisResult.t)
    (w1 : World) :
  ImplicationChains._load_latest_pattern_analysis w = (Ok pa, w1) ->
  ImplicationChains._load_latest_pattern_analysis w1 = (Ok pa, w1).
Proof.
  rewrite !load_latest_run. cbn.
  destruct (PyDict.last_value _) as [pa0|] eqn:E; [|discriminate].
  intros Hload. injection Hload as <- <-. cbn.
  rewrite init_file_idempotent, E. reflexivity.
Qed.




End Critic.




(* ===================================================================== *)
(** ** Extraction batches *)
(* ===================================================================== *)

Import PatternAnalyzer.

Section Extraction.
Context `{PyLib}.

Lemma process_batch_run (w : World) (all_articles : list ArticleAnalysis.t)
    (batch_index : nat) (batch_sources : list SourceInfo.t) :
  process_batch all_articles batch_index batch_sources w =
    (Ok (all_articles ++ batch_contribution w batch_index batch_sources)%list,
     w).
Proof.
  unfold process_batch, batch_contribution.
  destruct (batch_urls batch_sources) as [|u us].
  - now rewrite app_nil_r.
  - run_monad. destruct (firecrawl w batch_index (u :: us));
      run_monad; now rewrite ?app_nil_r.
Qed.

Lemma batch_loop_run (w : World) (batches : list (list SourceInfo.t)) :
  forall (start : nat) (all_articles : list ArticleAnalysis.t),
    batch_loop start batches all_articles w =
      (Ok (all_articles
           ++ concat (imap (fun i b => batch_contribution w (start + i) b)
                           batches))%list,
       w).
Proof.
  induction batches as [|b rest IH]; intros start all_articles.
  - cbn. now rewrite app_nil_r.
  - cbn [batch_loop]. unfold mbind, M_bind.
    rewrite process_batch_run, IH. cbn [imap concat].
    rewrite Nat.add_0_r, <- app_assoc.
    rewrite (imap_ext (fun i b => batch_contribution w (S start + i) b)
               ((fun i b => batch_contribution w (start + i) b) ∘ S));
      [reflexivity|].
    intros i x _. cbn. f_equal. lia.
Qed.



(** What the textual filter keeps when every URL parses. *)
Lemma textual_filter_ok (sources kept : list SourceInfo.t) :
  textual_filter sources = Ok kept ->
  kept =
    List.filter (fun src => PyStr.truthy (SourceInfo.url src)
                            && match is_textual_url (SourceInfo.url src) with
                               | Ok textual => textual
                               | Raise _ => false
                               end)
                sources.
Proof.
  revert kept. induction sources as [|src rest IH]; intros kept; cbn.
  - intros E. now injection E as <-.
  - destruct (PyStr.truthy (SourceInfo.url src)); cbn [andb];
      [|now apply IH].
    destruct (is_textual_url (SourceInfo.url src)) as [textual|e];
      [|discriminate].
    destruct (textual_filter rest) as [kept'|e]; [|discriminate].
    intros E. injection E as <-. rewrite (IH kept' eq_refl).
    now destruct textual.
Qed.






End Extraction.



(* ===================================================================== *)
(** ** The pattern analysis store *)
(* ===================================================================== *)

Section Dict.
Context {V : Type}.

Lemma dict_get_set (k : string) (v : V) (d : PyDict.t V) :
  PyDict.get k (PyDict.set k v d) = Some v.
Proof.
  induction d as [|[k' v'] d IH]; cbn.
  - now rewrite String.eqb_refl.
  - destruct (String.eqb k k') eqn:E; cbn; now rewrite E.
Qed.

Lemma dict_get_set_other (k k0 : string) (v : V) (d : PyDict.t V) :
  k0 <> k -> PyDict.get k0 (PyDict.set k v d) = PyDict.get k0 d.
Proof.
  intros Hne. induction d as [|[k' v'] d IH]; cbn.
  - apply String.eqb_neq in Hne. now rewrite Hne.
  - destruct (String.eqb k k') eqn:E; cbn.
    + apply String.eqb_eq in E. subst k'.
      apply String.eqb_neq in Hne. now rewrite Hne.
    + now rewrite IH.
Qed.

(** A second write under the same key overwrites the first one in place. *)
Lemma dict_set_set (k : string) (v1 v2 : V) (d : PyDict.t V) :
  PyDict.set k v2 (PyDict.set k v1 d) = PyDict.set k v2 d.
Proof.
  induction d as [|[k' v'] d IH]; cbn.
  - now rewrite String.eqb_refl.
  - destruct (String.eqb k k') eqn:E; cbn; rewrite E; [reflexivity|].
    now rewrite IH.
Qed.

Lemma dict_keys_set_set (k : string) (v1 v2 : V) (d : PyDict.t V) :
  PyDict.keys (PyDict.set k v2 (PyDict.set k v1 d)) =
  PyDict.keys (PyDict.set k v1 d).
Proof.
  induction d as [|[k' v'] d IH]; cbn.
  - now rewrite String.eqb_refl.
  - destruct (String.eqb k k') eqn:E; cbn; rewrite E; cbn; [reflexivity|].
    unfold PyDict.keys in IH. now rewrite IH.
Qed.

End Dict.

Section Store.
Context `{PyLib}.

Lemma save_result_run (r : PatternAnalysisResult.t) (w : World) :
  PatternAnalysisMemory.save_result r w =
    (Ok tt,
     set_pattern_analysis_file
       (Stored (PyDict.set
                  (PatternAnalysisMemory._statement_key
                     (PatternAnalysisResult.statement r))
                  r (read_file (pattern_analysis_file w))))
       w).
Proof. reflexivity. Qed.

Lemma get_result_run (s : string) (w : World) :
  PatternAnalysisMemory.get_result_by_statement s w =
    (Ok (PyDict.get (PatternAnalysisMemory._statement_key s)
                    (read_file (pattern_analysis_file w))),
     w).
Proof.
  unfold PatternAnalysisMemory.get_result_by_statement,
    PatternAnalysisMemory._read_store.
  run_monad. now destruct (PyDict.get _ _).
Qed.

End Store.

(** C10.  Records are keyed by the SHA-256 digest of the stripped
    statement.  Saving [r] writes it under that digest and under no other
    key: the stored dictionary is the old one with [r] set at the digest, and
    every other key keeps what it held.  A lookup reads the entry at the
    digest of the stripped statement it is given, so after the save, looking
    up any statement that strips to the same text as the statement of [r]
    returns [r].  Saving a second result whose statement strips to that text
    leaves the store as if only the second had been saved, with the same keys
    as after the first save, and the lookup then returns the second
    result. *)
Theorem store_is_keyed_by_stripped_statement :
  forall (L : PyLib) (r : PatternAnalysisResult.t) (s : string) (w : World),
    PyStr.strip s = PyStr.strip (PatternAnalysisResult.statement r) ->
    let key :=
      sha256_hexdigest (PyStr.strip (PatternAnalysisResult.statement r)) in
    let store := read_file (pattern_analysis_file w) in
    let w1 := snd (PatternAnalysisMemory.save_result r w) in
    let store1 := read_file (pattern_analysis_file w1) in
    fst (PatternAnalysisMemory.save_result r w) = Ok tt
    /\ PatternAnalysisMemory._statement_key s = key
    /\ pattern_analysis_file w1 = Stored (PyDict.set key r store)
    /\ PyDict.get key store1 = Some r
    /\ (forall k : string, k <> key -> PyDict.get k store1 = PyDict.get k store)
    /\ (forall s' : string,
          PatternAnalysisMemory.get_result_by_statement s' w1
          = (Ok (PyDict.get (sha256_hexdigest (PyStr.strip s')) store1), w1))
    /\ PatternAnalysisMemory.get_result_by_statement s w1 = (Ok (Some r), w1)
    /\ forall r2 : PatternAnalysisResult.t,
         PyStr.strip (PatternAnalysisResult.statement r2)
           = PyStr.strip (PatternAnalysisResult.statement r) ->
         let w2 := snd (PatternAnalysisMemory.save_result r2 w1) in
         PatternAnalysisMemory.get_result_by_statement s w2 = (Ok (Some r2), w2)
         /\ w2 = snd (PatternAnalysisMemory.save_result r2 w)
         /\ PyDict.keys (read_file (pattern_analysis_file w2))
            = PyDict.keys (read_file (pattern_analysis_file w1)).
Proof.
  intros L r s w Hs key store w1 store1. subst w1 store1 store key.
  rewrite save_result_run. cbn [fst snd].
  split; [reflexivity|].
  split; [unfold PatternAnalysisMemory._statement_key; now rewrite Hs|].
  split; [reflexivity|].
  split; [cbn; apply dict_get_set|].
  split; [intros k Hk; cbn; now apply dict_get_set_other|].
  split; [intros s'; now rewrite get_result_run|].
  split.
  - rewrite get_result_run. cbn.
    unfold PatternAnalysisMemory._statement_key. rewrite Hs.
    now rewrite dict_get_set.
  - intros r2 Hr2. cbv zeta. rewrite !save_result_run. cbn.
    unfold PatternAnalysisMemory._statement_key. rewrite Hr2.
    repeat split.
    + rewrite get_result_run. cbn.
      unfold PatternAnalysisMemory._statement_key. rewrite Hs.
      now rewrite dict_get_set.
    + now rewrite dict_set_set.
    + apply dict_keys_set_set.
Qed.

Lemma store_is_keyed_by_stripped_statement_witness :
  let first := PatternAnalysisResult.mk "  Prices rose " [] in
  let second := Examples.labelled_analysis in
  let w := CounterpointExamples.two_record_world in
  let w1 := snd (@PatternAnalysisMemory.save_result
                   CounterpointExamples.two_statement_lib first w) in
  let w2 := snd (@PatternAnalysisMemory.save_result
                   CounterpointExamples.two_statement_lib second w1) in
  @PatternAnalysisMemory.get_result_by_statement
     CounterpointExamples.two_statement_lib "Prices rose" w1
  = (Ok (Some first), w1)
  /\ @PatternAnalysisMemory.get_result_by_statement
       CounterpointExamples.two_statement_lib " Wages fell" w1
     = (Ok (Some CounterpointExamples.wages_analysis), w1)
  /\ @PatternAnalysisMemory.get_result_by_statement
       CounterpointExamples.two_statement_lib "Prices rose" w2
     = (Ok (Some second), w2).
Proof.
  cbv zeta.
  pose proof (store_is_keyed_by_stripped_statement
                CounterpointExamples.two_statement_lib
                (PatternAnalysisResult.mk "  Prices rose " [])
                "Prices rose"
                CounterpointExamples.two_record_world
                eq_refl) as Hstore.
  cbv zeta in Hstore.
  destruct Hstore as (_ & _ & _ & _ & Hframe & Hlookup & Hget & Hsecond).
  split; [exact Hget|]. split.
  - rewrite (Hlookup " Wages fell").
    rewrite Hframe; [reflexivity | vm_compute; discriminate].
  - exact (proj1 (Hsecond Examples.labelled_analysis eq_refl)).
Defined.

(* ===================================================================== *)
(** ** Further properties: normalised words and similarity bounds *)
(* ===================================================================== *)

Section Words.

Lemma in_rev_onto (c : ascii) (s acc : string) :
  In c (list_ascii_of_string (PyStr.rev_onto s acc)) <->
  In c (list_ascii_of_string s) \/ In c (list_ascii_of_string acc).
Proof.
  revert acc. induction s as [|a s IH]; intros acc; cbn.
  - tauto.
  - rewrite IH. cbn. tauto.
Qed.

Lemma in_rev (c : ascii) (s : string) :
  In c (list_ascii_of_string (PyStr.rev s)) <->
  In c (list_ascii_of_string s).
Proof. unfold PyStr.rev. rewrite in_rev_onto. cbn. tauto. Qed.

Lemma rev_onto_nonempty (s acc : string) :
  acc <> "" -> PyStr.rev_onto s acc <> "".
Proof.
  revert acc. induction s as [|a s IH]; intros acc Hacc; cbn;
    [assumption | now apply IH].
Qed.

Lemma rev_nonempty (s : string) : s <> "" -> PyStr.rev s <> "".
Proof.
  destruct s as [|a s]; [congruence | intros _].
  unfold PyStr.rev. cbn. now apply rev_onto_nonempty.
Qed.

(** Every word of [split_go] is a non-empty run of characters of the run
    being read or of the rest of the input, none of them whitespace. *)
Lemma split_go_words (s cur w : string) :
  (forall c, In c (list_ascii_of_string cur) -> PyStr.is_space c = false) ->
  w ∈ PyStr.split_go cur s ->
  w <> ""
  /\ forall c, In c (list_ascii_of_string w) ->
       PyStr.is_space c = false
       /\ (In c (list_ascii_of_string cur) \/ In c (list_ascii_of_string s)).
Proof.
  revert cur. induction s as [|a s IH]; intros cur Hcur Hw.
  - cbn in Hw. destruct cur as [|b cur]; [now apply elem_of_nil in Hw|].
    apply list_elem_of_singleton in Hw. subst w.
    split; [now apply rev_nonempty|].
    intros c Hc. apply (proj1 (in_rev _ _)) in Hc. split; [now apply Hcur | now left].
  - cbn [PyStr.split_go] in Hw. destruct (PyStr.is_space a) eqn:Ea.
    + assert (Hrest : w ∈ PyStr.split_go "" s ->
                w <> ""
                /\ forall c, In c (list_ascii_of_string w) ->
                     PyStr.is_space c = false
                     /\ (In c (list_ascii_of_string cur)
                         \/ In c (list_ascii_of_string (String a s)))).
      { intros Hin. destruct (IH "" (fun c (F : In c []) => match F with end) Hin)
          as [Hne Hchars].
        split; [assumption|]. intros c Hc.
        destruct (Hchars c Hc) as [Hsp [[]|Hs]]. split; [assumption|].
        right. cbn. now right. }
      destruct cur as [|b cur]; [now apply Hrest|].
      apply elem_of_cons in Hw. destruct Hw as [->|Hw]; [|now apply Hrest].
      split; [now apply rev_nonempty|].
      intros c Hc. apply (proj1 (in_rev _ _)) in Hc. split; [now apply Hcur | now left].
    + assert (Hcur' : forall c, In c (list_ascii_of_string (String a cur)) ->
                        PyStr.is_space c = false).
      { intros c [<-|Hc]; [assumption | now apply Hcur]. }
      destruct (IH (String a cur) Hcur' Hw) as [Hne Hchars].
      split; [assumption|]. intros c Hc.
      destruct (Hchars c Hc) as [Hsp [[<-|Hin]|Hin]].
      * split; [assumption|]. right. cbn. now left.
      * split; [assumption|]. now left.
      * split; [assumption|]. right. cbn. now right.
Qed.

Lemma lower_char_idempotent (c : ascii) :
  PyStr.lower_char (PyStr.lower_char c) = PyStr.lower_char c.
Proof. destruct c as [[] [] [] [] [] [] [] []]; reflexivity. Qed.

Lemma in_lower (c : ascii) (s : string) :
  In c (list_ascii_of_string (PyStr.lower s)) ->
  PyStr.lower_char c = c.
Proof.
  induction s as [|a s IH]; cbn; [tauto|].
  intros [<-|Hc]; [apply lower_char_idempotent | now apply IH].
Qed.

Lemma in_replace_char (old new c : ascii) (s : string) :
  In c (list_ascii_of_string (PyStr.replace_char old new s)) ->
  c = new \/ (c <> old /\ In c (list_ascii_of_string s)).
Proof.
  induction s as [|a s IH]; cbn; [tauto|].
  intros [<-|Hc].
  - destruct (Ascii.eqb_spec a old) as [->|Hne]; [now left|].
    right. split; [assumption | now left].
  - destruct (IH Hc) as [->|[Hne Hin]]; [now left|].
    right. split; [assumption | now right].
Qed.

End Words.

(** X1.  Every word of a normalised text is non-empty and made of
    characters that are neither whitespace nor a comma nor a period and that
    lower-casing leaves unchanged. *)
Theorem normalized_words_are_clean :
  forall (t w : string),
    w ∈ _normalize_text t ->
    w <> ""
    /\ forall c : ascii, In c (list_ascii_of_string w) ->
         PyStr.is_space c = false
         /\ c <> ","%char /\ c <> "."%char
         /\ PyStr.lower_char c = c.
Proof.
  intros t w Hw. unfold _normalize_text in Hw.
  apply list_elem_of_In, filter_In in Hw. destruct Hw as [Hw _].
  apply list_elem_of_In in Hw. unfold PyStr.split in Hw.
  destruct (split_go_words _ "" w (fun c (F : In c []) => match F with end) Hw)
    as [Hne Hchars].
  split; [assumption|]. intros c Hc.
  destruct (Hchars c Hc) as [Hsp [[]|Hin]]. split; [assumption|].
  apply in_replace_char in Hin. destruct Hin as [->|[Hdot Hin]];
    [discriminate Hsp|].
  apply in_replace_char in Hin. destruct Hin as [->|[Hcomma Hin]];
    [discriminate Hsp|].
  repeat split; try assumption. now apply in_lower with (s := t).
Qed.

Lemma normalized_words_are_clean_witness :
  "raised" <> ""
  /\ forall c : ascii, In c (list_ascii_of_string "raised") ->
       PyStr.is_space c = false
       /\ c <> ","%char /\ c <> "."%char
       /\ PyStr.lower_char c = c.
Proof.
  apply (normalized_words_are_clean "Company X RAISED prices, today." "raised").
  vm_compute. repeat constructor.
Defined.

Section SimilarityBounds.

Lemma inter_size_le (a b : list string) :
  (size (word_set a ∩ word_set b) <= size (word_set a))%nat.
Proof. apply subseteq_size. apply intersection_subseteq_l. Qed.

Lemma ratio_bounds (i n : nat) :
  (i <= n)%nat -> (0 < n)%nat ->
  (0 <= inject_Z (Z.of_nat i) / inject_Z (Z.of_nat n) <= 1)%Q.
Proof.
  intros Hin Hn.
  assert (Hpos : (0 < inject_Z (Z.of_nat n))%Q).
  { replace 0%Q with (inject_Z 0) by reflexivity. rewrite <- Zlt_Qlt. lia. }
  split.
  - apply Qle_shift_div_l; [assumption|]. rewrite Qmult_0_l.
    replace 0%Q with (inject_Z 0) by reflexivity. rewrite <- Zle_Qle. lia.
  - apply Qle_shift_div_r; [assumption|]. rewrite Qmult_1_l.
    rewrite <- Zle_Qle. lia.
Qed.

End SimilarityBounds.

(** X2.  The similarity always lies between 0 and 1, and for non-empty
    word lists it is 1 exactly when every word of the first list occurs in
    the second. *)
Theorem similarity_bounds :
  forall a b : list string,
    (0 <= _jaccard_similarity a b <= 1)%Q
    /\ (a <> [] -> b <> [] ->
        (_jaccard_similarity a b == 1 <-> word_set a ⊆ word_set b)).
Proof.
  intros a b. split.
  - destruct a as [|x a'], b as [|y b']; try (cbn; lra).
    rewrite jaccard_formula by discriminate.
    apply ratio_bounds; [apply inter_size_le|].
    pose proof (word_set_nonempty (x :: a') ltac:(discriminate)). lia.
  - intros Ha Hb. rewrite jaccard_formula by assumption.
    pose proof (word_set_nonempty a Ha) as Hn.
    pose proof (inter_size_le a b) as Hle.
    split.
    + intros Hone.
      assert (Hsize : size (word_set a ∩ word_set b) = size (word_set a)).
      { destruct (Nat.eq_dec (size (word_set a ∩ word_set b))
                              (size (word_set a))) as [E|E]; [exact E|].
        exfalso.
        assert (Hlt : (inject_Z (Z.of_nat (size (word_set a ∩ word_set b)))
                       / inject_Z (Z.of_nat (size (word_set a))) < 1)%Q).
        { apply Qlt_shift_div_r.
          - replace 0%Q with (inject_Z 0) by reflexivity.
            rewrite <- Zlt_Qlt. lia.
          - rewrite Qmult_1_l, <- Zlt_Qlt. lia. }
        rewrite Hone in Hlt. now apply Qlt_irrefl in Hlt. }
      assert (Heq : word_set a ∩ word_set b = word_set a).
      { apply set_subseteq_size_eq; [apply intersection_subseteq_l | lia]. }
      rewrite <- Heq. apply intersection_subseteq_r.
    + intros Hsub. rewrite (subseteq_intersection_1_L _ _ Hsub).
      apply Qmult_inv_r. unfold Qeq; cbn. lia.
Qed.

Lemma similarity_bounds_witness :
  _jaccard_similarity ["prices"; "rose"] ["prices"; "rose"; "sharply"] == 1.
Proof.
  apply (proj2 (similarity_bounds ["prices"; "rose"]
                  ["prices"; "rose"; "sharply"])).
  - discriminate.
  - discriminate.
  - apply (bool_decide_unpack _). vm_compute. exact I.
Defined.

(* ===================================================================== *)
(** ** Further properties: tallies, verdicts and the chain tool *)
(* ===================================================================== *)

Section Tallies.
Variables premise_text conseq_text : string.

Lemma tally_inv_step (n : nat) (st : scan_state) (art : ArticleAnalysis.t) :
  tally_inv n st ->
  tally_inv (S n) (scan_article premise_text conseq_text st art).
Proof.
  unfold tally_inv, scan_article, votes_total, supports, refutes.
  cbn [premise_votes conseq_votes supporting_sources refuting_sources].
  destruct (_check_claim_support _ premise_text) as [[]|];
    destruct (_check_claim_support _ conseq_text) as [[]|];
    repeat case_bool_decide; try congruence;
    cbn; rewrite ?length_app; cbn; lia.
Qed.

Lemma tally_inv_fold (articles : list ArticleAnalysis.t) (n : nat)
    (st : scan_state) :
  tally_inv n st ->
  tally_inv (n + length articles)
    (fold_left (scan_article premise_text conseq_text) articles st).
Proof.
  revert n st. induction articles as [|art rest IH]; intros n st Hinv; cbn.
  - now rewrite Nat.add_0_r.
  - replace (n + S (length rest)) with (S n + length rest) by lia.
    apply IH. now apply tally_inv_step.
Qed.

End Tallies.

(** X3.  After the scan of a candidate pair over the articles, each vote
    tally counts at most one vote per article; every supporter or refuter
    was counted as affirming the premise; supporters are at most the
    affirmation and speculation votes on the consequence, and refuters at
    most its denial votes. *)
Theorem scan_tallies_bound_the_evidence :
  forall (premise_text conseq_text : string)
         (articles : list ArticleAnalysis.t),
    let st := scan_articles premise_text conseq_text articles in
    Votes.n_affirmation (premise_votes st) + Votes.n_denial (premise_votes st)
      + Votes.n_speculation (premise_votes st) <= length articles
    /\ Votes.n_affirmation (conseq_votes st) + Votes.n_denial (conseq_votes st)
         + Votes.n_speculation (conseq_votes st) <= length articles
    /\ length (supporting_sources st) + length (refuting_sources st)
         <= Votes.n_affirmation (premise_votes st)
    /\ length (supporting_sources st)
         <= Votes.n_affirmation (conseq_votes st)
            + Votes.n_speculation (conseq_votes st)
    /\ length (refuting_sources st) <= Votes.n_denial (conseq_votes st).
Proof.
  intros premise_text conseq_text articles.
  apply (tally_inv_fold premise_text conseq_text articles 0 scan_init).
  unfold tally_inv. cbn. lia.
Qed.

Section Verdicts.

Lemma decide_verdict_cases (supporting refuting : list string)
    (pvotes : Votes.t) :
  let overall := fst (decide_verdict supporting refuting pvotes) in
  (overall = "consistent" <-> 1 < length supporting /\ refuting = [])
  /\ (overall = "partially supported"
      <-> length supporting = 1 /\ refuting = [])
  /\ (overall = "speculative"
      <-> supporting = [] /\ refuting = []
          /\ Votes.get pvotes denial <= Votes.get pvotes affirmation)
  /\ (overall = "contradicted"
      <-> refuting <> []
          \/ (supporting = [] /\ refuting = []
              /\ Votes.get pvotes affirmation < Votes.get pvotes denial)).
Proof.
  unfold decide_verdict.
  destruct (Nat.ltb_spec 1 (length supporting)) as [H1|H1];
    destruct (Nat.eqb_spec (length supporting) 1) as [H2|H2];
    destruct refuting as [|r rs];
    destruct (Nat.ltb_spec (Votes.get pvotes affirmation)
                           (Votes.get pvotes denial)) as [H3|H3];
    destruct supporting as [|s ss]; cbn in *;
    repeat split; intros; try discriminate; try lia; try tauto;
    try (intuition (discriminate || congruence || lia)).
Qed.

End Verdicts.

(** X4.  Every chain built for a candidate is consistent with its own
    step: it is consistent exactly when the step lists at least two
    supporters and no refuter, partially supported exactly when it lists one
    supporter and no refuter, contradicted whenever it lists a refuter, and
    speculative only when it lists neither; and its verdict is one of the
    four values. *)
Theorem chain_verdict_matches_its_step :
  forall (articles : list ArticleAnalysis.t) (idx : nat) (cand : Candidate.t),
    exists step : ImplicationStep.t,
      let chain := build_chain articles idx cand in
      let overall := ImplicationChain.overall_assessment chain in
      let sup := ImplicationStep.supporting_sources step in
      let ref := ImplicationStep.refuting_sources step in
      ImplicationChain.steps chain = [step]
      /\ (overall = "consistent" <-> 1 < length sup /\ ref = [])
      /\ (overall = "partially supported" <-> length sup = 1 /\ ref = [])
      /\ (ref <> [] -> overall = "contradicted")
      /\ (overall = "speculative" -> sup = [] /\ ref = [])
      /\ overall ∈ ["consistent"; "partially supported"; "contradicted";
                    "speculative"].
Proof.
  intros articles idx cand. unfold build_chain.
  set (st := scan_articles (Candidate.premise cand)
               (Candidate.consequence cand) articles).
  pose proof (decide_verdict_cases (supporting_sources st)
                (refuting_sources st) (premise_votes st)) as Hcases.
  destruct (decide_verdict (supporting_sources st) (refuting_sources st)
              (premise_votes st)) as [overall step_assessment] eqn:Hv.
  cbn [fst] in Hcases. destruct Hcases as (Hc & Hp & Hs & Hx).
  eexists. cbn. split; [reflexivity|].
  split; [exact Hc|]. split; [exact Hp|].
  split; [intros Href; apply Hx; now left|].
  split; [intros Hspec; apply Hs in Hspec; tauto|].
  pose proof (f_equal fst Hv) as Hfst. cbn in Hfst. rewrite <- Hfst.
  unfold decide_verdict.
  destruct (_ && _); [cbn; repeat constructor|].
  destruct (_ && _); [cbn; repeat constructor|].
  destruct (negb _); [cbn; repeat constructor|].
  destruct (_ <? _)%nat; cbn; repeat constructor.
Qed.

Section NoClaims.

Lemma scan_without_claims (premise_text conseq_text : string)
    (articles : list ArticleAnalysis.t) (st : scan_state) :
  (forall art, art ∈ articles -> ArticleAnalysis.key_claims art = []) ->
  fold_left (scan_article premise_text conseq_text) articles st = st.
Proof.
  intros Hnone. revert st.
  induction articles as [|art rest IH]; intros st; [reflexivity|].
  cbn [fold_left].
  assert (Hart : ArticleAnalysis.key_claims art = [])
    by (apply Hnone; constructor).
  assert (Hstep : scan_article premise_text conseq_text st art = st).
  { unfold scan_article. rewrite Hart. unfold _check_claim_support.
    destruct (_normalize_text premise_text), (_normalize_text conseq_text);
      now destruct st. }
  rewrite Hstep. apply IH. intros a Ha. apply Hnone. now constructor.
Qed.

End NoClaims.

(** X5.  When no analysed article carries a key claim (in particular when
    there is no article), every candidate yields a speculative chain with no
    supporting and no refuting source. *)
Theorem chains_without_claims_are_speculative :
  forall (articles : list ArticleAnalysis.t) (idx : nat) (cand : Candidate.t),
    (forall art, art ∈ articles -> ArticleAnalysis.key_claims art = []) ->
    let chain := build_chain articles idx cand in
    ImplicationChain.overall_assessment chain = "speculative"
    /\ ImplicationChain.steps chain =
         [ImplicationStep.mk (Candidate.premise cand)
            (Candidate.consequence cand) [] []
            "inferred only by LLM, with no strong article-level corroboration"].
Proof.
  intros articles idx cand Hnone. unfold build_chain, scan_articles.
  rewrite scan_without_claims by assumption.
  cbn. split; reflexivity.
Qed.

Lemma chains_without_claims_are_speculative_witness :
  let chain :=
    build_chain
      [Examples.bare_article "https://news.example/1";
       Examples.bare_article "https://news.example/2"]
      1 (Candidate.mk "Prices rose" "People protested" "") in
  ImplicationChain.overall_assessment chain = "speculative"
  /\ List.map ImplicationStep.supporting_sources (ImplicationChain.steps chain)
     = [[]]
  /\ List.map ImplicationStep.refuting_sources (ImplicationChain.steps chain)
     = [[]].
Proof.
  cbv zeta.
  destruct (chains_without_claims_are_speculative
              [Examples.bare_article "https://news.example/1";
               Examples.bare_article "https://news.example/2"]
              1 (Candidate.mk "Prices rose" "People protested" ""))
    as [Hverdict Hsteps].
  - intros art Hart.
    apply list_elem_of_In in Hart. cbn in Hart.
    destruct Hart as [<-|[<-|[]]]; reflexivity.
  - cbv zeta in Hverdict, Hsteps.
    split; [exact Hverdict|]. rewrite Hsteps. split; reflexivity.
Defined.

(* ===================================================================== *)
(** ** Further properties: the chain tool and the critic run *)
(* ===================================================================== *)

Section ToolRuns.
Context `{PyLib}.

Lemma read_init_file {V} (f : file_state V) :
  read_file (init_file f) = read_file f.
Proof. now destruct f. Qed.

(** Generation only looks at the API key and at the reply. *)
Lemma generate_depends_on_services (pa : PatternAnalysisResult.t)
    (w w2 : World) :
  GOOGLE_API_KEY w2 = GOOGLE_API_KEY w ->
  gemini w2 = gemini w ->
  forall candidates,
    _generate_implication_candidates pa w = (Ok candidates, w) ->
    _generate_implication_candidates pa w2 = (Ok candidates, w2).
Proof.
  intros Hkey Hgem candidates. unfold _generate_implication_candidates.
  destruct (summaries_of pa).
  - run_monad. intros E. now injection E as <-.
  - run_monad. rewrite Hkey.
    destruct (PyStr.truthy_opt (GOOGLE_API_KEY w)); cbn.
    + rewrite Hgem.
      destruct (generate_try (gemini w)); intros E; now injection E as <-.
    + intros E. now injection E as <-.
Qed.

Lemma clean_candidates_nonempty (items : list json) (cand : Candidate.t) :
  cand ∈ clean_candidates items ->
  Candidate.premise cand <> "" /\ Candidate.consequence cand <> "".
Proof.
  induction items as [|item rest IH]; cbn; [now intros Hin%elem_of_nil|].
  destruct item; try exact IH.
  destruct (PyStr.truthy (field_text "premise" fields)) eqn:Ep;
    destruct (PyStr.truthy (field_text "consequence" fields)) eqn:Ec;
    cbn; try exact IH.
  intros Hin. apply elem_of_cons in Hin. destruct Hin as [->|Hin];
    [|now apply IH].
  cbn. split; intros E; [rewrite E in Ep | rewrite E in Ec]; discriminate.
Qed.

Lemma generated_candidates_nonempty (pa : PatternAnalysisResult.t)
    (w : World) (candidates : list Candidate.t) (w' : World)
    (cand : Candidate.t) :
  _generate_implication_candidates pa w = (Ok candidates, w') ->
  cand ∈ candidates ->
  Candidate.premise cand <> "" /\ Candidate.consequence cand <> "".
Proof.
  unfold _generate_implication_candidates.
  destruct (summaries_of pa).
  { run_monad. intros E. injection E as <- _. now intros Hin%elem_of_nil. }
  run_monad. destruct (PyStr.truthy_opt (GOOGLE_API_KEY w)); cbn.
  2: { intros E. injection E as <- _. now intros Hin%elem_of_nil. }
  unfold generate_try.
  destruct (gemini w) as [msg|t].
  { intros E. injection E as <- _. now intros Hin%elem_of_nil. }
  destruct (json_loads (clean_reply t)) as [[]|];
    intros E; injection E as <- _;
    try (now intros Hin%elem_of_nil).
  apply clean_candidates_nonempty.
Qed.

Lemma tool_eq (w : World) :
  build_implication_chains_tool w =
    match ImplicationChains._load_latest_pattern_analysis w with
    | (Raise e, w1) => (Raise e, w1)
    | (Ok pa, w1) =>
        match _generate_implication_candidates pa w1 with
        | (Ok candidates, w2) =>
            (Ok (ChainsPayload.mk (PatternAnalysisResult.statement pa)
                   (build_chains (PatternAnalysisResult.analyzed_articles pa)
                                 candidates)), w2)
        | (Raise e, w2) => (Raise e, w2)
        end
    end.
Proof.
  unfold build_implication_chains_tool. unfold mbind at 1. unfold M_bind at 1.
  destruct (ImplicationChains._load_latest_pattern_analysis w)
    as [[pa|e] w1]; [|reflexivity].
  unfold mbind, M_bind.
  destruct (_generate_implication_candidates pa w1) as [[candidates|e] w2];
    [|reflexivity].
  now destruct candidates.
Qed.

Lemma run_critic_eq (w : World) :
  run_critic w =
    match ImplicationChains._load_latest_pattern_analysis w with
    | (Raise e, w1) => (Raise e, w1)
    | (Ok pa, w1) =>
        match _generate_implication_candidates pa w1 with
        | (Ok candidates, _) =>
            let r := critic_result_of pa candidates in
            (Ok r, set_critic_file (Stored [(CriticResult.statement r, r)]) w1)
        | (Raise e, w2) => (Raise e, w2)
        end
    end.
Proof.
  unfold run_critic. unfold mbind at 1. unfold M_bind at 1.
  change CriticTool._load_latest_pattern_analysis
    with ImplicationChains._load_latest_pattern_analysis.
  destruct (ImplicationChains._load_latest_pattern_analysis w)
    as [[pa|e] w1] eqn:Hload; [|reflexivity].
  unfold mbind at 1. unfold M_bind at 1.
  rewrite tool_eq, (load_latest_twice w pa w1 Hload).
  destruct (generate_total pa w1) as [candidates Hgen]. rewrite Hgen.
  reflexivity.
Qed.

End ToolRuns.


(** X7.  Every step of every chain the tool returns has a non-empty
    premise and a non-empty conclusion. *)
Theorem chain_steps_have_texts :
  forall (L : PyLib) (w : World) (payload : ChainsPayload.t) (w' : World),
    build_implication_chains_tool w = (Ok payload, w') ->
    forall chain step,
      chain ∈ ChainsPayload.implication_chains payload ->
      step ∈ ImplicationChain.steps chain ->
      ImplicationStep.premise step <> ""
      /\ ImplicationStep.conclusion step <> "".
Proof.
  intros L w payload w' Hrun chain step Hchain Hstep.
  destruct (tool_run w payload w' Hrun)
    as (pa & candidates & _ & Hgen & ->).
  cbn in Hchain. apply list_elem_of_lookup in Hchain.
  destruct Hchain as [i Hi]. rewrite build_chains_lookup in Hi.
  destruct (candidates !! i) as [cand|] eqn:Hcand; [|discriminate].
  injection Hi as <-.
  destruct (build_chain_fields (PatternAnalysisResult.analyzed_articles pa)
              (S i) cand) as (step' & Hsteps & Hp & Hc & _).
  rewrite Hsteps in Hstep. apply list_elem_of_singleton in Hstep. subst step'.
  rewrite Hp, Hc.
  apply (generated_candidates_nonempty pa w' candidates w' cand Hgen).
  apply list_elem_of_lookup. now exists i.
Qed.

Lemma chain_steps_have_texts_witness :
  exists (payload : ChainsPayload.t) (w' : World)
         (chain : ImplicationChain.t) (step : ImplicationStep.t),
    @build_implication_chains_tool Examples.example_lib
      (Examples.world_with Examples.labelled_analysis
         (GenText (Some Examples.reply_text))) = (Ok payload, w')
    /\ ChainsPayload.implication_chains payload = [chain]
    /\ ImplicationChain.steps chain = [step]
    /\ ImplicationStep.premise step <> ""
    /\ ImplicationStep.conclusion step <> "".
Proof.
  destruct (@build_implication_chains_tool Examples.example_lib
              (Examples.world_with Examples.labelled_analysis
                 (GenText (Some Examples.reply_text))))
    as [[payload|e] w'] eqn:Hrun; [|vm_compute in Hrun; discriminate Hrun].
  pose proof (chain_steps_have_texts Examples.example_lib _ payload w' Hrun)
    as Htexts.
  vm_compute in Hrun. injection Hrun as <- <-.
  eexists _, _, _, _. split; [reflexivity|].
  split; [reflexivity|]. split; [reflexivity|].
  eapply Htexts; [cbn; constructor | cbn; constructor].
Defined.


(** X9.  Running the critic again right after a successful run, with the
    same reply of the model, returns the same result and leaves the world as
    the first run left it. *)
Theorem critic_run_is_idempotent :
  forall (L : PyLib) (w : World) (result : CriticResult.t) (w' : World),
    run_critic w = (Ok result, w') ->
    run_critic w' = (Ok result, w').
Proof.
  intros L w result w' Hrun. rewrite run_critic_eq in Hrun.
  destruct (ImplicationChains._load_latest_pattern_analysis w)
    as [[pa|e] w1] eqn:Hload; [|discriminate].
  destruct (generate_total pa w1) as [candidates Hgen].
  rewrite Hgen in Hrun. cbv zeta in Hrun. injection Hrun as <- <-.
  set (r := critic_result_of pa candidates).
  set (w' := set_critic_file
               (Stored [(PatternAnalysisResult.statement pa, r)]) w1).
  assert (Hload' : ImplicationChains._load_latest_pattern_analysis w'
                   = (Ok pa, w')).
  { subst w'. rewrite load_latest_run in Hload |- *. cbn in Hload |- *.
    rewrite read_init_file in Hload.
    destruct (PyDict.last_value (read_file (pattern_analysis_file w)))
      as [pa0|] eqn:Elast; [|discriminate].
    injection Hload as <- <-. cbn.
    now rewrite ?read_init_file, Elast, init_file_idempotent. }
  rewrite run_critic_eq, Hload'.
  rewrite (generate_depends_on_services pa w1 w' eq_refl eq_refl
             candidates Hgen).
  reflexivity.
Qed.

Lemma critic_run_is_idempotent_witness :
  exists (result : CriticResult.t) (w' : World),
    @run_critic Examples.example_lib
      (Examples.world_with Examples.labelled_analysis
         (GenText (Some Examples.reply_text))) = (Ok result, w')
    /\ @run_critic Examples.example_lib w' = (Ok result, w').
Proof.
  destruct (@run_critic Examples.example_lib
              (Examples.world_with Examples.labelled_analysis
                 (GenText (Some Examples.reply_text))))
    as [[result|e] w'] eqn:Hrun; [|vm_compute in Hrun; discriminate Hrun].
  exists result, w'. split; [reflexivity|].
  exact (critic_run_is_idempotent Examples.example_lib _ result w' Hrun).
Defined.

(* ===================================================================== *)
(** ** Further properties: the counterpoint tool *)
(* ===================================================================== *)

Import CounterpointTool.

(** X10.  Loading the latest critic result raises a ValueError exactly
    when the critic store holds no record, and right after a successful
    critic run it returns the result of that run, leaving the world as it
    is. *)
Theorem latest_critic_is_the_last_run :
  forall (L : PyLib) (w : World),
    (PyDict.last_value (read_file (critic_file w)) = None ->
       exists msg, _load_latest_critic w = (Raise (ValueError msg), w))
    /\ (forall r, PyDict.last_value (read_file (critic_file w)) = Some r ->
          _load_latest_critic w = (Ok r, w))
    /\ (forall result w',
          run_critic w = (Ok result, w') ->
          _load_latest_critic w' = (Ok result, w')).
Proof.
  intros L w.
  assert (Hload : forall w0,
            _load_latest_critic w0 =
              match PyDict.last_value (read_file (critic_file w0)) with
              | None =>
                  (Raise (ValueError
                     ("No CriticResult found in local memory. "
                      ++ "Run the Critic agent first.")), w0)
              | Some r => (Ok r, w0)
              end).
  { intros w0. unfold _load_latest_critic, CriticMemory._read_store.
    run_monad. now destruct (PyDict.last_value _). }
  split; [|split].
  - intros E. rewrite Hload, E. eauto.
  - intros r E. now rewrite Hload, E.
  - intros result w' Hrun. rewrite run_critic_eq in Hrun.
    destruct (ImplicationChains._load_latest_pattern_analysis w)
      as [[pa|e] w1]; [|discriminate].
    destruct (generate_total pa w1) as [candidates Hgen].
    rewrite Hgen in Hrun. cbv zeta in Hrun. injection Hrun as <- <-.
    rewrite Hload. reflexivity.
Qed.

Lemma latest_critic_is_the_last_run_witness :
  exists (result : CriticResult.t) (w' : World),
    @run_critic Examples.example_lib
      (Examples.world_with Examples.labelled_analysis
         (GenText (Some Examples.reply_text))) = (Ok result, w')
    /\ _load_latest_critic w' = (Ok result, w').
Proof.
  destruct (@run_critic Examples.example_lib
              (Examples.world_with Examples.labelled_analysis
                 (GenText (Some Examples.reply_text))))
    as [[result|e] w'] eqn:Hrun; [|vm_compute in Hrun; discriminate Hrun].
  exists result, w'. split; [reflexivity|].
  exact (proj2 (proj2 (latest_critic_is_the_last_run Examples.example_lib _))
           result w' Hrun).
Defined.

Section AllowedUrls.

(** The dedup loop keeps [seen] equal to the set of the list built, keeps
    that list free of duplicates, and extends it by a sublist of the
    input. *)
Lemma dedup_fold (urls : list string) (seen : gset string)
    (result : list string) :
  seen = list_to_set result ->
  NoDup result ->
  exists added,
    snd (fold_left dedup_step urls (seen, result)) = (result ++ added)%list
    /\ NoDup (result ++ added)
    /\ sublist added urls
    /\ forall u, u ∈ urls -> u ∈ (result ++ added)%list.
Proof.
  revert seen result. induction urls as [|u urls IH];
    intros seen result Hseen Hnodup.
  - exists []. cbn. rewrite app_nil_r. repeat split; try assumption.
    + constructor.
    + intros u Hu. now apply elem_of_nil in Hu.
  - cbn [fold_left dedup_step]. case_bool_decide as Hin.
    + destruct (IH seen result Hseen Hnodup)
        as (added & Hres & Hnd & Hsub & Hall).
      exists added. repeat split; try assumption.
      * now apply sublist_cons.
      * intros x Hx. apply elem_of_cons in Hx. destruct Hx as [->|Hx];
          [|now apply Hall].
        apply elem_of_app. left. subst seen.
        now apply elem_of_list_to_set in Hin.
    + assert (Hfresh : u ∉ result).
      { subst seen. intros Hu. apply Hin. now apply elem_of_list_to_set. }
      destruct (IH ({[u]} ∪ seen) (result ++ [u])%list)
        as (added & Hres & Hnd & Hsub & Hall).
      { subst seen. rewrite list_to_set_app_L. cbn [list_to_set].
        rewrite (right_id_L ∅ (∪)). apply (comm_L (∪)). }
      { apply NoDup_app. repeat split; [assumption| |apply NoDup_singleton].
        intros x Hx Hx'. apply list_elem_of_singleton in Hx'. now subst x. }
      exists (u :: added). rewrite <- app_assoc in Hres, Hnd.
      repeat split; try assumption.
      * now apply sublist_skip.
      * intros x Hx. apply elem_of_cons in Hx. destruct Hx as [->|Hx].
        -- apply elem_of_app. right. constructor.
        -- specialize (Hall x Hx). now rewrite <- app_assoc in Hall.
Qed.

Lemma filter_sublist {A} (f : A -> bool) (l : list A) :
  sublist (List.filter f l) l.
Proof.
  induction l as [|x l IH]; cbn; [constructor|].
  destruct (f x); [now apply sublist_skip | now apply sublist_cons].
Qed.

End AllowedUrls.

Lemma allowed_urls_core :
  forall (pa : PatternAnalysisResult.t),
    let urls :=
      List.map ArticleAnalysis.url
               (PatternAnalysisResult.analyzed_articles pa) in
    NoDup (_collect_allowed_urls pa)
    /\ (forall u, u ∈ _collect_allowed_urls pa <-> u <> "" /\ u ∈ urls)
    /\ sublist (_collect_allowed_urls pa) urls.
Proof.
  intros pa urls. unfold _collect_allowed_urls. fold urls.
  destruct (dedup_fold (List.filter PyStr.truthy urls) ∅ [])
    as (added & Hres & Hnd & Hsub & Hall);
    [reflexivity | constructor |].
  cbn in Hres, Hnd, Hall. rewrite Hres.
  split; [assumption|]. split.
  - intros u. split.
    + intros Hu.
      assert (Hf : u ∈ List.filter PyStr.truthy urls)
        by (eapply sublist_subseteq; eassumption).
      apply list_elem_of_In, filter_In in Hf. destruct Hf as [Hin Ht].
      split; [now destruct u | now apply list_elem_of_In].
    + intros [Hne Hin]. apply Hall. apply list_elem_of_In, filter_In.
      split; [now apply list_elem_of_In | now destruct u].
  - etransitivity; [exact Hsub|]. apply filter_sublist.
Qed.

(** X11.  The allowed URLs of an analysis are its non-empty article URLs
    without repetition: the list has no duplicate, holds exactly the
    non-empty URLs of the analysed articles, and keeps them in article
    order. *)
Theorem allowed_urls_are_the_distinct_article_urls :
  forall (pa : PatternAnalysisResult.t),
    let urls :=
      List.map ArticleAnalysis.url
               (PatternAnalysisResult.analyzed_articles pa) in
    NoDup (_collect_allowed_urls pa)
    /\ (forall u, u ∈ _collect_allowed_urls pa <-> u <> "" /\ u ∈ urls)
    /\ sublist (_collect_allowed_urls pa) urls.
Proof. exact allowed_urls_core. Qed.

Section CleanCounterpoints.
Context `{PyLib} `{PyConv}.

Lemma sources_field_allowed (allowed_set : gset string)
    (item : list (string * json)) (srcs : list string) (u : string) :
  sources_field allowed_set item = Some srcs ->
  u ∈ srcs -> u ∈ allowed_set.
Proof.
  unfold sources_field. destruct (iterate _) as [us|]; [|discriminate].
  intros E. injection E as <-. intros Hu.
  apply list_elem_of_In, filter_In in Hu. destruct Hu as [_ Hu].
  now apply bool_decide_eq_true in Hu.
Qed.

Lemma strength_field_valid (item : list (string * json)) (s : string) :
  strength_field item = Some s -> s ∈ strengths.
Proof.
  unfold strength_field, strengths.
  assert (Hdefault : "moderate" ∈ ["minor"; "moderate"; "strong"])
    by (repeat constructor).
  destruct (PyDict.get "strength" item) as [[]|]; try discriminate;
    intros E; injection E as <-; try exact Hdefault.
  case_bool_decide; [assumption | exact Hdefault].
Qed.

Lemma notes_field_not_empty (item : list (string * json)) :
  notes_field item <> Some "".
Proof.
  unfold notes_field.
  destruct (PyDict.get "notes" item) as [[]|];
    try destruct (PyStr.strip _); congruence.
Qed.

End CleanCounterpoints.

Lemma cleaned_counterpoints_valid_core :
  forall (L : PyLib) (C : PyConv) (raw : list json) (critic : CriticResult.t)
         (allowed_urls : list string) (cp : Counterpoint.t),
    cp ∈ _clean_and_validate_counterpoints raw critic allowed_urls ->
    Counterpoint.id cp <> "" /\ Counterpoint.text cp <> ""
    /\ (exists chain,
          CriticResult.implication_chains critic
            !! Z.to_nat (Counterpoint.target_chain_index cp) = Some chain
          /\ (0 <= Counterpoint.target_chain_index cp)%Z
          /\ (0 <= Counterpoint.target_step_index cp
              < Z.of_nat (length (ImplicationChain.steps chain)))%Z)
    /\ Counterpoint.type cp ∈ counterpoint_types
    /\ Counterpoint.strength cp ∈ strengths
    /\ (forall u, u ∈ Counterpoint.based_on_sources cp -> u ∈ allowed_urls)
    /\ Counterpoint.notes cp <> Some ""
    /\ length (_clean_and_validate_counterpoints raw critic allowed_urls)
         <= length raw.
Proof.
  intros L C raw critic allowed_urls cp Hcp.
  unfold _clean_and_validate_counterpoints in *.
  assert (Hlen : length (omap (clean_item critic (list_to_set allowed_urls))
                              raw) <= length raw).
  { clear. induction raw as [|x raw IH]; cbn; [lia|].
    destruct (clean_item _ _ x); cbn; lia. }
  apply list_elem_of_omap in Hcp. destruct Hcp as (item & _ & Hitem).
  unfold clean_item in Hitem. destruct item; try discriminate.
  destruct (index_field "target_chain_index" fields) as [t_chain|];
    [|discriminate]. cbn [mbind option_bind] in Hitem.
  destruct (index_field "target_step_index" fields) as [t_step|];
    [|discriminate]. cbn [mbind option_bind] in Hitem.
  destruct (type_field fields) as [ctype|]; [|discriminate].
  cbn [mbind option_bind] in Hitem.
  destruct (PyStr.truthy (field_text "id" fields)) eqn:Eid;
    [|discriminate].
  destruct (String.eqb_spec (field_text "text" fields) "") as [|Etext];
    [discriminate|]. cbn [negb orb] in Hitem.
  destruct (Z.ltb_spec t_chain 0) as [|Hc0]; [discriminate|].
  destruct (Z.leb_spec
              (Z.of_nat (length (CriticResult.implication_chains critic)))
              t_chain) as [|Hc1]; [discriminate|].
  cbn [orb] in Hitem.
  destruct (Z.ltb_spec t_step 0) as [|Hs0]; [discriminate|].
  destruct (Z.leb_spec (Z.of_nat (steps_of_chain critic t_chain)) t_step)
    as [|Hs1]; [discriminate|].
  cbn [orb] in Hitem.
  case_bool_decide as Htype; [|discriminate]. cbn [negb] in Hitem.
  destruct (sources_field _ fields) as [clean_srcs|] eqn:Esrc;
    [|discriminate]. cbn [mbind option_bind] in Hitem.
  destruct (strength_field fields) as [strength|] eqn:Estr; [|discriminate].
  cbn [mbind option_bind] in Hitem. injection Hitem as <-. cbn.
  split; [intros E; rewrite E in Eid; discriminate|].
  split; [assumption|]. split.
  - unfold steps_of_chain in Hs1.
    destruct (CriticResult.implication_chains critic !! Z.to_nat t_chain)
      as [chain|] eqn:Echain.
    + exists chain. repeat split; try assumption; lia.
    + apply lookup_ge_None in Echain. lia.
  - split; [assumption|]. split; [now apply strength_field_valid with fields|].
    split.
    + intros u Hu.
      pose proof (sources_field_allowed _ _ _ u Esrc Hu) as Hin.
      now apply elem_of_list_to_set in Hin.
    + split; [apply notes_field_not_empty | exact Hlen].
Qed.

(** X12.  Every counterpoint that passes cleaning has a non-empty id and
    text, targets an existing chain of the critic result and an existing
    step of that chain, has one of the five types and one of the three
    strengths, cites only allowed URLs, and never has empty notes; and
    cleaning never returns more counterpoints than it was given. *)
Theorem cleaned_counterpoints_are_valid :
  forall (L : PyLib) (C : PyConv) (raw : list json) (critic : CriticResult.t)
         (allowed_urls : list string) (cp : Counterpoint.t),
    cp ∈ _clean_and_validate_counterpoints raw critic allowed_urls ->
    Counterpoint.id cp <> "" /\ Counterpoint.text cp <> ""
    /\ (exists chain,
          CriticResult.implication_chains critic
            !! Z.to_nat (Counterpoint.target_chain_index cp) = Some chain
          /\ (0 <= Counterpoint.target_chain_index cp)%Z
          /\ (0 <= Counterpoint.target_step_index cp
              < Z.of_nat (length (ImplicationChain.steps chain)))%Z)
    /\ Counterpoint.type cp ∈ counterpoint_types
    /\ Counterpoint.strength cp ∈ strengths
    /\ (forall u, u ∈ Counterpoint.based_on_sources cp -> u ∈ allowed_urls)
    /\ Counterpoint.notes cp <> Some ""
    /\ length (_clean_and_validate_counterpoints raw critic allowed_urls)
         <= length raw.
Proof. exact cleaned_counterpoints_valid_core. Qed.

Lemma cleaned_counterpoints_are_valid_witness :
  Counterpoint.type CounterpointExamples.cleaned_denial ∈ counterpoint_types
  /\ Counterpoint.strength CounterpointExamples.cleaned_denial ∈ strengths
  /\ forall u,
       u ∈ Counterpoint.based_on_sources CounterpointExamples.cleaned_denial ->
       u ∈ ["https://news.example/1"; "https://news.example/2"].
Proof.
  assert (Hin : CounterpointExamples.cleaned_denial
                ∈ @_clean_and_validate_counterpoints Examples.example_lib
                    CounterpointExamples.example_conv
                    [CounterpointExamples.denial_item;
                     CounterpointExamples.misdirected_item; JStr "x"]
                    CounterpointExamples.critic_result
                    ["https://news.example/1"; "https://news.example/2"]).
  { vm_compute. constructor. }
  destruct (cleaned_counterpoints_are_valid Examples.example_lib
              CounterpointExamples.example_conv _ _ _ _ Hin)
    as (_ & _ & _ & Htype & Hstrength & Hsrcs & _).
  repeat split; assumption.
Defined.

Section CounterpointRun.
Context `{PyLib} `{PyConv}.

Lemma load_latest_critic_run (w : World) :
  _load_latest_critic w =
    match PyDict.last_value (read_file (critic_file w)) with
    | None =>
        (Raise (ValueError
           ("No CriticResult found in local memory. "
            ++ "Run the Critic agent first.")), w)
    | Some r => (Ok r, w)
    end.
Proof.
  unfold _load_latest_critic, CriticMemory._read_store.
  run_monad. now destruct (PyDict.last_value _).
Qed.

(** Generation of counterpoints never raises and leaves the world as it
    is. *)
Lemma generate_counterpoints_total (w : World) :
  exists raw, _generate_counterpoints_with_llm w = (Ok raw, w).
Proof.
  unfold _generate_counterpoints_with_llm. run_monad.
  destruct (PyStr.truthy_opt (GOOGLE_API_KEY w)); cbn; [|now exists []].
  destruct (CounterpointTool.generate_try (gemini w)); eauto.
Qed.

Lemma generate_counterpoints_fails (w : World) :
  PyStr.truthy_opt (GOOGLE_API_KEY w) = false
  \/ generation_fails (gemini w) ->
  _generate_counterpoints_with_llm w = (Ok [], w).
Proof.
  unfold _generate_counterpoints_with_llm. run_monad.
  intros [-> | Hfail]; [reflexivity|].
  destruct (PyStr.truthy_opt (GOOGLE_API_KEY w)); cbn; [|reflexivity].
  unfold CounterpointTool.generate_try, generation_fails in *.
  destruct (gemini w) as [msg|t]; [reflexivity|].
  destruct Hfail as [-> | [v [-> Hv]]]; [reflexivity|].
  destruct v; try reflexivity. now destruct (Hv items).
Qed.

Lemma build_counterpoint_result_eq (w : World) :
  build_counterpoint_result w =
    match _load_latest_critic w with
    | (Raise e, w0) => (Raise e, w0)
    | (Ok critic, w0) =>
        match ImplicationChains._load_latest_pattern_analysis w0 with
        | (Raise e, w1) => (Raise e, w1)
        | (Ok pa, w1) =>
            match _generate_counterpoints_with_llm w1 with
            | (Raise e, w2) => (Raise e, w2)
            | (Ok raw, w2) =>
                let cps :=
                  _clean_and_validate_counterpoints raw critic
                    (_collect_allowed_urls pa) in
                (Ok (CounterpointResult.mk (CriticResult.statement critic)
                       match cps with
                       | [] => summary_without_counterpoints
                       | _ => summary_with_counterpoints
                       end cps), w2)
            end
        end
    end.
Proof.
  unfold build_counterpoint_result. unfold mbind at 1. unfold M_bind at 1.
  destruct (_load_latest_critic w) as [[critic|e] w0]; [|reflexivity].
  unfold mbind at 1. unfold M_bind at 1.
  change CounterpointTool._load_latest_pattern_analysis
    with ImplicationChains._load_latest_pattern_analysis.
  destruct (ImplicationChains._load_latest_pattern_analysis w0)
    as [[pa|e] w1]; [|reflexivity].
  unfold mbind at 1. unfold M_bind at 1.
  destruct (_generate_counterpoints_with_llm w1) as [[raw|e] w2];
    reflexivity.
Qed.

End CounterpointRun.

(** X13.  A successful counterpoint run leaves its result as the whole
    content of the counterpoint store, from which it can be read back.  The
    result carries the statement of the latest critic result; each of its
    counterpoints targets an existing step of a chain of that critic result
    and cites only non-empty URLs of articles of the latest pattern
    analysis. *)
Theorem counterpoint_run_is_grounded :
  forall (L : PyLib) (C : PyConv) (f : counterpoint_file) (w : World)
         (r : CounterpointResult.t) (w' : World) (f' : counterpoint_file),
    run_counterpoint f w = (Ok r, w', f') ->
    f' = CpStored (Some r)
    /\ CounterpointMemory.get_latest_result f' = Some r
    /\ exists (critic : CriticResult.t) (pa : PatternAnalysisResult.t),
         _load_latest_critic w = (Ok critic, w)
         /\ ImplicationChains._load_latest_pattern_analysis w = (Ok pa, w')
         /\ CounterpointResult.statement r = CriticResult.statement critic
         /\ forall cp, cp ∈ CounterpointResult.counterpoints r ->
              (exists chain,
                 CriticResult.implication_chains critic
                   !! Z.to_nat (Counterpoint.target_chain_index cp)
                   = Some chain
                 /\ (0 <= Counterpoint.target_chain_index cp)%Z
                 /\ (0 <= Counterpoint.target_step_index cp
                     < Z.of_nat (length (ImplicationChain.steps chain)))%Z)
              /\ forall u, u ∈ Counterpoint.based_on_sources cp ->
                   u <> ""
                   /\ u ∈ List.map ArticleAnalysis.url
                            (PatternAnalysisResult.analyzed_articles pa).
Proof.
  intros L C f w r w' f'. unfold run_counterpoint.
  rewrite build_counterpoint_result_eq, load_latest_critic_run.
  destruct (PyDict.last_value (read_file (critic_file w))) as [critic|];
    [|discriminate].
  destruct (ImplicationChains._load_latest_pattern_analysis w)
    as [[pa|e] w1] eqn:Hload; [|discriminate].
  destruct (generate_counterpoints_total w1) as [raw Hraw]. rewrite Hraw.
  cbv zeta. intros E. injection E as <- <- <-.
  split; [reflexivity|]. split; [reflexivity|].
  exists critic, pa. split; [reflexivity|]. split; [reflexivity|].
  split; [reflexivity|]. cbn. intros cp Hcp.
  destruct (cleaned_counterpoints_valid_core L C raw critic
              (_collect_allowed_urls pa) cp Hcp)
    as (_ & _ & Htarget & _ & _ & Hsrc & _).
  split; [exact Htarget|]. intros u Hu. apply Hsrc in Hu.
  apply (proj1 (proj2 (allowed_urls_core pa)) u) in Hu.
  destruct Hu as [Hne Hin]. split; [assumption|].
  exact Hin.
Qed.

Lemma counterpoint_run_is_grounded_witness :
  exists (r : CounterpointResult.t) (w' : World),
    @run_counterpoint Examples.example_lib CounterpointExamples.example_conv
      CpAbsent
      (CounterpointExamples.world_after_critic
         (GenText (Some Examples.reply_text)))
    = (Ok r, w', CpStored (Some r)).
Proof.
  destruct (@run_counterpoint Examples.example_lib
              CounterpointExamples.example_conv CpAbsent
              (CounterpointExamples.world_after_critic
                 (GenText (Some Examples.reply_text))))
    as [[[r|e] w'] f'] eqn:Hrun; [|vm_compute in Hrun; discriminate Hrun].
  exists r, w'.
  now rewrite (proj1 (counterpoint_run_is_grounded Examples.example_lib
                        CounterpointExamples.example_conv _ _ r w' f' Hrun)).
Defined.

(** X14.  A counterpoint run fails only with a ValueError, when the critic
    store or the pattern store holds no record, and then the counterpoint
    store is left as it was.  When both hold a record and the API key is
    missing or generation fails, the run still succeeds, with no
    counterpoint and the summary that says so. *)
Theorem counterpoint_run_degrades :
  forall (L : PyLib) (C : PyConv) (f : counterpoint_file) (w : World),
    (forall e w' f',
       run_counterpoint f w = (Raise e, w', f') ->
       f' = f
       /\ (exists msg, e = ValueError msg)
       /\ (PyDict.last_value (read_file (critic_file w)) = None
           \/ PyDict.last_value (read_file (pattern_analysis_file w)) = None))
    /\ (forall critic pa,
          PyDict.last_value (read_file (critic_file w)) = Some critic ->
          PyDict.last_value (read_file (pattern_analysis_file w)) = Some pa ->
          PyStr.truthy_opt (GOOGLE_API_KEY w) = false
          \/ generation_fails (gemini w) ->
          fst (fst (run_counterpoint f w)) =
            Ok (CounterpointResult.mk (CriticResult.statement critic)
                  summary_without_counterpoints [])).
Proof.
  intros L C f w. unfold run_counterpoint.
  rewrite build_counterpoint_result_eq, load_latest_critic_run.
  split.
  - intros e w' f'.
    destruct (PyDict.last_value (read_file (critic_file w))) as [critic|].
    2: { intros E. injection E as <- _ <-. eauto. }
    rewrite load_latest_run. cbn. rewrite read_init_file.
    destruct (PyDict.last_value (read_file (pattern_analysis_file w)))
      as [pa|].
    2: { intros E. injection E as <- _ <-. eauto. }
    destruct (generate_counterpoints_total
                (set_pattern_analysis_file
                   (init_file (pattern_analysis_file w)) w)) as [raw Hraw].
    rewrite Hraw. discriminate.
  - intros critic pa -> Hpa Hfail.
    rewrite load_latest_run. cbn. rewrite read_init_file, Hpa.
    rewrite generate_counterpoints_fails by exact Hfail. reflexivity.
Qed.

Lemma counterpoint_run_degrades_witness :
  fst (fst (@run_counterpoint Examples.example_lib
              CounterpointExamples.example_conv CpAbsent
              (CounterpointExamples.world_after_critic
                 (GenRaises "quota exceeded"))))
  = Ok (CounterpointResult.mk "Prices rose" summary_without_counterpoints []).
Proof.
  apply (proj2 (counterpoint_run_degrades Examples.example_lib
                  CounterpointExamples.example_conv CpAbsent
                  (CounterpointExamples.world_after_critic
                     (GenRaises "quota exceeded")))
           CounterpointExamples.critic_result Examples.labelled_analysis).
  - reflexivity.
  - reflexivity.
  - right. exact I.
Defined.

(* ===================================================================== *)
(** ** Further properties: the critic input tool *)
(* ===================================================================== *)

Section SortedByKey.
Context {A : Type} (key : A -> string).

Lemma string_leb_refl (s : string) : String.leb s s = true.
Proof. now destruct (String.leb_total s s). Qed.

Lemma insert_by_key_perm (x : A) (l : list A) :
  Permutation (insert_by_key key x l) (x :: l).
Proof.
  induction l as [|y l IH]; cbn; [reflexivity|].
  destruct (String.leb (key x) (key y)); [reflexivity|].
  rewrite IH. apply perm_swap.
Qed.

Lemma insert_by_key_hd (x y : A) (l : list A) :
  key_le key y x -> HdRel (key_le key) y l -> HdRel (key_le key) y (insert_by_key key x l).
Proof.
  intros Hyx Hhd. destruct l as [|z l]; cbn; [now constructor|].
  destruct (String.leb (key x) (key z)); constructor;
    [assumption | now inversion Hhd].
Qed.

Lemma insert_by_key_sorted (x : A) (l : list A) :
  Sorted (key_le key) l -> Sorted (key_le key) (insert_by_key key x l).
Proof.
  induction l as [|y l IH]; intros Hs; cbn.
  - repeat constructor.
  - destruct (String.leb (key x) (key y)) eqn:E.
    + constructor; [assumption | now constructor].
    + inversion Hs as [|? ? Hl Hhd]; subst. constructor; [now apply IH|].
      apply insert_by_key_hd; [|assumption].
      unfold key_le. destruct (String.leb_total (key x) (key y)); congruence.
Qed.

Lemma insert_by_key_filter (k : string) (x : A) (l : list A) :
  List.filter (fun a => String.eqb (key a) k) (insert_by_key key x l) =
  List.filter (fun a => String.eqb (key a) k) (x :: l).
Proof.
  induction l as [|y l IH]; [reflexivity|].
  cbn [insert_by_key]. destruct (String.leb (key x) (key y)) eqn:E;
    [reflexivity|].
  cbn [List.filter] in *. rewrite IH.
  destruct (String.eqb_spec (key x) k) as [Hx|Hx];
    destruct (String.eqb_spec (key y) k) as [Hy|Hy]; try reflexivity.
  rewrite Hx, <- Hy, string_leb_refl in E. discriminate E.
Qed.

Lemma sorted_by_key_spec (l : list A) :
  Permutation (sorted_by_key key l) l
  /\ Sorted (key_le key) (sorted_by_key key l)
  /\ forall k,
       List.filter (fun a => String.eqb (key a) k) (sorted_by_key key l) =
       List.filter (fun a => String.eqb (key a) k) l.
Proof.
  unfold sorted_by_key. induction l as [|x l (IHp & IHs & IHf)]; cbn.
  - repeat split; constructor.
  - split; [|split].
    + rewrite insert_by_key_perm. now constructor.
    + now apply insert_by_key_sorted.
    + intros k. rewrite insert_by_key_filter. cbn. now rewrite IHf.
Qed.

End SortedByKey.

(** X15.  The critic input tool returns the latest stored analysis, its
    article URLs in article order, and its articles sorted by publish date
    (a missing date counting as the empty string): the sorted list is a
    rearrangement of the articles, in non-decreasing order of date, and
    articles with the same date keep their relative order. *)
Theorem critic_input_is_sorted_by_date :
  forall (w : World) (input : critic_input) (w' : World),
    critic_input_tool w = (Ok input, w') ->
    let articles :=
      PatternAnalysisResult.analyzed_articles (pattern_analysis input) in
    CriticTool._load_latest_pattern_analysis w = (Ok (pattern_analysis input), w')
    /\ input_allowed_urls input = List.map ArticleAnalysis.url articles
    /\ Permutation (articles_sorted_by_date input) articles
    /\ Sorted (fun a b => String.leb (_sort_key a) (_sort_key b) = true)
              (articles_sorted_by_date input)
    /\ forall date,
         List.filter (fun a => String.eqb (_sort_key a) date)
                     (articles_sorted_by_date input) =
         List.filter (fun a => String.eqb (_sort_key a) date) articles.
Proof.
  intros w input w'. unfold critic_input_tool.
  unfold mbind, M_bind.
  destruct (CriticTool._load_latest_pattern_analysis w) as [[pa|e] w1];
    [|discriminate].
  unfold mret, M_ret. intros E. injection E as <- <-. cbn.
  destruct (sorted_by_key_spec _sort_key
              (PatternAnalysisResult.analyzed_articles pa))
    as (Hp & Hs & Hf).
  repeat split; assumption.
Qed.

Lemma critic_input_is_sorted_by_date_witness :
  exists (input : critic_input) (w' : World),
    critic_input_tool
      (Examples.world_with CounterpointExamples.dated_analysis
         (GenRaises "unused")) = (Ok input, w')
    /\ Sorted (fun a b => String.leb (_sort_key a) (_sort_key b) = true)
              (articles_sorted_by_date input)
    /\ List.map ArticleAnalysis.url (articles_sorted_by_date input) =
         ["https://news.example/3"; "https://news.example/2";
          "https://news.example/4"; "https://news.example/1"].
Proof.
  destruct (critic_input_tool
              (Examples.world_with CounterpointExamples.dated_analysis
                 (GenRaises "unused")))
    as [[input|e] w'] eqn:Hrun; [|vm_compute in Hrun; discriminate Hrun].
  exists input, w'. split; [reflexivity|]. split.
  - exact (proj1 (proj2 (proj2 (proj2
             (critic_input_is_sorted_by_date _ input w' Hrun))))).
  - vm_compute in Hrun. now injection Hrun as <- _.
Defined.

(* ===================================================================== *)
(** ** Further properties: batching and the pattern analyzer run *)
(* ===================================================================== *)

Section Batches.
Context {A : Type}.

Lemma batches_concat_take (xs : list A) (m : nat) :
  concat (List.map (fun i => take BATCH_SIZE (drop i xs))
                   (List.map (fun k => k * BATCH_SIZE) (seq 0 m)))
  = take (m * BATCH_SIZE) xs.
Proof.
  induction m as [|m IH]; [reflexivity|].
  rewrite seq_S, !List.map_app, concat_app, IH. cbn [List.map concat].
  rewrite app_nil_r, Nat.add_0_l, take_take_drop. f_equal. lia.
Qed.

Lemma make_batches_core (xs : list A) :
  concat (make_batches xs) = xs
  /\ length (make_batches xs) = (length xs + 4) / 5
  /\ (forall b, b ∈ make_batches xs -> 1 <= length b <= 5)
  /\ (forall i b, make_batches xs !! i = Some b ->
        S i < length (make_batches xs) -> length b = 5).
Proof.
  unfold make_batches, range_step, BATCH_SIZE.
  assert (Hdiv : (length xs + 5 - 1) / 5 = (length xs + 4) / 5)
    by (f_equal; lia).
  pose proof (Nat.div_mod_eq (length xs + 4) 5) as Hdm.
  pose proof (Nat.mod_upper_bound (length xs + 4) 5 ltac:(lia)) as Hmod.
  split; [|split; [|split]].
  - rewrite (batches_concat_take xs). unfold BATCH_SIZE.
    apply take_ge. lia.
  - rewrite !length_map, length_seq. exact Hdiv.
  - intros b Hb. apply list_elem_of_In in Hb.
    apply in_map_iff in Hb. destruct Hb as (i & <- & Hi).
    apply in_map_iff in Hi. destruct Hi as (k & <- & Hk).
    apply in_seq in Hk. rewrite length_take, length_drop. lia.
  - intros i b Hi Hlt. rewrite !length_map, length_seq in Hlt.
    rewrite !list_lookup_fmap in Hi.
    destruct (seq 0 ((length xs + 5 - 1) / 5) !! i) as [k|] eqn:Hk;
      [|discriminate].
    apply lookup_seq in Hk. destruct Hk as [-> _]. cbn in Hi.
    injection Hi as <-. rewrite length_take, length_drop. lia.
Qed.

End Batches.

(** X16.  Batching cuts a list into consecutive pieces: the batches put
    back together give the list, there are as many as the length divided by
    five and rounded up, every batch holds between one and five elements,
    and every batch but the last holds exactly five. *)
Theorem batches_partition_the_sources :
  forall (A : Type) (xs : list A),
    concat (make_batches xs) = xs
    /\ length (make_batches xs) = (length xs + 4) / 5
    /\ (forall b, b ∈ make_batches xs -> 1 <= length b <= 5)
    /\ (forall i b, make_batches xs !! i = Some b ->
          S i < length (make_batches xs) -> length b = 5).
Proof. intros A xs. apply make_batches_core. Qed.

Section TextualBatches.
Context `{PyLib}.

Lemma textual_source_has_url (fact_result : FactFinderResult.t)
    (textual_sources : list SourceInfo.t) (src : SourceInfo.t) :
  textual_sources_of fact_result = Ok textual_sources ->
  src ∈ textual_sources ->
  src ∈ FactFinderResult.sources fact_result
  /\ SourceInfo.url src <> ""
  /\ is_textual_url (SourceInfo.url src) = Ok true.
Proof.
  unfold textual_sources_of. intros Hfilter Hin.
  rewrite (textual_filter_ok _ _ Hfilter) in Hin.
  apply list_elem_of_In, filter_In in Hin. destruct Hin as [Hin Hok].
  apply andb_true_iff in Hok. destruct Hok as [Hurl Htext].
  split; [now apply list_elem_of_In|]. split.
  - now destruct (SourceInfo.url src).
  - destruct (is_textual_url (SourceInfo.url src)); congruence.
Qed.

Lemma batch_urls_all (batch : list SourceInfo.t) :
  (forall src, src ∈ batch -> SourceInfo.url src <> "") ->
  batch_urls batch = List.map SourceInfo.url batch.
Proof.
  unfold batch_urls. induction batch as [|src batch IH]; intros Hall;
    [reflexivity|].
  cbn. destruct (SourceInfo.url src) eqn:E.
  - exfalso. apply (Hall src); [constructor | assumption].
  - cbn. f_equal. apply IH. intros src' Hs. apply Hall. now constructor.
Qed.

End TextualBatches.

(** X17.  Every batch the run makes from the textual sources, once the
    filter has parsed every URL, is sent as it is: each of its sources is a
    Fact-Finder source with a non-empty URL whose host names no video site,
    so the job is started with the URLs of all its sources, between one and
    five of them, and no batch is skipped for lack of URLs. *)
Theorem every_batch_is_submitted :
  forall (L : PyLib) (fact_result : FactFinderResult.t)
         (textual_sources : list SourceInfo.t) (batch : list SourceInfo.t),
    textual_sources_of fact_result = Ok textual_sources ->
    batch ∈ make_batches textual_sources ->
    batch_urls batch = List.map SourceInfo.url batch
    /\ 1 <= length (batch_urls batch) <= 5
    /\ forall src, src ∈ batch ->
         src ∈ FactFinderResult.sources fact_result
         /\ SourceInfo.url src <> ""
         /\ is_textual_url (SourceInfo.url src) = Ok true.
Proof.
  intros L fact_result textual_sources batch Hfilter Hbatch.
  destruct (make_batches_core textual_sources)
    as (Hconcat & _ & Hsize & _).
  assert (Hsrc : forall src, src ∈ batch -> src ∈ textual_sources).
  { intros src Hin. rewrite <- Hconcat. apply list_elem_of_In, in_concat.
    exists batch. split; now apply list_elem_of_In. }
  assert (Hurls : batch_urls batch = List.map SourceInfo.url batch).
  { apply batch_urls_all. intros src Hin.
    now apply (textual_source_has_url fact_result textual_sources src
                 Hfilter (Hsrc src Hin)). }
  split; [assumption|]. split.
  - rewrite Hurls, length_map. now apply Hsize.
  - intros src Hin.
    apply (textual_source_has_url fact_result textual_sources);
      [assumption | now apply Hsrc].
Qed.

Lemma every_batch_is_submitted_witness :
  batch_urls [Examples.nth_source 11] = ["https://news.example/11"]
  /\ 1 <= length (batch_urls [Examples.nth_source 11]) <= 5.
Proof.
  assert (Hfilter : @textual_sources_of Examples.example_lib
                      Examples.eleven_sources
                    = Ok (List.map Examples.nth_source (seq 1 11)))
    by (vm_compute; reflexivity).
  assert (Hbatch : [Examples.nth_source 11]
                   ∈ make_batches (List.map Examples.nth_source (seq 1 11))).
  { vm_compute. do 2 constructor 2. constructor 1. }
  destruct (every_batch_is_submitted Examples.example_lib
              Examples.eleven_sources _ _ Hfilter Hbatch)
    as (Hurls & Hsize & _).
  split; [rewrite Hurls; reflexivity | exact Hsize].
Defined.

Section AnalyzerRun.
Context `{PyLib}.

Lemma load_fact_result_run (w : World) :
  load_fact_result w =
    match PyDict.last_value (fact_finder_results w) with
    | Some r => (Ok r, w)
    | None =>
        let w1 := set_fact_finder_file (init_file (fact_finder_file w)) w in
        match PyDict.last_value (read_file (fact_finder_file w)) with
        | Some r => (Ok r, w1)
        | None =>
            (Raise (ValueError
               ("No Fact-Finder data found in session or local memory. "
                ++ "Run the Fact-Finder agent first.")), w1)
        end
    end.
Proof.
  unfold load_fact_result,
    SessionStore.get_latest_fact_finder_result_session,
    LocalFactFinderMemory.__init__, LocalFactFinderMemory._read_store.
  run_monad. destruct (PyDict.last_value (fact_finder_results w));
    [reflexivity|].
  cbn. rewrite read_init_file.
  now destruct (PyDict.last_value (read_file (fact_finder_file w))).
Qed.

(** Loading the Fact-Finder result touches neither the pattern store nor
    the session results of the pattern analyzer. *)
Lemma load_fact_result_keeps_analysis (w : World)
    (r : result FactFinderResult.t) (w1 : World) :
  load_fact_result w = (r, w1) ->
  pattern_analysis_file w1 = pattern_analysis_file w
  /\ pattern_analysis_results w1 = pattern_analysis_results w
  /\ firecrawl w1 = firecrawl w
  /\ FIRECRAWL_API_KEY w1 = FIRECRAWL_API_KEY w.
Proof.
  rewrite load_fact_result_run.
  destruct (PyDict.last_value (fact_finder_results w)).
  - intros E. now injection E as _ <-.
  - cbv zeta. destruct (PyDict.last_value (read_file (fact_finder_file w)));
      intros E; now injection E as _ <-.
Qed.

(** The run, branch by branch. *)
Lemma run_pattern_analyzer_eq (w : World) :
  run_pattern_analyzer w =
    match load_fact_result w with
    | (Raise e, w1) => (Raise e, w1)
    | (Ok fact_result, w1) =>
        match FactFinderResult.sources fact_result with
        | [] =>
            (Raise (ValueError "Fact-Finder returned no sources to analyze."),
             w1)
        | _ =>
            match textual_sources_of fact_result with
            | Raise e => (Raise e, w1)
            | Ok [] =>
                (Raise (ValueError
                   "No textual sources available (non-video) to analyze for this statement."),
                 w1)
            | Ok textual_sources =>
                if negb (PyStr.truthy_opt (FIRECRAWL_API_KEY w1))
                then (Raise (RuntimeError
                        "FIRECRAWL_API_KEY is not set in the environment."),
                      w1)
                else
                  match concat (imap (fun i b => batch_contribution w1 (S i) b)
                                  (make_batches textual_sources)) with
                  | [] => (Raise no_structured_data, w1)
                  | a :: rest =>
                      let r := PatternAnalysisResult.mk
                                 (FactFinderResult.statement fact_result)
                                 (a :: rest) in
                      (Ok r,
                       snd ((PatternAnalysisMemory.__init__;;
                             PatternAnalysisMemory.save_result r;;
                             SessionStore.save_pattern_analysis_result_session
                               r) w1))
                  end
            end
        end
    end.
Proof.
  unfold run_pattern_analyzer. unfold mbind at 1. unfold M_bind at 1.
  destruct (load_fact_result w) as [[fact_result|e] w1]; [|reflexivity].
  destruct (FactFinderResult.sources fact_result); [reflexivity|].
  destruct (textual_sources_of fact_result) as [[|t0 ts]|e];
    [reflexivity| |reflexivity].
  unfold mbind at 1. unfold M_bind at 1. unfold gets at 1.
  destruct (PyStr.truthy_opt (FIRECRAWL_API_KEY w1)); [|reflexivity].
  cbn [negb]. unfold mbind at 1. unfold M_bind at 1.
  rewrite batch_loop_run. cbn [app].
  destruct (concat _) as [|a0 rest]; reflexivity.
Qed.

Lemma contribution_articles (w : World) (i : nat) (b : list SourceInfo.t)
    (art : ArticleAnalysis.t) :
  art ∈ batch_contribution w i b ->
  exists extracted urls,
    firecrawl w i (batch_urls b) = DataValid urls
    /\ extracted ∈ urls
    /\ art = to_article (source_lookup_by_url b) extracted.
Proof.
  unfold batch_contribution.
  destruct (batch_urls b) as [|u us]; [now intros Hin%elem_of_nil|].
  destruct (firecrawl w i (u :: us)) as [| | | | |result];
    try (now intros Hin%elem_of_nil).
  intros Hin. apply list_elem_of_In, in_map_iff in Hin.
  destruct Hin as (extracted & <- & Hex).
  exists extracted, result. repeat split. now apply list_elem_of_In.
Qed.

Lemma to_article_shape (lookup : gmap string SourceInfo.t)
    (extracted : ExtractArticle.t) :
  let art := to_article lookup extracted in
  ArticleAnalysis.url art = ExtractArticle.source_url extracted
  /\ ArticleAnalysis.narrative_summary art
       = Some (ExtractArticle.narrative_summary extracted)
  /\ length (ArticleAnalysis.key_claims art) <= 1
  /\ (forall c, c ∈ ArticleAnalysis.key_claims art -> Claim.text c <> "")
  /\ ArticleAnalysis.statistics art <> Some ""
  /\ ArticleAnalysis.bias_indicators art <> Some "".
Proof.
  cbn. unfold claims_of, PyStr.or_none.
  split; [reflexivity|]. split; [reflexivity|].
  destruct (ExtractClaim.text (ExtractArticle.key_claims extracted)) eqn:E;
    cbn.
  - split; [lia|]. split; [now intros c Hc%elem_of_nil|].
    split; [now destruct (ExtractArticle.statistics extracted)|].
    now destruct (ExtractArticle.bias_indication extracted) as [[]|].
  - split; [lia|]. split.
    + intros c Hc. apply list_elem_of_singleton in Hc. subst c. cbn.
      discriminate.
    + split; [now destruct (ExtractArticle.statistics extracted)|].
      now destruct (ExtractArticle.bias_indication extracted) as [[]|].
Qed.

Lemma in_concat_imap {A B} (f : nat -> A -> list B) (l : list A) (y : B) :
  y ∈ concat (imap f l) -> exists i x, l !! i = Some x /\ y ∈ f i x.
Proof.
  revert f. induction l as [|a l IH]; intros f; cbn [imap concat].
  - now intros Hin%elem_of_nil.
  - intros Hin. apply elem_of_app in Hin. destruct Hin as [Hin|Hin].
    + now exists 0, a.
    + destruct (IH _ Hin) as (i & x & Hi & Hy). now exists (S i), x.
Qed.

End AnalyzerRun.

(** X18.  Every article of a successful analysis comes from an extracted
    article of some batch and carries its source URL; it has at most one key
    claim, never one with an empty text; and its statistics and bias text
    are absent rather than empty. *)
Theorem analysed_articles_are_well_formed :
  forall (L : PyLib) (w : World) (r : PatternAnalysisResult.t) (w' : World),
    run_pattern_analyzer w = (Ok r, w') ->
    PatternAnalysisResult.analyzed_articles r <> []
    /\ forall art, art ∈ PatternAnalysisResult.analyzed_articles r ->
         (exists (i : nat) (urls : list string) (extracted : ExtractArticle.t)
                 (result : list ExtractArticle.t),
            firecrawl w i urls = DataValid result
            /\ extracted ∈ result
            /\ ArticleAnalysis.url art = ExtractArticle.source_url extracted)
         /\ length (ArticleAnalysis.key_claims art) <= 1
         /\ (forall c, c ∈ ArticleAnalysis.key_claims art ->
               Claim.text c <> "")
         /\ ArticleAnalysis.statistics art <> Some ""
         /\ ArticleAnalysis.bias_indicators art <> Some "".
Proof.
  intros L w r w'. rewrite run_pattern_analyzer_eq.
  destruct (load_fact_result w) as [[fact_result|e] w1] eqn:Hload;
    [|discriminate].
  destruct (load_fact_result_keeps_analysis w _ w1 Hload)
    as (_ & _ & Hservice & _).
  destruct (FactFinderResult.sources fact_result); [discriminate|].
  destruct (textual_sources_of fact_result) as [[|t0 ts]|e0];
    [discriminate| |discriminate].
  destruct (negb _); [discriminate|].
  destruct (concat _) as [|a0 rest] eqn:Hall; [discriminate|].
  cbv zeta. intros E. injection E as <- _. cbn.
  split; [discriminate|]. intros art Hart. rewrite <- Hall in Hart.
  apply in_concat_imap in Hart. destruct Hart as (i & b & _ & Hart).
  apply contribution_articles in Hart.
  destruct Hart as (extracted & result & Hcall & Hex & ->).
  destruct (to_article_shape (source_lookup_by_url b) extracted)
    as (Hurl & _ & Hlen & Htext & Hstat & Hbias).
  split; [|repeat split; assumption].
  exists (S i), (batch_urls b), extracted, result.
  rewrite <- Hservice. repeat split; assumption.
Qed.

Lemma analysed_articles_are_well_formed_witness :
  exists (r : PatternAnalysisResult.t) (w' : World),
    @run_pattern_analyzer Examples.example_lib
      (Examples.extraction_world Examples.second_batch_times_out)
    = (Ok r, w')
    /\ PatternAnalysisResult.analyzed_articles r <> [].
Proof.
  destruct (@run_pattern_analyzer Examples.example_lib
              (Examples.extraction_world Examples.second_batch_times_out))
    as [[r|e] w'] eqn:Hrun; [|vm_compute in Hrun; discriminate Hrun].
  exists r, w'. split; [reflexivity|].
  exact (proj1 (analysed_articles_are_well_formed Examples.example_lib
                  _ r w' Hrun)).
Defined.

(* ===================================================================== *)
(** ** Further properties: the stores and what counts as latest *)
(* ===================================================================== *)

Section DictOrder.
Context {V : Type}.

Lemma last_value_snoc (d : PyDict.t V) (k : string) (v : V) :
  PyDict.last_value (d ++ [(k, v)])%list = Some v.
Proof. unfold PyDict.last_value. now rewrite rev_app_distr. Qed.

Lemma dict_set_absent (k : string) (v : V) (d : PyDict.t V) :
  PyDict.get k d = None -> PyDict.set k v d = (d ++ [(k, v)])%list.
Proof.
  induction d as [|[k' v'] d IH]; cbn; [reflexivity|].
  destruct (String.eqb k k'); [discriminate|]. intros E. now rewrite IH.
Qed.

Lemma dict_set_present_app (k : string) (v : V) (d t : PyDict.t V) :
  PyDict.get k d <> None ->
  PyDict.set k v (d ++ t)%list = (PyDict.set k v d ++ t)%list.
Proof.
  induction d as [|[k' v'] d IH]; cbn; [congruence|].
  destruct (String.eqb k k'); [reflexivity|]. intros E. now rewrite IH.
Qed.

Lemma dict_get_app_absent (k : string) (d t : PyDict.t V) :
  PyDict.get k d = None -> PyDict.get k (d ++ t)%list = PyDict.get k t.
Proof.
  induction d as [|[k' v'] d IH]; cbn; [reflexivity|].
  destruct (String.eqb k k'); [discriminate | exact IH].
Qed.

(** Writing under a key the dictionary does not have makes the new value
    the last one; writing under a key it has, other than the last key,
    leaves the last value as it was. *)
Lemma last_value_after_set (k : string) (v : V) (d : PyDict.t V) :
  (PyDict.get k d = None -> PyDict.last_value (PyDict.set k v d) = Some v)
  /\ (forall d0 k' v',
        d = (d0 ++ [(k', v')])%list -> k' <> k -> PyDict.get k d <> None ->
        PyDict.last_value (PyDict.set k v d) = Some v').
Proof.
  split.
  - intros E. rewrite dict_set_absent by assumption. apply last_value_snoc.
  - intros d0 k' v' -> Hne Hget.
    assert (Hd0 : PyDict.get k d0 <> None).
    { intros E. apply Hget. rewrite dict_get_app_absent by assumption. cbn.
      apply String.eqb_neq in Hne. rewrite String.eqb_sym in Hne.
      now rewrite Hne. }
    rewrite dict_set_present_app by assumption. apply last_value_snoc.
Qed.

End DictOrder.

(** X19.  Which record counts as latest after a save in the pattern
    store.  When the store had no record under the key of the saved result,
    the saved result becomes the latest one.  When it had one, and the last
    record of the store is under another key, that last record stays the
    latest: the record just saved is overwritten in place and is not the one
    the chain tool and the critic load. *)
Theorem latest_analysis_after_save :
  forall (L : PyLib) (r : PatternAnalysisResult.t) (w : World),
    let store := read_file (pattern_analysis_file w) in
    let key :=
      PatternAnalysisMemory._statement_key (PatternAnalysisResult.statement r) in
    let w1 := snd (PatternAnalysisMemory.save_result r w) in
    (PyDict.get key store = None ->
       ImplicationChains._load_latest_pattern_analysis w1 = (Ok r, w1))
    /\ (forall store0 key' r',
          store = (store0 ++ [(key', r')])%list ->
          key' <> key -> PyDict.get key store <> None ->
          ImplicationChains._load_latest_pattern_analysis w1 = (Ok r', w1)).
Proof.
  intros L r w store key w1. subst w1. rewrite save_result_run. cbn [snd].
  fold key. fold store.
  destruct (last_value_after_set key r store) as [Hnew Hstale].
  split.
  - intros Habsent. rewrite load_latest_run. cbn. now rewrite (Hnew Habsent).
  - intros store0 key' r' Hstore Hne Hget. rewrite load_latest_run. cbn.
    now rewrite (Hstale store0 key' r' Hstore Hne Hget).
Qed.

Lemma latest_analysis_after_save_witness :
  let w1 := snd (@PatternAnalysisMemory.save_result
                   CounterpointExamples.two_statement_lib
                   Examples.labelled_analysis
                   CounterpointExamples.two_record_world) in
  ImplicationChains._load_latest_pattern_analysis w1
  = (Ok CounterpointExamples.wages_analysis, w1).
Proof.
  cbv zeta.
  refine (proj2 (latest_analysis_after_save
                   CounterpointExamples.two_statement_lib
                   Examples.labelled_analysis
                   CounterpointExamples.two_record_world)
            [(_, Examples.unlabelled_analysis)] _
            CounterpointExamples.wages_analysis eq_refl _ _).
  - vm_compute. discriminate.
  - vm_compute. discriminate.
Defined.

Section StoreFrames.
Context `{PyLib}.

Lemma fact_save_result_run (r : FactFinderResult.t) (w : World) :
  LocalFactFinderMemory.save_result r w =
    (Ok (LocalFactFinderMemory._key_for_statement
           (FactFinderResult.statement r)),
     set_fact_finder_file
       (Stored (PyDict.set
                  (LocalFactFinderMemory._key_for_statement
                     (FactFinderResult.statement r))
                  r (read_file (fact_finder_file w))))
       w).
Proof. reflexivity. Qed.

Lemma fact_get_result_run (s : string) (w : World) :
  LocalFactFinderMemory.get_result_by_statement s w =
    (Ok (PyDict.get (LocalFactFinderMemory._key_for_statement s)
                    (read_file (fact_finder_file w))),
     w).
Proof.
  unfold LocalFactFinderMemory.get_result_by_statement,
    LocalFactFinderMemory._read_store.
  run_monad. now destruct (PyDict.get _ _).
Qed.

End StoreFrames.



(** X21.  The Fact-Finder file store is keyed like the pattern store: a
    save returns the digest of the stripped statement, after it a lookup of
    any statement that strips to the same text returns the saved result, and
    lookups under other keys are as before. *)
Theorem fact_store_round_trip :
  forall (L : PyLib) (r : FactFinderResult.t) (s : string) (w : World),
    let w1 := snd (LocalFactFinderMemory.save_result r w) in
    fst (LocalFactFinderMemory.save_result r w) =
      Ok (sha256_hexdigest (PyStr.strip (FactFinderResult.statement r)))
    /\ (PyStr.strip s = PyStr.strip (FactFinderResult.statement r) ->
          LocalFactFinderMemory.get_result_by_statement s w1
          = (Ok (Some r), w1))
    /\ (LocalFactFinderMemory._key_for_statement s
          <> LocalFactFinderMemory._key_for_statement
               (FactFinderResult.statement r) ->
          fst (LocalFactFinderMemory.get_result_by_statement s w1)
          = fst (LocalFactFinderMemory.get_result_by_statement s w)).
Proof.
  intros L r s w w1. subst w1. rewrite fact_save_result_run. cbn [fst snd].
  split; [reflexivity|]. rewrite !fact_get_result_run. cbn. split.
  - intros Hs. unfold LocalFactFinderMemory._key_for_statement.
    now rewrite Hs, dict_get_set.
  - intros Hne. now rewrite dict_get_set_other.
Qed.

Lemma fact_store_round_trip_witness :
  let w1 := snd (@LocalFactFinderMemory.save_result Examples.example_lib
                   Examples.eleven_sources
                   (Examples.extraction_world Examples.every_batch_fails)) in
  @LocalFactFinderMemory.get_result_by_statement Examples.example_lib
    " Prices rose " w1 = (Ok (Some Examples.eleven_sources), w1).
Proof.
  cbv zeta.
  apply (proj1 (proj2 (fact_store_round_trip Examples.example_lib
                         Examples.eleven_sources " Prices rose "
                         (Examples.extraction_world
                            Examples.every_batch_fails)))).
  reflexivity.
Defined.

(** X22.  The session cache is keyed by the stripped statement: after a
    Fact-Finder result is saved, looking up any statement that strips to the
    same text returns it; it is also the latest result when no result was
    cached under that key before, while a result saved again under a key
    that is not the last one leaves the previous latest in place. *)
Theorem session_cache_round_trip :
  forall (r : FactFinderResult.t) (s : string) (w : World),
    let key := PyStr.strip (FactFinderResult.statement r) in
    let w1 := snd (SessionStore.save_fact_finder_result_session r w) in
    (PyStr.strip s = key ->
       SessionStore.get_fact_finder_result_session s w1 = (Ok (Some r), w1))
    /\ (PyDict.get key (fact_finder_results w) = None ->
          SessionStore.get_latest_fact_finder_result_session w1
          = (Ok (Some r), w1))
    /\ (forall cache0 key' r',
          fact_finder_results w = (cache0 ++ [(key', r')])%list ->
          key' <> key -> PyDict.get key (fact_finder_results w) <> None ->
          SessionStore.get_latest_fact_finder_result_session w1
          = (Ok (Some r'), w1)).
Proof.
  intros r s w key w1. subst w1.
  unfold SessionStore.save_fact_finder_result_session,
    SessionStore.get_fact_finder_result_session,
    SessionStore.get_latest_fact_finder_result_session,
    SessionStore._normalize_statement.
  fold key. run_monad.
  destruct (last_value_after_set key r (fact_finder_results w))
    as [Hnew Hstale].
  split; [|split].
  - intros ->. now rewrite dict_get_set.
  - intros Habsent. now rewrite (Hnew Habsent).
  - intros cache0 key' r' Hcache Hne Hget.
    now rewrite (Hstale cache0 key' r' Hcache Hne Hget).
Qed.

Lemma session_cache_round_trip_witness :
  let w1 := snd (SessionStore.save_fact_finder_result_session
                   Examples.eleven_sources
                   (Examples.world_with Examples.labelled_analysis
                      (GenRaises "unused"))) in
  SessionStore.get_fact_finder_result_session "Prices rose  " w1
    = (Ok (Some Examples.eleven_sources), w1)
  /\ SessionStore.get_latest_fact_finder_result_session w1
    = (Ok (Some Examples.eleven_sources), w1).
Proof.
  cbv zeta.
  destruct (session_cache_round_trip Examples.eleven_sources "Prices rose  "
              (Examples.world_with Examples.labelled_analysis
                 (GenRaises "unused"))) as (Hget & Hlatest & _).
  split; [now apply Hget | now apply Hlatest].
Defined.

(* ===================================================================== *)
(** ** Further properties: what the pattern analyzer run persists *)
(* ===================================================================== *)

(** X23.  After a successful analyzer run, its result can be read back by
    its statement from the pattern store and from the session cache; and when
    the pattern store held no record under the key of that statement before
    the run, the result is the one the critic loads as latest. *)
Theorem analysis_is_persisted :
  forall (L : PyLib) (w : World) (r : PatternAnalysisResult.t) (w' : World),
    run_pattern_analyzer w = (Ok r, w') ->
    PatternAnalysisMemory.get_result_by_statement
      (PatternAnalysisResult.statement r) w' = (Ok (Some r), w')
    /\ SessionStore.get_pattern_analysis_result_session
         (PatternAnalysisResult.statement r) w' = (Ok (Some r), w')
    /\ (PyDict.get
          (PatternAnalysisMemory._statement_key
             (PatternAnalysisResult.statement r))
          (read_file (pattern_analysis_file w)) = None ->
        CriticTool._load_latest_pattern_analysis w' = (Ok r, w')).
Proof.
  intros L w r w'. rewrite run_pattern_analyzer_eq.
  destruct (load_fact_result w) as [[fact_result|e] w1] eqn:Hload;
    [|discriminate].
  destruct (load_fact_result_keeps_analysis w _ w1 Hload) as (Hfile & _).
  destruct (FactFinderResult.sources fact_result); [discriminate|].
  destruct (textual_sources_of fact_result) as [[|t0 ts]|e0];
    [discriminate| |discriminate].
  destruct (negb _); [discriminate|].
  destruct (concat _) as [|a0 rest]; [discriminate|].
  cbv zeta. intros E. injection E as <- <-.
  split; [|split].
  - rewrite get_result_run. cbn. now rewrite dict_get_set.
  - unfold SessionStore.get_pattern_analysis_result_session,
      SessionStore._normalize_statement, gets. cbn.
    unfold SessionStore._normalize_statement. now rewrite dict_get_set.
  - cbn. intros Habsent. rewrite <- Hfile in Habsent.
    change CriticTool._load_latest_pattern_analysis
      with ImplicationChains._load_latest_pattern_analysis.
    rewrite load_latest_run. cbn. rewrite read_init_file.
    destruct (last_value_after_set
                (PatternAnalysisMemory._statement_key
                   (FactFinderResult.statement fact_result))
                (PatternAnalysisResult.mk
                   (FactFinderResult.statement fact_result) (a0 :: rest))
                (read_file (pattern_analysis_file w1))) as [Hnew _].
    now rewrite (Hnew Habsent).
Qed.

Lemma analysis_is_persisted_witness :
  exists (r : PatternAnalysisResult.t) (w' : World),
    @run_pattern_analyzer Examples.example_lib
      (Examples.extraction_world Examples.second_batch_times_out)
    = (Ok r, w')
    /\ CriticTool._load_latest_pattern_analysis w' = (Ok r, w').
Proof.
  destruct (@run_pattern_analyzer Examples.example_lib
              (Examples.extraction_world Examples.second_batch_times_out))
    as [[r|e] w'] eqn:Hrun; [|vm_compute in Hrun; discriminate Hrun].
  exists r, w'. split; [reflexivity|].
  apply (proj2 (proj2 (analysis_is_persisted Examples.example_lib
                         _ r w' Hrun))).
  reflexivity.
Defined.



(* ===================================================================== *)
(** ** Further properties: the Fact-Finder run *)
(* ===================================================================== *)

Import FactFinder.

Section FinderScan.
Context `{PyLib} `{PyConv}.

Lemma source_of_fields (source_type url : string)
    (info : list (string * json)) (source : SourceInfo.t) :
  source_of source_type url info = Some source ->
  SourceInfo.url source = url /\ SourceInfo.source_type source = source_type.
Proof.
  unfold source_of.
  repeat (match goal with
          | |- context [optional_field ?k info] =>
              destruct (optional_field k info); cbn [mbind option_bind];
              [|discriminate]
          end).
  intros E. now injection E as <-.
Qed.

(** What the loop keeps true of [(all_sources, seen_urls)]. *)
Lemma scan_result_inv (source_type : string) (acc acc' : finder_state)
    (item : json) :
  scan_result source_type acc item = Ok acc' ->
  finder_inv acc ->
  finder_inv acc'
  /\ exists added,
       fst acc' = (fst acc ++ added)%list
       /\ forall s, s ∈ added -> SourceInfo.source_type s = source_type.
Proof.
  intros Hscan Hinv.
  assert (Hsame : acc' = acc ->
            finder_inv acc'
            /\ exists added,
                 fst acc' = (fst acc ++ added)%list
                 /\ forall s, s ∈ added ->
                      SourceInfo.source_type s = source_type).
  { intros ->. split; [assumption|]. exists []. rewrite app_nil_r.
    split; [reflexivity|]. now intros s Hs%elem_of_nil. }
  unfold scan_result in Hscan.
  destruct item; try discriminate.
  destruct (PyDict.get "json" fields) as [[| | | | |[|kv info]]|];
    try (injection Hscan as <-; now apply Hsame).
  destruct (PyDict.get "url" (kv :: info)) as [url|];
    [|injection Hscan as <-; now apply Hsame].
  destruct (negb (CounterpointTool.truth_of url)) eqn:Etruth;
    [injection Hscan as <-; now apply Hsame|].
  destruct url as [| | |u| |];
    try discriminate; try (injection Hscan as <-; now apply Hsame).
  case_bool_decide as Hseen; [injection Hscan as <-; now apply Hsame|].
  destruct (source_of source_type u (kv :: info)) as [source|] eqn:Esrc;
    [|injection Hscan as <-; now apply Hsame].
  injection Hscan as <-.
  destruct (source_of_fields _ _ _ _ Esrc) as [Hurl Htype].
  destruct Hinv as (Hset & Hnodup & Hnonempty). cbn [fst snd] in *.
  assert (Hu : u <> "").
  { intros ->. cbn in Etruth. discriminate Etruth. }
  split.
  - unfold finder_inv. cbn [fst snd].
    rewrite List.map_app. cbn [List.map]. rewrite Hurl. repeat split.
    + rewrite list_to_set_app_L, Hset. cbn [list_to_set].
      rewrite (right_id_L ∅ (∪)). apply (comm_L (∪)).
    + apply NoDup_app. repeat split; [assumption| |apply NoDup_singleton].
      intros x Hx Hx'. apply list_elem_of_singleton in Hx'. subst x.
      apply Hseen. rewrite Hset. now apply elem_of_list_to_set.
    + intros s Hs. apply elem_of_app in Hs. destruct Hs as [Hs|Hs];
        [now apply Hnonempty|].
      apply list_elem_of_singleton in Hs. subst s. now rewrite Hurl.
  - exists [source]. split; [reflexivity|].
    intros s Hs. apply list_elem_of_singleton in Hs. now subst s.
Qed.

Lemma scan_results_inv (source_type : string) (items : list json) :
  forall acc acc',
    scan_results source_type acc items = Ok acc' ->
    finder_inv acc ->
    finder_inv acc'
    /\ exists added,
         fst acc' = (fst acc ++ added)%list
         /\ forall s, s ∈ added -> SourceInfo.source_type s = source_type.
Proof.
  induction items as [|item rest IH]; intros acc acc' Hscan Hinv.
  - cbn in Hscan. injection Hscan as <-. split; [assumption|].
    exists []. rewrite app_nil_r. split; [reflexivity|].
    now intros s Hs%elem_of_nil.
  - cbn [scan_results] in Hscan.
    destruct (scan_result source_type acc item) as [acc1|e] eqn:E1;
      [|discriminate].
    destruct (scan_result_inv _ _ _ _ E1 Hinv) as (Hinv1 & add1 & Hadd1 & Ht1).
    destruct (IH acc1 acc' Hscan Hinv1) as (Hinv' & add2 & Hadd2 & Ht2).
    split; [assumption|]. exists (add1 ++ add2)%list.
    rewrite Hadd2, Hadd1, <- app_assoc. split; [reflexivity|].
    intros s Hs. apply elem_of_app in Hs. destruct Hs; auto.
Qed.

Lemma collect_sources_core (api_data : json) (sources : list SourceInfo.t) :
  collect_sources api_data = Ok sources ->
  NoDup (List.map SourceInfo.url sources)
  /\ (forall s, s ∈ sources -> SourceInfo.url s <> "")
  /\ exists news web,
       sources = (news ++ web)%list
       /\ (forall s, s ∈ news -> SourceInfo.source_type s = "news")
       /\ (forall s, s ∈ web -> SourceInfo.source_type s = "web").
Proof.
  unfold collect_sources. destruct api_data; try discriminate.
  destruct (match PyDict.get "data" fields with
            | Some v => v
            | None => JObj []
            end) as [| | | | |sd]; try discriminate.
  unfold scan_source_type.
  destruct (CounterpointTool.iterate
              match PyDict.get "news" sd with
              | Some v => v
              | None => JArr []
              end) as [news_items|]; [|discriminate].
  destruct (scan_results "news" ([], ∅) news_items) as [acc|e] eqn:En;
    [|discriminate].
  destruct (CounterpointTool.iterate
              match PyDict.get "web" sd with
              | Some v => v
              | None => JArr []
              end) as [web_items|]; [|discriminate].
  destruct (scan_results "web" acc web_items) as [acc'|e] eqn:Ew;
    [|discriminate].
  intros E. injection E as <-.
  assert (Hinit : finder_inv ([], ∅)).
  { unfold finder_inv. cbn. repeat split; [constructor|].
    now intros s Hs%elem_of_nil. }
  destruct (scan_results_inv _ _ _ _ En Hinit) as (Hinv1 & news & Hn & Htn).
  destruct (scan_results_inv _ _ _ _ Ew Hinv1) as (Hinv2 & web & Hw & Htw).
  destruct Hinv2 as (_ & Hnodup & Hnonempty).
  split; [assumption|]. split; [assumption|].
  exists news, web. cbn in Hn. rewrite Hw, Hn. auto.
Qed.

End FinderScan.

(** X25.  The sources gathered from a search response have pairwise
    distinct, non-empty URLs, and the news results come before the web
    results, each source tagged with the list it came from. *)
Theorem gathered_sources_are_distinct :
  forall (L : PyLib) (C : PyConv) (api_data : json)
         (sources : list SourceInfo.t),
    collect_sources api_data = Ok sources ->
    NoDup (List.map SourceInfo.url sources)
    /\ (forall s, s ∈ sources -> SourceInfo.url s <> "")
    /\ exists news web,
         sources = (news ++ web)%list
         /\ (forall s, s ∈ news -> SourceInfo.source_type s = "news")
         /\ (forall s, s ∈ web -> SourceInfo.source_type s = "web").
Proof. intros L C. apply collect_sources_core. Qed.

Lemma gathered_sources_are_distinct_witness :
  exists sources,
    @collect_sources CounterpointExamples.example_conv
      CounterpointExamples.search_response = Ok sources
    /\ NoDup (List.map SourceInfo.url sources)
    /\ List.map SourceInfo.url sources =
         ["https://news.example/1"; "https://news.example/2"].
Proof.
  destruct (@collect_sources CounterpointExamples.example_conv
              CounterpointExamples.search_response)
    as [sources|e] eqn:Hrun; [|vm_compute in Hrun; discriminate Hrun].
  exists sources. split; [reflexivity|]. split.
  - exact (proj1 (gathered_sources_are_distinct Examples.example_lib
                    CounterpointExamples.example_conv _ sources Hrun)).
  - vm_compute in Hrun. now injection Hrun as <-.
Defined.

Section FinderRun.
Context `{PyLib} `{PyConv}.

Lemma run_fact_finder_eq (api : result json) (statement : string)
    (w : World) :
  run_fact_finder api statement w =
    match api with
    | Raise e => (Raise e, w)
    | Ok api_data =>
        match collect_sources api_data with
        | Raise e => (Raise e, w)
        | Ok all_sources =>
            let r := FactFinderResult.mk (PyStr.strip statement)
                                         all_sources in
            (Ok r,
             set_fact_finder_results
               (PyDict.set (PyStr.strip (PyStr.strip statement)) r
                           (fact_finder_results w))
               (set_fact_finder_file
                  (Stored (PyDict.set
                             (sha256_hexdigest
                                (PyStr.strip (PyStr.strip statement)))
                             r (read_file (fact_finder_file w))))
                  w))
        end
    end.
Proof.
  unfold run_fact_finder. destruct api as [api_data|e]; [|reflexivity].
  destruct (collect_sources api_data) as [all_sources|e]; [|reflexivity].
  unfold LocalFactFinderMemory.__init__, LocalFactFinderMemory.save_result,
    LocalFactFinderMemory._read_store, LocalFactFinderMemory._write_store,
    LocalFactFinderMemory._key_for_statement,
    SessionStore.save_fact_finder_result_session,
    SessionStore._normalize_statement.
  run_monad. now rewrite read_init_file.
Qed.

End FinderRun.

Section StripTwice.
Variable p : ascii -> bool.

Lemma append_cons (x : ascii) (a b : string) :
  (String x a ++ b)%string = String x (a ++ b).
Proof. reflexivity. Qed.

Lemma append_assoc (a b c : string) :
  ((a ++ b) ++ c = a ++ (b ++ c))%string.
Proof.
  induction a as [|x a IH]; [reflexivity|].
  rewrite !append_cons. now f_equal.
Qed.

Lemma append_empty_r (a : string) : (a ++ "")%string = a.
Proof.
  induction a as [|x a IH]; [reflexivity|].
  rewrite append_cons. now f_equal.
Qed.

Lemma rev_onto_append (s acc : string) :
  PyStr.rev_onto s acc = (PyStr.rev_onto s "" ++ acc)%string.
Proof.
  revert acc. induction s as [|c s IH]; intros acc; [reflexivity|].
  cbn [PyStr.rev_onto].
  rewrite (IH (String c acc)), (IH (String c "")), append_assoc.
  reflexivity.
Qed.

Lemma rev_onto_of_append (a b acc : string) :
  PyStr.rev_onto (a ++ b)%string acc = PyStr.rev_onto b (PyStr.rev_onto a acc).
Proof.
  revert acc. induction a as [|c a IH]; intros acc; [reflexivity|].
  rewrite append_cons. cbn [PyStr.rev_onto]. apply IH.
Qed.

Lemma rev_append (a b : string) :
  PyStr.rev (a ++ b)%string = (PyStr.rev b ++ PyStr.rev a)%string.
Proof.
  unfold PyStr.rev. rewrite rev_onto_of_append. apply rev_onto_append.
Qed.

Lemma rev_involutive (s : string) : PyStr.rev (PyStr.rev s) = s.
Proof.
  induction s as [|c s IH]; [reflexivity|].
  change (String c s) with (String c "" ++ s)%string at 1.
  rewrite rev_append, rev_append, IH. reflexivity.
Qed.

Lemma drop_while_trimmed (s : string) : PyStr.left_trimmed p (PyStr.drop_while p s).
Proof.
  induction s as [|c s IH]; cbn; [exact I|].
  destruct (p c) eqn:E; [exact IH | exact E].
Qed.

Lemma drop_while_fixed (s : string) :
  PyStr.left_trimmed p s -> PyStr.drop_while p s = s.
Proof. destruct s as [|c s]; cbn; [reflexivity | now intros ->]. Qed.

Lemma drop_while_suffix (s : string) :
  exists t, s = (t ++ PyStr.drop_while p s)%string.
Proof.
  induction s as [|c s [t IH]]; cbn; [now exists ""|].
  destruct (p c); [|now exists ""].
  exists (String c t). rewrite append_cons. now f_equal.
Qed.

Lemma strip_by_idempotent (s : string) :
  PyStr.strip_by p (PyStr.strip_by p s) = PyStr.strip_by p s.
Proof.
  unfold PyStr.strip_by.
  set (u := PyStr.drop_while p s).
  set (v := PyStr.drop_while p (PyStr.rev u)).
  assert (Hu : PyStr.left_trimmed p u) by apply drop_while_trimmed.
  assert (Hv : PyStr.left_trimmed p v) by apply drop_while_trimmed.
  assert (Hrv : PyStr.left_trimmed p (PyStr.rev v)).
  { destruct (drop_while_suffix (PyStr.rev u)) as [t Ht]. fold v in Ht.
    apply (f_equal PyStr.rev) in Ht.
    rewrite rev_involutive, rev_append in Ht.
    destruct (PyStr.rev v) eqn:E; [exact I|].
    rewrite Ht in Hu. exact Hu. }
  rewrite (drop_while_fixed (PyStr.rev v) Hrv), rev_involutive.
  now rewrite (drop_while_fixed v Hv).
Qed.

End StripTwice.

Lemma strip_idempotent (s : string) :
  PyStr.strip (PyStr.strip s) = PyStr.strip s.
Proof. apply strip_by_idempotent. Qed.

(** X26.  A successful Fact-Finder run returns the stripped statement with
    the gathered sources and persists that result: it can be read back by
    the statement as it was given, from the file store and from the session
    cache, and when the session cache held nothing under the stripped
    statement it is the result the pattern analyzer loads next.  A run whose
    search fails or whose response is malformed raises and changes
    nothing. *)
Theorem fact_finder_run_persists :
  forall (L : PyLib) (C : PyConv) (api : result json) (statement : string)
         (w : World),
    (forall r w',
       run_fact_finder api statement w = (Ok r, w') ->
       FactFinderResult.statement r = PyStr.strip statement
       /\ (exists api_data,
             api = Ok api_data
             /\ collect_sources api_data = Ok (FactFinderResult.sources r))
       /\ LocalFactFinderMemory.get_result_by_statement statement w'
          = (Ok (Some r), w')
       /\ SessionStore.get_fact_finder_result_session statement w'
          = (Ok (Some r), w')
       /\ (PyDict.get (PyStr.strip statement) (fact_finder_results w) = None ->
           load_fact_result w' = (Ok r, w')))
    /\ (forall e w',
          run_fact_finder api statement w = (Raise e, w') -> w' = w).
Proof.
  intros L C api statement w. rewrite run_fact_finder_eq.
  rewrite strip_idempotent. split.
  - intros r w'. destruct api as [api_data|e]; [|discriminate].
    destruct (collect_sources api_data) as [all_sources|e] eqn:Hcollect;
      [|discriminate].
    cbv zeta. intros E. injection E as <- <-.
    split; [reflexivity|]. split; [now exists api_data|].
    split; [|split].
    + rewrite fact_get_result_run. cbn.
      unfold LocalFactFinderMemory._key_for_statement.
      now rewrite dict_get_set.
    + unfold SessionStore.get_fact_finder_result_session,
        SessionStore._normalize_statement, gets. cbn.
      now rewrite dict_get_set.
    + intros Habsent. rewrite load_fact_result_run. cbn.
      destruct (last_value_after_set (PyStr.strip statement)
                  (FactFinderResult.mk (PyStr.strip statement) all_sources)
                  (fact_finder_results w)) as [Hnew _].
      now rewrite (Hnew Habsent).
  - intros e w'. destruct api as [api_data|e0].
    + destruct (collect_sources api_data); [discriminate|].
      intros E. now injection E as _ <-.
    + intros E. now injection E as _ <-.
Qed.

Lemma fact_finder_run_persists_witness :
  exists (r : FactFinderResult.t) (w' : World),
    @run_fact_finder Examples.example_lib CounterpointExamples.example_conv
      (Ok CounterpointExamples.search_response) "  Prices rose "
      (Examples.world_with Examples.labelled_analysis (GenRaises "unused"))
    = (Ok r, w')
    /\ FactFinderResult.statement r = "Prices rose"
    /\ load_fact_result w' = (Ok r, w').
Proof.
  destruct (@run_fact_finder Examples.example_lib
              CounterpointExamples.example_conv
              (Ok CounterpointExamples.search_response) "  Prices rose "
              (Examples.world_with Examples.labelled_analysis
                 (GenRaises "unused")))
    as [[r|e] w'] eqn:Hrun; [|vm_compute in Hrun; discriminate Hrun].
  exists r, w'.
  destruct (proj1 (fact_finder_run_persists Examples.example_lib
                     CounterpointExamples.example_conv _ _ _) r w' Hrun)
    as (Hstmt & _ & _ & _ & Hload).
  split; [reflexivity|]. split; [exact Hstmt|]. now apply Hload.
Defined.
